(** * FacePresence: image validation and attendance submission

    A shallow embedding of the three pieces of the repository that decide
    what is accepted and what is recorded:

    - [ValidateFaceImage]: the edge function
      [supabase/functions/validate-face-image/index.ts];
    - [FaceEnrollment]: the [uploadPhotos] handler of the enrolment
      component, the only caller of the edge function;
    - [Camera]: the [handleCapture] / [sendAttendance] handlers of the
      camera page, which write the attendance record.

    JavaScript values are modelled as the code uses them: a [Uint8Array] is a
    list of bytes, an out-of-range read is [undefined] ([None]), the bit
    operators work on 32-bit signed integers, strings are sequences of
    one-byte code units.  Remote calls are answered by an explicit
    environment and every call made is appended to a log, so that "this
    call is never made" is a statement about the log. *)

From Stdlib Require Import ZArith List String Ascii Bool Lia Floats.
From Stdlib.Strings Require Import Byte.
From Stdlib Require Import DecimalString.
Import ListNotations.

Set Implicit Arguments.

(* ================================================================== *)
(** ** JavaScript primitives used by the sources *)

Module JS.
Local Open Scope Z_scope.

(** An abrupt completion ([throw new Error(message)]) or a normal one. *)
Inductive Completion (A : Type) : Type :=
| Normal (a : A)
| Throw (message : string).
Arguments Throw {A} message.

Definition Uint8Array := list byte.

(** [bytes.length] *)
Definition length (bytes : Uint8Array) : Z := Z.of_nat (List.length bytes).

(** [bytes[i]]: [None] is [undefined], the value of a read outside the array. *)
Definition get (bytes : Uint8Array) (i : Z) : option Z :=
  if i <? 0 then None
  else option_map (fun b => Z.of_N (Byte.to_N b)) (nth_error bytes (Z.to_nat i)).

(** ToInt32 of the language specification, on integers. *)
Definition ToInt32 (z : Z) : Z := (z + 2 ^ 31) mod 2 ^ 32 - 2 ^ 31.

(** ToInt32 of an array read: [undefined] converts to [NaN], then to [0]. *)
Definition int32 (v : option Z) : Z :=
  match v with Some z => ToInt32 z | None => 0 end.

(** [a << n] and [a | b] on operands already converted by [int32]. *)
Definition shl (a n : Z) : Z := ToInt32 (Z.shiftl a (n mod 32)).
Definition bor (a b : Z) : Z := ToInt32 (Z.lor a b).

(** [v === n], [v !== n], [v >= n], [v <= n] for an array read [v] and a
    number [n]; every comparison of [undefined] with a number is false,
    except [!==]. *)
Definition strictEq (v : option Z) (n : Z) : bool :=
  match v with Some z => z =? n | None => false end.
Definition strictNe (v : option Z) (n : Z) : bool := negb (strictEq v n).
Definition ge (v : option Z) (n : Z) : bool :=
  match v with Some z => n <=? z | None => false end.
Definition le (v : option Z) (n : Z) : bool :=
  match v with Some z => z <=? n | None => false end.

(** Truthiness of a value that is an object or [null]. *)
Definition truthy {A} (v : option A) : bool :=
  match v with Some _ => true | None => false end.

(** Template-literal rendering of an integer. *)
Definition showZ (z : Z) : string := NilZero.string_of_int (Z.to_int z).

(** [s.replace(pat, "")] with a string pattern: the first occurrence of
    [pat] is removed, the rest is kept. *)
Fixpoint stripPrefix (pat s : string) : option string :=
  match pat, s with
  | EmptyString, _ => Some s
  | String p pat', String c s' =>
      if Ascii.eqb p c then stripPrefix pat' s' else None
  | String _ _, EmptyString => None
  end.

Fixpoint removeFirst (pat s : string) : string :=
  match stripPrefix pat s with
  | Some rest => rest
  | None =>
      match s with
      | EmptyString => EmptyString
      | String c s' => String c (removeFirst pat s')
      end
  end.
End JS.

Import JS.

(* ================================================================== *)
(** ** Sequential code with remote calls

    A handler is a function of the component state that returns the calls it
    made, in order, the state it leaves and how it completed.  [await] logs
    a call and takes its answer from the environment: a rejected promise is
    a [Throw] at the [await]. *)

Module Async.
Inductive Promise (A : Type) : Type :=
| Resolved (a : A)
| Rejected (reason : string).
Arguments Rejected {A} reason.

(** The [{ data, error }] pair the client library resolves to. *)
Inductive Result (D : Type) : Type :=
| Data (data : D)
| Error (message : string).
Arguments Error {D} message.

Section Prog.
Variables St Call : Type.

Definition Prog (A : Type) : Type := St -> list Call * St * Completion A.

Definition ret {A} (a : A) : Prog A := fun s => ([], s, Normal a).
Definition throw {A} (message : string) : Prog A :=
  fun s => ([], s, Throw message).
Definition call (c : Call) : Prog unit := fun s => ([c], s, Normal tt).
Definition modify (f : St -> St) : Prog unit := fun s => ([], f s, Normal tt).

Definition bind {A B} (m : Prog A) (k : A -> Prog B) : Prog B :=
  fun s =>
    match m s with
    | (l, s', Normal a) =>
        match k a s' with (l', s'', r) => (l ++ l', s'', r) end
    | (l, s', Throw e) => (l, s', Throw e)
    end.

Definition await {A} (c : Call) (answer : Promise A) : Prog A :=
  fun s =>
    match answer with
    | Resolved a => ([c], s, Normal a)
    | Rejected e => ([c], s, Throw e)
    end.

(** [try { body } catch (e) { handler e }] *)
Definition tryCatch {A} (body : Prog A) (handler : string -> Prog A) : Prog A :=
  fun s =>
    match body s with
    | (l, s', Normal a) => (l, s', Normal a)
    | (l, s', Throw e) =>
        match handler e s' with (l', s'', r) => (l ++ l', s'', r) end
    end.

(** [try { body } finally { final }], for a [final] that does not throw. *)
Definition finally {A} (body : Prog A) (final : St -> St) : Prog A :=
  fun s => match body s with (l, s', r) => (l, final s', r) end.

Definition logOf {A} (r : list Call * St * Completion A) : list Call :=
  fst (fst r).
Definition stateOf {A} (r : list Call * St * Completion A) : St :=
  snd (fst r).
Definition completionOf {A} (r : list Call * St * Completion A) : Completion A :=
  snd r.
End Prog.

Arguments ret {St Call A} a.
Arguments throw {St Call A} message.
Arguments call {St Call} c.
Arguments modify {St Call} f.
Arguments await {St Call A} c answer.

Declare Scope prog_scope.
Delimit Scope prog_scope with prog.
Notation "x <- m ;; k" := (bind m (fun x => k))
  (at level 61, m at next level, right associativity) : prog_scope.
Notation "m ;; k" := (bind m (fun _ => k))
  (at level 61, right associativity) : prog_scope.
End Async.

Import Async.

(* ================================================================== *)
(** ** The edge function [validate-face-image] *)

Module ValidateFaceImage.
Local Open Scope string_scope.
Local Open Scope Z_scope.

Definition MAX_FILE_SIZE : Z := 5 * 1024 * 1024.
Definition MIN_DIMENSION : Z := 100.
Definition MAX_DIMENSION : Z := 4000.
Definition MAX_UPLOADS_PER_DAY : Z := 20.

(** [MAGIC_BYTES], in the order [Object.entries] lists it. *)
Definition MAGIC_BYTES : list (string * list Z) :=
  [ ("jpeg", [0xFF; 0xD8; 0xFF]);
    ("png",  [0x89; 0x50; 0x4E; 0x47]);
    ("webp", [0x52; 0x49; 0x46; 0x46]) ].

(** The messages of the errors thrown, with the template literals
    rendered over the constants above. *)
Definition msgFileTooLarge : string :=
  ("File too large. Maximum size: "
     ++ showZ (MAX_FILE_SIZE / 1024 / 1024) ++ "MB")%string.
Definition msgFileTooSmall : string := "File too small. Minimum size: 1KB".
Definition msgInvalidFormat : string :=
  "Invalid image format. Only JPEG, PNG, and WebP are allowed.".
Definition msgImageTooSmall : string :=
  ("Image too small. Minimum dimensions: "
     ++ showZ MIN_DIMENSION ++ "x" ++ showZ MIN_DIMENSION)%string.
Definition msgImageTooLarge : string :=
  ("Image too large. Maximum dimensions: "
     ++ showZ MAX_DIMENSION ++ "x" ++ showZ MAX_DIMENSION)%string.

(** [magic.every((byte, i) => bytes[i] === byte)], from index [i] on. *)
Fixpoint every (bytes : Uint8Array) (i : Z) (magic : list Z) : bool :=
  match magic with
  | [] => true
  | byte :: magic' => strictEq (get bytes i) byte && every bytes (i + 1) magic'
  end.

(** Lines 100-109: the [for ... of Object.entries(MAGIC_BYTES)] loop with
    its [break]; the result is [(validFormat, detectedFormat)]. *)
Fixpoint detectFormat (entries : list (string * list Z)) (bytes : Uint8Array)
  : bool * string :=
  match entries with
  | [] => (false, "")
  | (format, magic) :: rest =>
      if every bytes 0 magic then (true, format) else detectFormat rest bytes
  end.

(** Lines 133-138 and 156-161: the two [if ... throw] of the dimension
    check, which the source writes out once for JPEG and once for PNG. *)
Definition checkDimensions (width height : Z) : Completion unit :=
  if (width <? MIN_DIMENSION) || (height <? MIN_DIMENSION)
  then Throw msgImageTooSmall
  else if (width >? MAX_DIMENSION) || (height >? MAX_DIMENSION)
  then Throw msgImageTooLarge
  else Normal tt.

(** Line 129: the test that a marker is a start-of-frame marker. *)
Definition isSOF (marker : option Z) : bool :=
  ge marker 0xC0 && le marker 0xCF
    && strictNe marker 0xC4 && strictNe marker 0xC8 && strictNe marker 0xCC.

(** Lines 122-145: the [while (offset < bytes.length)] loop.  Every
    iteration moves [offset] forward by at least two, so [fuel] iterations
    are enough as soon as [fuel >= bytes.length - offset]; when the fuel is
    used up the loop condition is false and the loop is left normally. *)
Fixpoint jpegLoop (fuel : nat) (bytes : Uint8Array) (offset : Z)
  : Completion unit :=
  match fuel with
  | O => Normal tt
  | S fuel' =>
      if offset <? length bytes then
        if strictNe (get bytes offset) 0xFF then Normal tt
        else
          let marker := get bytes (offset + 1) in
          let offset := offset + 2 in
          if isSOF marker then
            let height :=
              bor (shl (int32 (get bytes (offset + 3))) 8)
                  (int32 (get bytes (offset + 4))) in
            let width :=
              bor (shl (int32 (get bytes (offset + 5))) 8)
                  (int32 (get bytes (offset + 6))) in
            checkDimensions width height
          else
            let segmentLength :=
              bor (shl (int32 (get bytes offset)) 8)
                  (int32 (get bytes (offset + 1))) in
            jpegLoop fuel' bytes (offset + segmentLength)
      else Normal tt
  end.

(** Lines 120-146. *)
Definition validateJpeg (bytes : Uint8Array) : Completion unit :=
  jpegLoop (List.length bytes) bytes 2.

(** One round of the loop of lines 122-145 with the cursor at [offset]:
    the loop is left, normally or with the error of the dimension check,
    or it goes on from a new cursor. *)
Inductive Round : Type :=
| Leave (c : Completion unit)
| Continue (offset : Z).

Definition jpegRound (bytes : Uint8Array) (offset : Z) : Round :=
  if offset <? length bytes then
    if strictNe (get bytes offset) 0xFF then Leave (Normal tt)
    else
      let marker := get bytes (offset + 1) in
      let offset := offset + 2 in
      if isSOF marker then
        let height :=
          bor (shl (int32 (get bytes (offset + 3))) 8)
              (int32 (get bytes (offset + 4))) in
        let width :=
          bor (shl (int32 (get bytes (offset + 5))) 8)
              (int32 (get bytes (offset + 6))) in
        Leave (checkDimensions width height)
      else
        let segmentLength :=
          bor (shl (int32 (get bytes offset)) 8)
              (int32 (get bytes (offset + 1))) in
        Continue (offset + segmentLength)
  else Leave (Normal tt).

(** The loop followed for [rounds] rounds: how it was left, or the cursor
    it has reached when it has not been left by then. *)
Fixpoint jpegRounds (rounds : nat) (bytes : Uint8Array) (offset : Z) : Round :=
  match rounds with
  | O => Continue offset
  | S rounds' =>
      match jpegRound bytes offset with
      | Leave c => Leave c
      | Continue offset' => jpegRounds rounds' bytes offset'
      end
  end.

(** Lines 149-163. *)
Definition validatePng (bytes : Uint8Array) : Completion unit :=
  if length bytes >=? 24 then
    let width :=
      bor (bor (bor (shl (int32 (get bytes 16)) 24)
                    (shl (int32 (get bytes 17)) 16))
               (shl (int32 (get bytes 18)) 8))
          (int32 (get bytes 19)) in
    let height :=
      bor (bor (bor (shl (int32 (get bytes 20)) 24)
                    (shl (int32 (get bytes 21)) 16))
               (shl (int32 (get bytes 22)) 8))
          (int32 (get bytes 23)) in
    checkDimensions width height
  else Normal tt.

(** The body of the 200 response. *)
Record Validated : Type := mkValidated {
  format : string;
  size : Z;
  message : string
}.

(** Lines 90-163 and 169-174: everything the function does with the
    decoded bytes, up to the body of the 200 response. *)
Definition validateImage (bytes : Uint8Array) : Completion Validated :=
  if length bytes >? MAX_FILE_SIZE then Throw msgFileTooLarge
  else if length bytes <? 1000 then Throw msgFileTooSmall
  else
    let (validFormat, detectedFormat) := detectFormat MAGIC_BYTES bytes in
    if negb validFormat then Throw msgInvalidFormat
    else
      match (if (detectedFormat =? "jpeg")%string then validateJpeg bytes else Normal tt) with
      | Throw m => Throw m
      | Normal _ =>
          match (if (detectedFormat =? "png")%string then validatePng bytes else Normal tt) with
          | Throw m => Throw m
          | Normal _ =>
              Normal (mkValidated detectedFormat (length bytes)
                                  "Image validation successful")
          end
      end.

(** *** The request handler *)

(** Line 76: [imageData.match(/^data:image\/([a-z]+);base64,(.+)$/)].
    [[a-z]+] can only stop where [;base64,] starts, so the first group is
    the whole run of lower-case letters; [.] matches every code unit but a
    line terminator and [$] only the end of the string.  The result is
    [(declaredType, base64Data)].

    [imageData] is held in its UTF-8 form, as the request body carries
    it.  The line terminators of the pattern language are LF, CR, U+2028
    and U+2029; the last two are the byte sequences [E2 80 A8] and
    [E2 80 A9], which occur in UTF-8 text nowhere else. *)
Definition isLower (c : ascii) : bool :=
  ((97 <=? N_of_ascii c) && (N_of_ascii c <=? 122))%N.

(** A line terminator starts at the head of [s]. *)
Definition isLineTerminator (s : string) : bool :=
  match s with
  | EmptyString => false
  | String c s' =>
      ((N_of_ascii c =? 10) || (N_of_ascii c =? 13))%N
      || match s' with
         | String c2 (String c3 _) =>
             ((N_of_ascii c =? 0xE2) && (N_of_ascii c2 =? 0x80)
              && ((N_of_ascii c3 =? 0xA8) || (N_of_ascii c3 =? 0xA9)))%N
         | _ => false
         end
  end.

Fixpoint spanLower (s : string) : string * string :=
  match s with
  | EmptyString => (EmptyString, EmptyString)
  | String c s' =>
      if isLower c
      then let (run, rest) := spanLower s' in (String c run, rest)
      else (EmptyString, s)
  end.

(** A line terminator starts somewhere in [s]. *)
Fixpoint hasLineTerminator (s : string) : bool :=
  match s with
  | EmptyString => false
  | String _ s' => isLineTerminator s || hasLineTerminator s'
  end.

Definition matchDataUrl (imageData : string) : option (string * string) :=
  match stripPrefix "data:image/" imageData with
  | None => None
  | Some afterPrefix =>
      let (declaredType, afterType) := spanLower afterPrefix in
      if (declaredType =? "")%string then None
      else
        match stripPrefix ";base64," afterType with
        | None => None
        | Some base64Data =>
            if (base64Data =? "")%string || hasLineTerminator base64Data
            then None
            else Some (declaredType, base64Data)
        end
  end.

(** The request: method, [Authorization] header and the two fields of the
    JSON body, which the interface [ValidateRequest] types as strings. *)
Record Request : Type := mkRequest {
  method : string;
  Authorization : option string;
  imageData : string;
  userId : string
}.

(** The answers of the two remote reads. *)
Record AuthResponse : Type := mkAuthResponse {
  user_id : option string;       (* [data.user?.id]; [None] when [user] is null *)
  authError : bool
}.
Record ProfileResponse : Type := mkProfileResponse {
  face_photos_length : option Z; (* [recentUploads?.face_photos?.length] *)
  countError : bool
}.
Record Env : Type := mkEnv {
  getUser : string -> AuthResponse;
  selectFacePhotos : string -> ProfileResponse
}.

(** The calls the handler makes. *)
Inductive Call : Type :=
| auth_getUser (token : string)
| profiles_select_face_photos (userId : string)
| atob_call (base64Data : string)
| console_error (label : string)
| console_log (text : string).

Inductive Body : Type :=
| NullBody
| ValidBody (v : Validated)          (* [{ valid: true, format, size, message }] *)
| InvalidBody (error : string).      (* [{ valid: false, error }] *)

Record Response : Type := mkResponse {
  status : Z;
  body : Body
}.

Definition lift {A} (c : Completion A) : Prog unit Call A :=
  match c with Normal a => ret a | Throw m => throw m end.

Section Serve.
(** [atob] is the platform's base64 decoder: it returns the binary
    string or throws. *)
Variable atob : string -> Completion string.

Local Open Scope prog_scope.

(** Lines 33-165: the [try] block. *)
Definition tryBlock (env : Env) (req : Request) : Prog unit Call Validated :=
  authHeader <-
    match Authorization req with
    | None => throw "Missing authorization header"
    | Some h =>
        if (h =? "")%string then throw "Missing authorization header" else ret h
    end ;;
  let token := removeFirst "Bearer " authHeader in
  call (auth_getUser token) ;;
  user <-
    (let r := getUser env token in
     if authError r then throw "Unauthorized"
     else match user_id r with
          | None => throw "Unauthorized"
          | Some id => ret id
          end) ;;
  if negb (user =? userId req)%string
  then throw "Unauthorized: Cannot upload for another user"
  else
    call (profiles_select_face_photos (userId req)) ;;
    let recentUploads := selectFacePhotos env (userId req) in
    (if countError recentUploads
     then call (console_error "Error checking rate limit:")
     else ret tt) ;;
    let currentPhotoCount :=
      match face_photos_length recentUploads with
      | Some n => n
      | None => 0
      end in
    if currentPhotoCount >=? MAX_UPLOADS_PER_DAY
    then throw ("Upload limit exceeded. Maximum "
                  ++ showZ MAX_UPLOADS_PER_DAY ++ " photos allowed.")%string
    else
      match matchDataUrl (imageData req) with
      | None => throw "Invalid image data format"
      | Some (declaredType, base64Data) =>
          call (atob_call base64Data) ;;
          binaryString <- lift (atob base64Data) ;;
          let bytes := list_byte_of_string binaryString in
          v <- lift (validateImage bytes) ;;
          call (console_log ("Image validated: " ++ format v ++ ", "
                               ++ showZ (size v) ++ " bytes")%string) ;;
          ret v
      end.

(** Lines 26-193: the function passed to [serve]. *)
Definition serve (env : Env) (req : Request) : list Call * Response :=
  if (method req =? "OPTIONS")%string then ([], mkResponse 200 NullBody)
  else
    match tryBlock env req tt with
    | (l, _, Normal v) => (l, mkResponse 200 (ValidBody v))
    | (l, _, Throw m) =>
        ((l ++ [console_error "Validation error:"])%list,
         mkResponse 400
           (InvalidBody (if (m =? "")%string then "Image validation failed" else m)))
    end.
End Serve.
End ValidateFaceImage.

(* ================================================================== *)
(** ** The platform's [atob]

    The handler is stated for any decoder.  To run it on concrete requests
    the decoder is the forgiving base64 decoding [atob] is specified by:
    ASCII white space is dropped, one or two trailing [=] are removed when
    the length is a multiple of four, a length of 1 modulo 4 or a character
    outside the alphabet is an error, left-over bits are discarded. *)

Module Base64.
Local Open Scope N_scope.

Definition sextet (c : ascii) : option N :=
  let n := N_of_ascii c in
  if (65 <=? n) && (n <=? 90) then Some (n - 65)
  else if (97 <=? n) && (n <=? 122) then Some (n - 71)
  else if (48 <=? n) && (n <=? 57) then Some (n + 4)
  else if n =? 43 then Some 62
  else if n =? 47 then Some 63
  else None.

Definition isSpace (c : ascii) : bool :=
  let n := N_of_ascii c in
  (n =? 9) || (n =? 10) || (n =? 12) || (n =? 13) || (n =? 32).

Fixpoint chars (s : string) : list ascii :=
  match s with
  | EmptyString => []
  | String c s' => if isSpace c then chars s' else c :: chars s'
  end.

Definition isPad (c : ascii) : bool := N_of_ascii c =? 61.

(** Removes up to two trailing [=] of a reversed character list. *)
Definition dropPadding (rev : list ascii) : list ascii :=
  match rev with
  | p :: q :: r => if isPad p then (if isPad q then r else q :: r) else rev
  | _ => rev
  end.

Fixpoint sextets (l : list ascii) : option (list N) :=
  match l with
  | [] => Some []
  | c :: l' =>
      match sextet c, sextets l' with
      | Some n, Some ns => Some (n :: ns)
      | _, _ => None
      end
  end.

Fixpoint octets (l : list N) : string :=
  match l with
  | a :: b :: c :: d :: r =>
      let v := ((a * 64 + b) * 64 + c) * 64 + d in
      String (ascii_of_N (v / 65536))
        (String (ascii_of_N (v / 256 mod 256))
           (String (ascii_of_N (v mod 256)) (octets r)))
  | [a; b; c] =>
      let v := ((a * 64 + b) * 64 + c) / 4 in
      String (ascii_of_N (v / 256)) (String (ascii_of_N (v mod 256)) EmptyString)
  | [a; b] => String (ascii_of_N ((a * 64 + b) / 16)) EmptyString
  | _ => EmptyString
  end.

Definition atob (data : string) : Completion string :=
  let cs := chars data in
  let cs :=
    if N.of_nat (List.length cs) mod 4 =? 0 then rev (dropPadding (rev cs)) else cs in
  if N.of_nat (List.length cs) mod 4 =? 1
  then Throw "Failed to decode base64"
  else match sextets cs with
       | Some ns => Normal (octets ns)
       | None => Throw "Failed to decode base64"
       end.
End Base64.

(* ================================================================== *)
(** ** The browser side: what the two components call *)

Module Client.
Definition Blob := string.

(** The row [sendAttendance] inserts into [attendance_records]. *)
Record AttendanceRecord : Type := mkAttendanceRecord {
  user_id : string;
  roll_number : string;
  student_name : string;
  email : string;
  confidence_score : float;
  status : string;
  face_vector : list float;
  image_url : option string
}.

(** The body sent to [send-attendance-email]. *)
Record EmailBody : Type := mkEmailBody {
  mail_email : string;
  mail_name : string;
  mail_rollNumber : string;
  mail_status : string;
  mail_timestamp : string;
  mail_confidenceScore : float
}.

(** The answer of [functions.invoke("validate-face-image")]:
    [data?.valid], [data?.error] and [error?.message]. *)
Record ValidationData : Type := mkValidationData {
  valid : bool;
  error : option string
}.
Record InvokeResponse : Type := mkInvokeResponse {
  data : option ValidationData;
  invokeError : option string
}.

Inductive Timer : Type :=
| markCompleted      (* the callback of line 268 of the camera page *)
| backToScanning.    (* the callback of line 277 *)

Inductive Call : Type :=
| faceapi_detectSingleFace
| functions_invoke_validate (imageData userId : string)
| fetch_blob (url : string)
| storage_upload (path : string) (blob : Blob) (contentType : string)
| storage_createSignedUrl (path : string) (expiresIn : Z)
| attendance_records_insert (row : AttendanceRecord)
| profiles_update_face_photos (userId : string) (face_photos : list string)
| functions_invoke_email (body : EmailBody)
| setTimeout (callback : Timer) (ms : Z)
| toast (title description : string)
| onComplete
| console_error (label : string).

(** Everything outside the component: the clock, the canvas, the detector
    and the answers of the remote services, as functions of the arguments
    of the call. *)
Record World : Type := mkWorld {
  Date_now : nat -> Z;   (* the clock read for the n-th photo; 0 for a single read *)
  toISOString : string;  (* [new Date().toISOString()] *)
  detectSingleFace : Promise (option (list float));
  toBlob : option Blob;  (* what [canvas.toBlob] hands to its callback *)
  fetchBlob : string -> Promise Blob;
  invokeValidate : string -> string -> Promise InvokeResponse;
  upload : string -> Blob -> Promise (Result unit);
  createSignedUrl : string -> Z -> Promise (Result string);
  insertAttendance : AttendanceRecord -> Promise (Result unit);
  updateFacePhotos : string -> list string -> Promise (Result unit);
  invokeEmail : EmailBody -> Promise unit
}.

(** What a log holds of each kind of call. *)
Definition validations (l : list Call) : list string :=
  flat_map (fun c => match c with
                     | functions_invoke_validate image _ => [image]
                     | _ => []
                     end) l.
Definition uploads (l : list Call) : list string :=
  flat_map (fun c => match c with storage_upload path _ _ => [path] | _ => [] end) l.
Definition inserted (l : list Call) : list AttendanceRecord :=
  flat_map (fun c => match c with attendance_records_insert row => [row] | _ => [] end) l.
Definition profileUpdates (l : list Call) : list (list string) :=
  flat_map (fun c => match c with
                     | profiles_update_face_photos _ photos => [photos]
                     | _ => []
                     end) l.
Definition emails (l : list Call) : list EmailBody :=
  flat_map (fun c => match c with functions_invoke_email body => [body] | _ => [] end) l.
Definition toasts (l : list Call) : list string :=
  flat_map (fun c => match c with toast title _ => [title] | _ => [] end) l.

(** The same world with another validation service. *)
Definition withValidate (w : World)
           (service : string -> string -> Promise InvokeResponse) : World :=
  mkWorld (Date_now w) (toISOString w) (detectSingleFace w) (toBlob w) (fetchBlob w)
          service (upload w) (createSignedUrl w) (insertAttendance w)
          (updateFacePhotos w) (invokeEmail w).

(** The same world with another answer of the face detector. *)
Definition withDetection (w : World) (answer : Promise (option (list float))) : World :=
  mkWorld (Date_now w) (toISOString w) answer (toBlob w) (fetchBlob w)
          (invokeValidate w) (upload w) (createSignedUrl w) (insertAttendance w)
          (updateFacePhotos w) (invokeEmail w).

(** A row without its face vector. *)
Definition withoutVector (row : AttendanceRecord) : AttendanceRecord :=
  mkAttendanceRecord (user_id row) (roll_number row) (student_name row) (email row)
                     (confidence_score row) (status row) [] (image_url row).
End Client.

(* ================================================================== *)
(** ** The camera page: [handleCapture] and [sendAttendance] *)

Module Camera.
Import Client.
Local Open Scope string_scope.
Local Open Scope prog_scope.

Inductive Status : Type := scanning | success | error | completed.

(** The state the handlers set. *)
Record UI : Type := mkUI {
  status : Status;
  message : string;
  isProcessing : bool;
  hasDetected : bool;       (* [hasDetectedRef.current] *)
  cameraStopped : bool      (* the tracks of the stream have been stopped *)
}.

Record Profile : Type := mkProfile {
  roll_number : string;
  full_name : string;
  email : string
}.

(** What the handlers read and never change. *)
Record Props : Type := mkProps {
  user : option string;      (* [user.id], [None] when [user] is null *)
  profile : option Profile;
  videoRef : bool;           (* [videoRef.current] is set *)
  srcObject : bool;          (* [videoRef.current.srcObject] is set *)
  canvasRef : bool;          (* [canvasRef.current] is set *)
  context2d : bool           (* [canvas.getContext("2d")] is not null *)
}.

Definition setStatus (s : Status) : Prog UI Call unit :=
  modify (fun ui => mkUI s (message ui) (isProcessing ui) (hasDetected ui) (cameraStopped ui)).
Definition setMessage (m : string) : Prog UI Call unit :=
  modify (fun ui => mkUI (status ui) m (isProcessing ui) (hasDetected ui) (cameraStopped ui)).
Definition setIsProcessing (b : bool) : Prog UI Call unit :=
  modify (fun ui => mkUI (status ui) (message ui) b (hasDetected ui) (cameraStopped ui)).
Definition setHasDetected (b : bool) : Prog UI Call unit :=
  modify (fun ui => mkUI (status ui) (message ui) (isProcessing ui) b (cameraStopped ui)).

(** Lines 182-186: [userFileName]. *)
Definition userFileName (w : World) (userId : string) (prof : Profile) : string :=
  let fileName := roll_number prof ++ "_" ++ showZ (Date_now w 0) ++ ".jpg" in
  userId ++ "/" ++ fileName.

(** Line 219: [confidenceScore = 0.90], the double nearest to 0.9. *)
Definition confidenceScore : float := 0x1.ccccccccccccdp-1%float.

(** Lines 227-236: the object passed to [insert]. *)
Definition row (userId : string) (prof : Profile) (vector : list float)
           (imageUrl : option string) : AttendanceRecord :=
  mkAttendanceRecord userId (roll_number prof) (full_name prof) (email prof)
                     confidenceScore "present" vector imageUrl.

(** Lines 253-260: the body of the notification. *)
Definition emailBody (w : World) (prof : Profile) : EmailBody :=
  mkEmailBody (email prof) (full_name prof) (roll_number prof)
              "present" (toISOString w) confidenceScore.

(** Lines 161-212: the capture and upload of the frame; the result is
    [imageUrl].  The [console.log] calls are left out. *)
Definition captureImage (w : World) (p : Props) (userId : string) (prof : Profile)
  : Prog UI Call (option string) :=
  if videoRef p then
    if context2d p then
      blob <- match toBlob w with
              | Some b => ret b
              | None => throw "TypeError: blob is null"   (* [blob.size] *)
              end ;;
      setMessage "Uploading to Cloud..." ;;
      let userFileName := userFileName w userId prof in
      uploaded <- await (storage_upload userFileName blob "image/jpeg")
                        (upload w userFileName blob) ;;
      match uploaded with
      | Error _ => call (console_error "Error uploading image:") ;; ret None
      | Data _ =>
          signed <- await (storage_createSignedUrl userFileName 3600)
                          (createSignedUrl w userFileName 3600) ;;
          match signed with
          | Error _ => call (console_error "Error creating signed URL:") ;; ret None
          | Data signedUrl => ret (Some signedUrl)
          end
      end
    else ret None
  else ret None.

(** Lines 214-272: the row is inserted, the page shows "present", the
    notification goes out and the timer of the final message is set. *)
Definition markPresent (w : World) (userId : string) (prof : Profile)
           (vector : list float) (imageUrl : option string) : Prog UI Call unit :=
  setMessage "Processing face recognition..." ;;
  setMessage "Saving to database..." ;;
  inserted <-
    await (attendance_records_insert (row userId prof vector imageUrl))
          (insertAttendance w (row userId prof vector imageUrl)) ;;
  match inserted with
  | Error _ => call (console_error "Error saving to database:")
  | Data _ => ret tt
  end ;;
  setStatus success ;;
  setMessage "âœ… Present Marked" ;;   (* the bytes of the source file *)
  tryCatch
    (await (functions_invoke_email (emailBody w prof))
           (invokeEmail w (emailBody w prof)))
    (fun _ => call (console_error "Email notification error:")) ;;
  call (setTimeout markCompleted 2000).

(** Lines 273-283: the [catch] block. *)
Definition recordingFailed : Prog UI Call unit :=
  call (console_error "Error sending attendance:") ;;
  setStatus error ;;
  setMessage "Error recording attendance. Please try again." ;;
  call (setTimeout backToScanning 3000).

(** Lines 153-284. *)
Definition sendAttendance (w : World) (p : Props) (vector : list float)
  : Prog UI Call unit :=
  match user p, profile p with
  | Some userId, Some prof =>
      tryCatch
        (setMessage "Capturing face image..." ;;
         imageUrl <- captureImage w p userId prof ;;
         markPresent w userId prof vector imageUrl)
        (fun _ => recordingFailed)
  | _, _ => ret tt
  end.

(** Lines 114-151.  The drawing of the detection on the canvas is left
    out. *)
Definition handleCapture (w : World) (p : Props) : Prog UI Call unit :=
  fun ui =>
    if isProcessing ui || negb (truthy (user p)) || negb (truthy (profile p))
       || negb (videoRef p) || negb (canvasRef p)
    then ret tt ui
    else
      (setIsProcessing true ;;
       setMessage "Detecting face..." ;;
       tryCatch
         (detections <- await faceapi_detectSingleFace (detectSingleFace w) ;;
          match detections with
          | None =>
              setMessage "No face detected. Please try again." ;;
              setIsProcessing false
          | Some descriptor =>
              setHasDetected true ;;
              sendAttendance w p descriptor
          end)
         (fun _ =>
            call (console_error "Detection error:") ;;
            setMessage "Error detecting face. Please try again." ;;
            setIsProcessing false)) ui.

(** Lines 107-112: [stopCamera].  The tracks are stopped only when the
    video element is there and holds a stream. *)
Definition stopCamera (p : Props) (ui : UI) : UI :=
  if videoRef p && srcObject p
  then mkUI (status ui) (message ui) (isProcessing ui) (hasDetected ui) true
  else ui.

(** The two timer callbacks, lines 268-272 and 277-282. *)
Definition fire (p : Props) (t : Timer) (ui : UI) : UI :=
  match t with
  | markCompleted =>
      stopCamera p
        (mkUI completed "Attendance Recorded Successfully! Check your email."
              (isProcessing ui) (hasDetected ui) (cameraStopped ui))
  | backToScanning =>
      mkUI scanning "Camera ready. Click 'Capture Attendance' when ready."
           false false (cameraStopped ui)
  end.

(** The state once the timers a run has set have fired. *)
Fixpoint settle (p : Props) (l : list Call) (ui : UI) : UI :=
  match l with
  | [] => ui
  | setTimeout t _ :: l' => settle p l' (fire p t ui)
  | _ :: l' => settle p l' ui
  end.
End Camera.

(* ================================================================== *)
(** ** The enrolment component: [uploadPhotos] *)

Module FaceEnrollment.
Import Client.
Local Open Scope string_scope.
Local Open Scope prog_scope.

(** The component state [uploadPhotos] sets: [uploading]. *)
Definition St := bool.

(** [a || b || c] on messages: the first one that is not empty. *)
Definition orElse (a : option string) (b : string) : string :=
  match a with
  | Some m => if (m =? "") then b else m
  | None => b
  end.

(** Line 114: [validationError || !validationData?.valid]. *)
Definition validationFailed (r : InvokeResponse) : bool :=
  truthy (invokeError r)
  || negb (match data r with Some d => valid d | None => false end).

(** Line 115: the message of the error thrown. *)
Definition validationMessage (r : InvokeResponse) : string :=
  orElse (match data r with Some d => error d | None => None end)
         (orElse (invokeError r) "Image validation failed").

(** Lines 100-139: the [for] loop from index [i] on, over the photos left. *)
Fixpoint uploadLoop (w : World) (userId : string) (photos : list string)
         (i : nat) (uploadedUrls : list string) : Prog St Call (list string) :=
  match photos with
  | [] => ret uploadedUrls
  | photo :: rest =>
      validation <- await (functions_invoke_validate photo userId)
                          (invokeValidate w photo userId) ;;
      if validationFailed validation then throw (validationMessage validation)
      else
        blob <- await (fetch_blob photo) (fetchBlob w photo) ;;
        let fileName :=
          userId ++ "_face_" ++ showZ (Z.of_nat i) ++ "_"
                 ++ showZ (Date_now w i) ++ ".jpg" in
        let filePath := userId ++ "/" ++ fileName in
        uploaded <- await (storage_upload filePath blob "image/jpeg")
                          (upload w filePath blob) ;;
        match uploaded with
        | Error m => throw m
        | Data _ =>
            signed <- await (storage_createSignedUrl filePath 31536000)
                            (createSignedUrl w filePath 31536000) ;;
            match signed with
            | Error m => throw m
            | Data signedUrl =>
                uploadLoop w userId rest (S i) (uploadedUrls ++ [signedUrl])%list
            end
        end
  end.

(** Lines 86-165. *)
Definition uploadPhotos (w : World) (userId : string) (photos : list string)
  : Prog St Call unit :=
  match photos with
  | [] => call (toast "No photos" "Please capture or upload at least one photo.")
  | _ =>
      modify (fun _ => true) ;;
      finally
        (tryCatch
           (uploadedUrls <- uploadLoop w userId photos 0 [] ;;
            updated <- await (profiles_update_face_photos userId uploadedUrls)
                             (updateFacePhotos w userId uploadedUrls) ;;
            match updated with
            | Error m => throw m
            | Data _ =>
                call (toast "Success!" "Face photos uploaded successfully.") ;;
                call onComplete
            end)
           (fun m =>
              call (console_error "Upload error:") ;;
              call (toast "Upload Failed"
                          (if (m =? "") then "Failed to upload photos." else m))))
        (fun _ => false)
  end.
End FaceEnrollment.

(* ================================================================== *)
(** ** The vocabulary of the specification

    The specification speaks of signatures, of big-endian fields at byte
    offsets and of the first start-of-frame segment.  These definitions say
    what those words mean on a byte sequence; the theorems below compare
    them with what the code computes. *)

Module Spec.
Local Open Scope Z_scope.

Definition JPEG_SIGNATURE : list byte := [xff; xd8; xff].
Definition PNG_SIGNATURE : list byte := [x89; x50; x4e; x47].
Definition RIFF_SIGNATURE : list byte := [x52; x49; x46; x46].

(** The leading bytes of [bytes] are [signature]. *)
Definition startsWith (signature bytes : list byte) : Prop :=
  exists rest, bytes = signature ++ rest.

Definition toZ (b : byte) : Z := Z.of_N (Byte.to_N b).

(** The byte at an offset, as a number; a missing byte counts as zero. *)
Definition byteAt (bytes : list byte) (i : Z) : Z :=
  match get bytes i with Some z => z | None => 0 end.

(** Unsigned big-endian fields. *)
Definition be16 (bytes : list byte) (i : Z) : Z :=
  byteAt bytes i * 2 ^ 8 + byteAt bytes (i + 1).
Definition be32 (bytes : list byte) (i : Z) : Z :=
  byteAt bytes i * 2 ^ 24 + byteAt bytes (i + 1) * 2 ^ 16
  + byteAt bytes (i + 2) * 2 ^ 8 + byteAt bytes (i + 3).

(** The same 32 bits read as a two's complement number. *)
Definition signed32 (u : Z) : Z := if u <? 2 ^ 31 then u else u - 2 ^ 32.

(** A marker-type byte of a start-of-frame segment. *)
Definition sofMarker (m : Z) : bool :=
  (0xC0 <=? m) && (m <=? 0xCF)
    && negb (m =? 0xC4) && negb (m =? 0xC8) && negb (m =? 0xCC).

(** The walk over the marker segments from the cursor [offset] on: a
    segment starts with [0xFF], the marker-type byte follows, then the
    16-bit segment length that leads to the next segment.  The result is
    the index of the marker-type byte of the first start-of-frame segment
    met, if the walk meets one. *)
Fixpoint firstSOF (fuel : nat) (bytes : list byte) (offset : Z) : option Z :=
  match fuel with
  | O => None
  | S fuel' =>
      if (offset <? JS.length bytes) && (byteAt bytes offset =? 0xFF) then
        match get bytes (offset + 1) with
        | Some m =>
            if sofMarker m then Some (offset + 1)
            else firstSOF fuel' bytes (offset + 2 + be16 bytes (offset + 2))
        | None => firstSOF fuel' bytes (offset + 2 + be16 bytes (offset + 2))
        end
      else None
  end.

(** The dimension gate of the specification, on the two axes. *)
Definition withinBounds (width height : Z) : Prop :=
  100 <= width <= 4000 /\ 100 <= height <= 4000.

(** A data URI with a declared subtype and a base64 payload. *)
Definition dataUrl (subtype payload : string) : string :=
  ("data:image/" ++ subtype ++ ";base64," ++ payload)%string.

(** A subtype the envelope accepts: one or more lower-case letters. *)
Fixpoint allLower (s : string) : bool :=
  match s with
  | EmptyString => true
  | String c s' => ValidateFaceImage.isLower c && allLower s'
  end.
Definition subtypeOk (s : string) : Prop :=
  s <> EmptyString /\ allLower s = true.

(** The same request with another image. *)
Definition withImageData (req : ValidateFaceImage.Request) (image : string)
  : ValidateFaceImage.Request :=
  ValidateFaceImage.mkRequest (ValidateFaceImage.method req)
    (ValidateFaceImage.Authorization req) image (ValidateFaceImage.userId req).
End Spec.

(* ================================================================== *)
(** ** Concrete inputs *)

Module Examples.
Local Open Scope string_scope.
Local Open Scope Z_scope.

Definition byteOf (z : Z) : byte :=
  match Byte.of_N (Z.to_N z) with Some b => b | None => x00 end.

(** Zero bytes appended up to a total length of [n]. *)
Definition padTo (n : nat) (l : list byte) : list byte :=
  (l ++ repeat x00 (n - List.length l))%list.

(** A 1000-byte JPEG stream: SOI, then a baseline start-of-frame segment
    (marker [FF C0], length 17, precision 8, height, width, three
    components). *)
Definition jpegSOF0 (width height : Z) : list byte :=
  padTo 1000
    [ xff; xd8;
      xff; xc0; x00; x11; x08;
      byteOf (height / 256); byteOf (height mod 256);
      byteOf (width / 256); byteOf (width mod 256);
      x03; x01; x22; x00; x02; x11; x01; x03; x11; x01 ].

(** The same with a JFIF application segment before the frame header. *)
Definition jfifSOF0 (width height : Z) : list byte :=
  padTo 1000
    [ xff; xd8;
      xff; xe0; x00; x10; x4a; x46; x49; x46; x00; x01; x01; x00; x00; x01;
      x00; x01; x00; x00;
      xff; xc0; x00; x11; x08;
      byteOf (height / 256); byteOf (height mod 256);
      byteOf (width / 256); byteOf (width mod 256);
      x03; x01; x22; x00; x02; x11; x01; x03; x11; x01 ].

(** A 1000-byte PNG stream: the 8-byte signature, then the IHDR chunk
    (length 13, type, width, height, bit depth 8, colour type 2). *)
Definition pngIHDR (width height : Z) : list byte :=
  padTo 1000
    [ x89; x50; x4e; x47; x0d; x0a; x1a; x0a;
      x00; x00; x00; x0d; x49; x48; x44; x52;
      byteOf (width / 16777216); byteOf (width / 65536 mod 256);
      byteOf (width / 256 mod 256); byteOf (width mod 256);
      byteOf (height / 16777216); byteOf (height / 65536 mod 256);
      byteOf (height / 256 mod 256); byteOf (height mod 256);
      x08; x02; x00; x00; x00 ].

(** The start of a WAVE sound file: [RIFF], the chunk size, [WAVEfmt ]. *)
Definition wavFile : list byte :=
  padTo 1000
    [ x52; x49; x46; x46; xe0; x03; x00; x00;
      x57; x41; x56; x45; x66; x6d; x74; x20;
      x10; x00; x00; x00; x01; x00; x01; x00 ].

(** A GIF image header ([GIF89a]) and a run of zero bytes. *)
Definition gifFile : list byte :=
  padTo 1000 [ x47; x49; x46; x38; x39; x61; x64; x00; x64; x00 ].
Definition zeros : list byte := repeat x00 1000.

(** The base64 text of [zeros]: 333 groups [AAAA] and [AA==]. *)
Fixpoint times (n : nat) (s : string) : string :=
  match n with O => EmptyString | S n' => (s ++ times n' s)%string end.
Definition zerosBase64 : string := (times 333 "AAAA" ++ "AA==")%string.

(** An edge-function environment where the bearer token is the user id
    and the profile holds three photos. *)
Definition env : ValidateFaceImage.Env :=
  ValidateFaceImage.mkEnv
    (fun token => ValidateFaceImage.mkAuthResponse (Some token) false)
    (fun _ => ValidateFaceImage.mkProfileResponse (Some 3) false).

Definition request (token userId image : string) : ValidateFaceImage.Request :=
  ValidateFaceImage.mkRequest "POST" (Some ("Bearer " ++ token)%string) image userId.

(** The browser side. *)
Definition profile : Camera.Profile :=
  Camera.mkProfile "21CS042" "Asha Rao" "asha@example.edu".
Definition props : Camera.Props :=
  Camera.mkProps (Some "user-1") (Some profile) true true true true.
Definition idle : Camera.UI :=
  Camera.mkUI Camera.scanning "Camera ready. Click 'Capture Attendance' when ready."
              false false false.

(** A world where every service answers, and the validation service
    answers [valid: false] to every image. *)
Definition rejecting : Client.World :=
  Client.mkWorld
    (fun _ => 1762860000000)
    "2025-11-11T11:20:00.000Z"
    (Resolved (Some [0x1p-3%float; (-0x1p-4)%float]))
    (Some "jpeg-bytes"%string)
    (fun _ => Resolved "jpeg-bytes"%string)
    (fun _ _ => Resolved (Client.mkInvokeResponse
                            (Some (Client.mkValidationData false
                                     (Some "Invalid image format. Only JPEG, PNG, and WebP are allowed."%string)))
                            None))
    (fun _ _ => Resolved (Data tt))
    (fun path _ => Resolved (Data ("https://storage.example/" ++ path)%string))
    (fun _ => Resolved (Data tt))
    (fun _ _ => Resolved (Data tt))
    (fun _ => Resolved tt).

(** A world where the storage write fails and the insert succeeds. *)
Definition storageDown : Client.World :=
  Client.mkWorld
    (Client.Date_now rejecting) (Client.toISOString rejecting)
    (Client.detectSingleFace rejecting) (Client.toBlob rejecting)
    (Client.fetchBlob rejecting) (Client.invokeValidate rejecting)
    (fun _ _ => Resolved (Error "storage unavailable"))
    (Client.createSignedUrl rejecting)
    (Client.insertAttendance rejecting)
    (Client.updateFacePhotos rejecting)
    (Client.invokeEmail rejecting).

(** A world where the storage write succeeds and the insert fails. *)
Definition insertFails : Client.World :=
  Client.mkWorld
    (Client.Date_now rejecting) (Client.toISOString rejecting)
    (Client.detectSingleFace rejecting) (Client.toBlob rejecting)
    (Client.fetchBlob rejecting) (Client.invokeValidate rejecting)
    (Client.upload rejecting)
    (Client.createSignedUrl rejecting)
    (fun _ => Resolved (Error "row-level security policy violated"))
    (Client.updateFacePhotos rejecting)
    (Client.invokeEmail rejecting).
End Examples.

(* ================================================================== *)
(** ** The edge function [send-attendance-email] *)

Module SendAttendanceEmail.
Local Open Scope string_scope.
Local Open Scope prog_scope.

(** The JSON body, [AttendanceEmailRequest]. *)
Record AttendanceEmailRequest : Type := mkAttendanceEmailRequest {
  email : string;
  name : string;
  rollNumber : string;
  status : string;
  timestamp : string;
  confidenceScore : option float
}.

Record Request : Type := mkRequest {
  method : string;
  authorization : option string;
  body : AttendanceEmailRequest
}.

(** The answer of [auth.getUser]: [user] with its [email], and [error]. *)
Record User : Type := mkUser {
  user_email : option string
}.
Record AuthResponse : Type := mkAuthResponse {
  user : option User;
  authError : bool
}.

(** The values the template literal of lines 76-189 puts into its constant
    markup, in the order they occur (the name and the emoji occur twice). *)
Record Html : Type := mkHtml {
  statusColor : string;
  statusEmoji : string;
  greeting : string;                 (* [Hello ${name},] *)
  sentence : string;                 (* the text after "has been" *)
  badge : string;                    (* [status], upper-cased by the platform *)
  shownRollNumber : string;
  shownName : string;
  shownTimestamp : string;           (* [timestamp], formatted by the platform *)
  shownConfidence : option float     (* the row is there when the score is truthy *)
}.

(** The argument of [resend.emails.send]. *)
Record Email : Type := mkEmail {
  from : string;
  to : list string;
  subject : string;
  html : Html
}.

(** What [resend.emails.send] resolves to: [{ data, error }].  Version
    2.0.0 of the client resolves also when the service refuses the mail,
    then with [data: null] and [error] set. *)
Record CreateEmailResponse : Type := mkCreateEmailResponse {
  data : option string;                    (* [data?.id] *)
  error : option string                    (* [error?.message] *)
}.

Record Env : Type := mkEnv {
  getUser : string -> AuthResponse;        (* by token *)
  send : Email -> Completion CreateEmailResponse   (* resolves, or throws *)
}.

Inductive Call : Type :=
| auth_getUser (token : string)
| resend_emails_send (mail : Email)
| console_error (label : string)
| console_log (label : string).

Inductive Body : Type :=
| NullBody
| Success (emailResponse : CreateEmailResponse)   (* [{ success: true, data }] *)
| Failure (message : string).         (* [{ success: false, error }] *)

Record Response : Type := mkResponse {
  code : Z;
  answer : Body
}.

(** Truthiness of a number: neither zero nor NaN. *)
Definition truthyNumber (x : float) : bool :=
  negb (PrimFloat.eqb x 0%float) && PrimFloat.eqb x x.

(** Lines 69-189: the mail. *)
Definition compose (b : AttendanceEmailRequest) : Email :=
  let present := (status b =? "present") in
  let statusColor := if present then "#10b981" else "#ef4444" in
  let statusEmoji := if present then "✅" else "❌" in
  mkEmail "FacePresence <onboarding@resend.dev>"
          [email b]
          ("Attendance " ++ (if present then "Marked" else "Alert") ++ " - "
             ++ rollNumber b)
          (mkHtml statusColor statusEmoji (name b)
                  (if present then "successfully recorded" else "marked as absent")
                  (status b) (rollNumber b) (name b) (timestamp b)
                  (match confidenceScore b with
                   | Some c => if truthyNumber c then Some c else None
                   | None => None
                   end)).

(** Lines 27-200: the [try] block; a [return] is the value of the block. *)
Definition tryBlock (env : Env) (req : Request) : Prog unit Call Response :=
  match authorization req with
  | None => ret (mkResponse 401 (Failure "Missing authorization header"))
  | Some authHeader =>
      if (authHeader =? "")
      then ret (mkResponse 401 (Failure "Missing authorization header"))
      else
        let token := removeFirst "Bearer " authHeader in
        call (auth_getUser token) ;;
        let r := getUser env token in
        match (if authError r then None else user r) with
        | None =>
            call (console_error "Authentication error:") ;;
            ret (mkResponse 401 (Failure "Unauthorized"))
        | Some u =>
            let b := body req in
            if negb (match user_email u with
                     | Some e => (e =? email b)
                     | None => false
                     end)
            then
              call (console_error "Email mismatch: user email") ;;
              ret (mkResponse 403 (Failure "Unauthorized: email mismatch"))
            else
              call (console_log "Authenticated user verified:") ;;
              call (console_log "Sending attendance email to:") ;;
              call (resend_emails_send (compose b)) ;;
              match send env (compose b) with
              | Throw m => throw m
              | Normal emailResponse =>
                  call (console_log "Email sent successfully:") ;;
                  ret (mkResponse 200 (Success emailResponse))
              end
        end
  end.

(** Lines 21-211. *)
Definition handler (env : Env) (req : Request) : list Call * Response :=
  if (method req =? "OPTIONS") then ([], mkResponse 200 NullBody)
  else
    match tryBlock env req tt with
    | (l, _, Normal response) => (l, response)
    | (l, _, Throw m) =>
        ((l ++ [console_error "Error sending attendance email:"])%list,
         mkResponse 500 (Failure m))
    end.

(** The mails a log holds. *)
Definition sent (l : list Call) : list Email :=
  flat_map (fun c => match c with resend_emails_send mail => [mail] | _ => [] end) l.

(** The body the two pages send: every field is set. *)
Definition ofClient (b : Client.EmailBody) : AttendanceEmailRequest :=
  mkAttendanceEmailRequest (Client.mail_email b) (Client.mail_name b)
    (Client.mail_rollNumber b) (Client.mail_status b) (Client.mail_timestamp b)
    (Some (Client.mail_confidenceScore b)).
End SendAttendanceEmail.

(* ================================================================== *)
(** ** The QR page: [stopScanner] and [handleQRCodeScanned] *)

Module QRScanner.
Local Open Scope string_scope.
Local Open Scope prog_scope.

Inductive Status : Type := idle | scanning | success | error.

Record UI : Type := mkUI {
  isScanning : bool;         (* the state [scanning] *)
  status : Status;
  message : string;
  scanner : bool             (* [scannerRef.current] is set *)
}.

(** The columns of the profile row the handler reads. *)
Record Profile : Type := mkProfile {
  id : string;
  roll_number : string;
  full_name : string;
  email : string
}.

(** The row [handleQRCodeScanned] inserts into [attendance_records]. *)
Record Row : Type := mkRow {
  user_id : string;
  row_roll_number : string;
  student_name : string;
  row_email : string;
  confidence_score : float;
  row_status : string
}.

Inductive Timer : Type :=
| backToIdle       (* the callbacks of lines 103, 127, 157 and 200 *)
| toHistory.       (* the callback of line 186 *)

Inductive Call : Type :=
| scanner_stop
| profiles_select_by_qr_code (qrCode : string)
| auth_getSession
| attendance_records_insert (row : Row)
| functions_invoke_email (body : Client.EmailBody)
| toast (title description : string)
| navigate (path : string)
| setTimeout (callback : Timer) (ms : Z)
| console_error (label : string).

Record World : Type := mkWorld {
  stop : Promise unit;
  selectByQrCode : string -> Promise (Result (option Profile));
  getSession : Promise (option string);      (* [session?.user.id] *)
  insertAttendance : Row -> Promise (Result unit);
  invokeEmail : Client.EmailBody -> Promise unit;
  toISOString : string
}.

Definition setScanning (b : bool) : Prog UI Call unit :=
  modify (fun ui => mkUI b (status ui) (message ui) (scanner ui)).
Definition setStatus (s : Status) : Prog UI Call unit :=
  modify (fun ui => mkUI (isScanning ui) s (message ui) (scanner ui)).
Definition setMessage (m : string) : Prog UI Call unit :=
  modify (fun ui => mkUI (isScanning ui) (status ui) m (scanner ui)).
Definition clearScanner : Prog UI Call unit :=
  modify (fun ui => mkUI (isScanning ui) (status ui) (message ui) false).

(** Lines 68-79. *)
Definition stopScanner (w : World) : Prog UI Call unit :=
  (fun ui =>
     (if scanner ui
      then tryCatch (await scanner_stop (stop w) ;; clearScanner)
                    (fun _ => call (console_error "Error stopping scanner:"))
      else ret tt) ui) ;;
  setScanning false.

(** The four ways the handler reports a failure: state, toast, timer. *)
Definition fail (m title description : string) : Prog UI Call unit :=
  setStatus error ;;
  setMessage m ;;
  call (toast title description) ;;
  call (setTimeout backToIdle 3000).

Definition row (sessionUserId : string) (profile : Profile) : Row :=
  mkRow sessionUserId (roll_number profile) (full_name profile) (email profile)
        1%float "present".

Definition emailBody (w : World) (profile : Profile) : Client.EmailBody :=
  Client.mkEmailBody (email profile) (full_name profile) (roll_number profile)
                     "present" (toISOString w) 1%float.

(** Lines 166-188: after the insert. *)
Definition notifyAndFinish (w : World) (profile : Profile) : Prog UI Call unit :=
  tryCatch
    (await (functions_invoke_email (emailBody w profile))
           (invokeEmail w (emailBody w profile)))
    (fun _ => call (console_error "Email notification error:")) ;;
  setStatus success ;;
  setMessage ("✅ Attendance marked for " ++ full_name profile) ;;
  call (toast "Success!" ("Attendance marked for " ++ full_name profile)) ;;
  call (setTimeout toHistory 2000).

(** Lines 86-189: the [try] block. *)
Definition tryBlock (w : World) (qrCode : string) : Prog UI Call unit :=
  found <- await (profiles_select_by_qr_code qrCode) (selectByQrCode w qrCode) ;;
  match found with
  | Error _ | Data None =>
      fail "❌ Invalid QR Code" "Invalid QR Code"
           "This QR code is not registered in the system."
  | Data (Some profile) =>
      session <- await auth_getSession (getSession w) ;;
      match session with
      | None => call (navigate "/")
      | Some sessionUserId =>
          if negb (id profile =? sessionUserId)
          then fail "❌ You can only scan your own QR code" "Unauthorized"
                    "You can only mark attendance for yourself."
          else
            inserted <- await (attendance_records_insert (row sessionUserId profile))
                              (insertAttendance w (row sessionUserId profile)) ;;
            match inserted with
            | Error _ =>
                call (console_error "Error marking attendance:") ;;
                fail "❌ Error marking attendance" "Error"
                     "Failed to mark attendance. Please try again."
            | Data _ => notifyAndFinish w profile
            end
      end
  end.

(** Lines 80-205. *)
Definition handleQRCodeScanned (w : World) (qrCode : string) : Prog UI Call unit :=
  stopScanner w ;;
  setStatus scanning ;;
  setMessage "Verifying QR code..." ;;
  tryCatch
    (tryBlock w qrCode)
    (fun _ =>
       call (console_error "Error processing QR code:") ;;
       fail "❌ Error processing QR code" "Error"
            "Failed to process QR code. Please try again.").

Definition inserted (l : list Call) : list Row :=
  flat_map (fun c => match c with attendance_records_insert r => [r] | _ => [] end) l.
Definition emails (l : list Call) : list Client.EmailBody :=
  flat_map (fun c => match c with functions_invoke_email b => [b] | _ => [] end) l.
End QRScanner.

(* ================================================================== *)
(** ** The enrolment component: the photo list *)

Module EnrollmentPhotos.
(** The state the two handlers set. *)
Record St : Type := mkSt {
  photos : list string;
  cameraActive : bool
}.

(** [prev.filter((_, i) => i !== index)], with [i] the index of the
    head. *)
Fixpoint filterIndex (index i : nat) (prev : list string) : list string :=
  match prev with
  | [] => []
  | photo :: rest =>
      if Nat.eqb i index then filterIndex index (S i) rest
      else photo :: filterIndex index (S i) rest
  end.

(** Lines 82-84. *)
Definition removePhoto (index : nat) (st : St) : St :=
  mkSt (filterIndex index 0 (photos st)) (cameraActive st).

(** Lines 41-47: [stopCamera]; [srcObject] says that the video element
    holds a stream. *)
Definition stopCamera (videoRef srcObject : bool) (st : St) : St :=
  if videoRef && srcObject then mkSt (photos st) false else st.

(** Lines 49-66: [capturePhoto]; [dataUrl] is what [canvas.toDataURL]
    returns.  [photos.length] is read from the list the handler was
    rendered with, before the new photo is appended. *)
Definition capturePhoto (videoRef srcObject context2d : bool) (dataUrl : string)
           (st : St) : St :=
  if negb videoRef then st
  else if context2d then
    let appended := mkSt (photos st ++ [dataUrl]) (cameraActive st) in
    if (2 <=? List.length (photos st))%nat
    then stopCamera videoRef srcObject appended
    else appended
  else st.
End EnrollmentPhotos.

(* ================================================================== *)
(** ** More concrete inputs *)

Module Scenarios.
Local Open Scope string_scope.
Local Open Scope Z_scope.

(** A JPEG stream of 1000 bytes whose one application segment runs up to
    byte 996, where a start-of-frame marker begins: its frame header lies
    beyond the end of the stream. *)
Definition truncatedSOF : list byte :=
  ([xff; xd8; xff; xe0; x03; xe0] ++ repeat x00 990 ++ [xff; xc0; x00; x11])%list.

(** A JPEG stream of 1000 bytes whose application segment gives its
    length as zero. *)
Definition zeroLengthSegment : list byte :=
  ([xff; xd8; xff; xe0; x00; x00] ++ repeat x00 994)%list.

(** A payload with the line separator U+2028 in it, in UTF-8. *)
Definition separatorPayload : string :=
  ("AAAA" ++ string_of_list_byte [xe2; x80; xa8] ++ "AAAA")%string.

(** The environment of the examples with a profile read that fails: the
    answer holds no row and an error. *)
Definition failedRead : ValidateFaceImage.Env :=
  ValidateFaceImage.mkEnv
    (ValidateFaceImage.getUser Examples.env)
    (fun _ => ValidateFaceImage.mkProfileResponse None true).

(** The base64 text of 1000 bytes: [RIFF] and 996 zero bytes. *)
Definition riffBase64 : string :=
  ("UklGRgAA" ++ Examples.times 331 "AAAA" ++ "AA==")%string.

(** The mail function: the token is the address of the user. *)
Definition mailEnv : SendAttendanceEmail.Env :=
  SendAttendanceEmail.mkEnv
    (fun token => SendAttendanceEmail.mkAuthResponse
                    (Some (SendAttendanceEmail.mkUser (Some token))) false)
    (fun _ => Normal (SendAttendanceEmail.mkCreateEmailResponse
                        (Some "4ef9a417-02e9-4d39-ad75-9611e0fcc33c") None)).


Definition mailRequest (token : string) (b : Client.EmailBody)
  : SendAttendanceEmail.Request :=
  SendAttendanceEmail.mkRequest "POST" (Some ("Bearer " ++ token)%string)
                                (SendAttendanceEmail.ofClient b).

(** A world where every service answers well and the validation service
    accepts every image. *)
Definition accepting : Client.World :=
  Client.withValidate Examples.rejecting
    (fun _ _ => Resolved (Client.mkInvokeResponse
                            (Some (Client.mkValidationData true None)) None)).

(** The same world with a signing service that answers with an error. *)
Definition signingDown : Client.World :=
  Client.mkWorld
    (Client.Date_now accepting) (Client.toISOString accepting)
    (Client.detectSingleFace accepting) (Client.toBlob accepting)
    (Client.fetchBlob accepting) (Client.invokeValidate accepting)
    (Client.upload accepting)
    (fun _ _ => Resolved (Error "signing unavailable"))
    (Client.insertAttendance accepting)
    (Client.updateFacePhotos accepting)
    (Client.invokeEmail accepting).

(** The page of the examples with a video element that holds no stream. *)
Definition noStream : Camera.Props :=
  Camera.mkProps (Some "user-1") (Some Examples.profile) true false true true.


(** The QR page. *)
Definition qrProfile : QRScanner.Profile :=
  QRScanner.mkProfile "user-1" "21CS042" "Asha Rao" "asha@example.edu".
Definition qrIdle : QRScanner.UI :=
  QRScanner.mkUI true QRScanner.scanning "Position QR code in the frame" true.

(** A world where the code [QR-21CS042] is the one of [user-1] and the
    session is the one of [sessionUserId]. *)
Definition qrWorld (sessionUserId : string) (insert : Promise (Result unit))
  : QRScanner.World :=
  QRScanner.mkWorld
    (Resolved tt)
    (fun code => if (code =? "QR-21CS042")%string
                 then Resolved (Data (Some qrProfile))
                 else Resolved (Error "no rows"))
    (Resolved (Some sessionUserId))
    (fun _ => insert)
    (fun _ => Rejected "mail service unreachable")
    "2025-11-11T11:20:00.000Z".
End Scenarios.

(* ================================================================== *)
(** ** Words for the further properties *)

Module Props.
Local Open Scope string_scope.
Local Open Scope Z_scope.

(** The user the function [validate-face-image] authenticates for a
    request, if it authenticates one. *)
Definition principal (env : ValidateFaceImage.Env) (req : ValidateFaceImage.Request)
  : option string :=
  match ValidateFaceImage.Authorization req with
  | None => None
  | Some header =>
      if (header =? "")%string then None
      else
        let r := ValidateFaceImage.getUser env (removeFirst "Bearer " header) in
        if ValidateFaceImage.authError r then None else ValidateFaceImage.user_id r
  end.


(** The calls that read the profile, and those that come with or after the
    decoding of the image. *)
Definition readsProfile (c : ValidateFaceImage.Call) : bool :=
  match c with ValidateFaceImage.profiles_select_face_photos _ => true | _ => false end.
Definition touchesImage (c : ValidateFaceImage.Call) : bool :=
  match c with
  | ValidateFaceImage.atob_call _ | ValidateFaceImage.console_log _ => true
  | _ => false
  end.

(** A storage path in the folder of a user. *)
Definition inFolderOf (userId path : string) : Prop :=
  exists file, path = (userId ++ "/" ++ file)%string.

(** The same world with another answer of the notification service. *)
Definition withEmail (w : Client.World) (service : Client.EmailBody -> Promise unit)
  : Client.World :=
  Client.mkWorld (Client.Date_now w) (Client.toISOString w) (Client.detectSingleFace w)
                 (Client.toBlob w) (Client.fetchBlob w) (Client.invokeValidate w)
                 (Client.upload w) (Client.createSignedUrl w) (Client.insertAttendance w)
                 (Client.updateFacePhotos w) service.

(** The log without the lines written to the console. *)
Definition withoutConsole (l : list Client.Call) : list Client.Call :=
  filter (fun c => match c with Client.console_error _ => false | _ => true end) l.

(** The timers a log holds, in the order they were set. *)
Definition timers (l : list Client.Call) : list Client.Timer :=
  flat_map (fun c => match c with Client.setTimeout t _ => [t] | _ => [] end) l.

(** How often a log calls [onComplete]. *)
Definition completions (l : list Client.Call) : nat :=
  List.length (filter (fun c => match c with Client.onComplete => true | _ => false end) l).

(** A photo the validation service answers [valid: true] for, without an
    error. *)
Definition passes (w : Client.World) (userId photo : string) : Prop :=
  exists r, Client.invokeValidate w photo userId = Resolved r
            /\ FaceEnrollment.validationFailed r = false.

(** The timers a log of the QR page holds. *)
Definition qrTimers (l : list QRScanner.Call) : list QRScanner.Timer :=
  flat_map (fun c => match c with QRScanner.setTimeout t _ => [t] | _ => [] end) l.

(** The log holds the one row of the signed-in owner of the code, and the
    database has not taken it. *)
Definition refusedInsert (w : QRScanner.World) (qrCode : string)
           (l : list QRScanner.Call) : Prop :=
  exists (profile : QRScanner.Profile) (sessionUserId : string),
    QRScanner.selectByQrCode w qrCode = Resolved (Data (Some profile))
    /\ QRScanner.getSession w = Resolved (Some sessionUserId)
    /\ QRScanner.id profile = sessionUserId
    /\ QRScanner.inserted l = [QRScanner.row sessionUserId profile]
    /\ QRScanner.insertAttendance w (QRScanner.row sessionUserId profile)
       <> Resolved (Data tt).

(** The user the mail function authenticates, with the address of the
    account. *)
Definition mailPrincipal (env : SendAttendanceEmail.Env) (req : SendAttendanceEmail.Request)
  : option SendAttendanceEmail.User :=
  match SendAttendanceEmail.authorization req with
  | None => None
  | Some header =>
      if (header =? "")%string then None
      else
        let r := SendAttendanceEmail.getUser env (removeFirst "Bearer " header) in
        if SendAttendanceEmail.authError r then None else SendAttendanceEmail.user r
  end.
End Props.

(* ================================================================== *)
(** ** Facts about the JavaScript primitives *)

Unset Implicit Arguments.

Section JSFacts.
Local Open Scope Z_scope.

Lemma ToInt32_small (z : Z) : - 2 ^ 31 <= z < 2 ^ 31 -> ToInt32 z = z.
Proof.
  intros H. unfold ToInt32.
  rewrite Z.mod_small by lia. lia.
Qed.

Lemma ToInt32_signed (u : Z) :
  0 <= u < 2 ^ 32 -> ToInt32 u = Spec.signed32 u.
Proof.
  intros H. unfold ToInt32, Spec.signed32.
  destruct (Z.ltb_spec u (2 ^ 31)).
  - rewrite Z.mod_small by lia. lia.
  - replace (u + 2 ^ 31) with ((u - 2 ^ 31) + 1 * 2 ^ 32) by lia.
    rewrite Z.mod_add by lia. rewrite Z.mod_small by lia. lia.
Qed.

(** An [|] whose operands share no bit is a sum. *)
Lemma lor_disjoint (k n y : Z) :
  0 <= n -> 0 <= y < 2 ^ n -> Z.lor (k * 2 ^ n) y = k * 2 ^ n + y.
Proof.
  intros Hn Hy.
  assert (Hland : Z.land (k * 2 ^ n) y = 0).
  { apply Z.bits_inj'. intros i Hi.
    rewrite Z.land_spec, Z.bits_0.
    destruct (Z.lt_ge_cases i n) as [Hlt | Hge].
    - rewrite Z.mul_pow2_bits_low by lia. reflexivity.
    - rewrite <- (Z.mod_small y (2 ^ n)) by lia.
      rewrite Z.mod_pow2_bits_high by lia.
      apply andb_false_r. }
  rewrite <- Z.lxor_lor by exact Hland.
  symmetry. apply Z.add_nocarry_lxor. exact Hland.
Qed.

Lemma toZ_range (b : byte) : 0 <= Spec.toZ b < 256.
Proof.
  unfold Spec.toZ. pose proof (Byte.to_N_bounded b). lia.
Qed.

Lemma toZ_inj (b c : byte) : Spec.toZ b = Spec.toZ c -> b = c.
Proof.
  unfold Spec.toZ. intros H. apply N2Z.inj in H.
  pose proof (Byte.of_to_N b) as Hb. pose proof (Byte.of_to_N c) as Hc.
  rewrite H in Hb. congruence.
Qed.

Lemma get_range (bytes : Uint8Array) (i z : Z) :
  get bytes i = Some z -> 0 <= z < 256.
Proof.
  unfold get. destruct (i <? 0); [discriminate |].
  destruct (nth_error bytes (Z.to_nat i)) as [b |]; simpl; [| discriminate].
  intros H. injection H as <-. apply toZ_range.
Qed.

Lemma get_in_bounds (bytes : Uint8Array) (i : Z) :
  0 <= i < JS.length bytes -> exists z, get bytes i = Some z.
Proof.
  unfold get, JS.length. intros H.
  destruct (Z.ltb_spec i 0); [lia |].
  destruct (nth_error bytes (Z.to_nat i)) as [b |] eqn:E.
  - eexists. reflexivity.
  - apply nth_error_None in E. lia.
Qed.

Lemma get_nil (i : Z) : get [] i = None.
Proof.
  unfold get. destruct (i <? 0); [reflexivity |].
  destruct (Z.to_nat i); reflexivity.
Qed.

Lemma get_head (b : byte) (bs : Uint8Array) : get (b :: bs) 0 = Some (Spec.toZ b).
Proof. reflexivity. Qed.

Lemma get_tail (b : byte) (bs : Uint8Array) (i : Z) :
  0 <= i -> get (b :: bs) (i + 1) = get bs i.
Proof.
  intros H. unfold get.
  destruct (Z.ltb_spec (i + 1) 0); [lia |].
  destruct (Z.ltb_spec i 0); [lia |].
  replace (Z.to_nat (i + 1)) with (S (Z.to_nat i)) by lia.
  reflexivity.
Qed.

Lemma byteAt_range (bytes : Uint8Array) (i : Z) : 0 <= Spec.byteAt bytes i < 256.
Proof.
  unfold Spec.byteAt. destruct (get bytes i) as [z |] eqn:E; [| lia].
  eapply get_range; eassumption.
Qed.

Lemma int32_get (bytes : Uint8Array) (i : Z) :
  int32 (get bytes i) = Spec.byteAt bytes i.
Proof.
  unfold int32, Spec.byteAt. destruct (get bytes i) as [z |] eqn:E; [| reflexivity].
  apply get_range in E. apply ToInt32_small. lia.
Qed.

(** [(bytes[i] << 8) | bytes[i + 1]] is the unsigned 16-bit field. *)
Lemma read16 (bytes : Uint8Array) (i : Z) :
  bor (shl (int32 (get bytes i)) 8) (int32 (get bytes (i + 1))) = Spec.be16 bytes i.
Proof.
  rewrite !int32_get. unfold Spec.be16.
  pose proof (byteAt_range bytes i) as Ha.
  pose proof (byteAt_range bytes (i + 1)) as Hb.
  unfold bor, shl. change (8 mod 32) with 8.
  rewrite Z.shiftl_mul_pow2 by lia.
  rewrite (ToInt32_small (Spec.byteAt bytes i * 2 ^ 8)) by lia.
  rewrite lor_disjoint by lia.
  apply ToInt32_small. lia.
Qed.

Lemma be16_range (bytes : Uint8Array) (i : Z) : 0 <= Spec.be16 bytes i < 65536.
Proof.
  unfold Spec.be16.
  pose proof (byteAt_range bytes i). pose proof (byteAt_range bytes (i + 1)). lia.
Qed.

Lemma be32_range (bytes : Uint8Array) (i : Z) : 0 <= Spec.be32 bytes i < 2 ^ 32.
Proof.
  unfold Spec.be32.
  pose proof (byteAt_range bytes i). pose proof (byteAt_range bytes (i + 1)).
  pose proof (byteAt_range bytes (i + 2)). pose proof (byteAt_range bytes (i + 3)).
  lia.
Qed.

(** The four-byte read of the PNG branch is the big-endian field, read
    as a signed 32-bit number. *)
Lemma read32 (bytes : Uint8Array) (i : Z) :
  bor (bor (bor (shl (int32 (get bytes i)) 24)
                (shl (int32 (get bytes (i + 1))) 16))
           (shl (int32 (get bytes (i + 2))) 8))
      (int32 (get bytes (i + 3)))
  = Spec.signed32 (Spec.be32 bytes i).
Proof.
  rewrite <- ToInt32_signed by apply be32_range.
  rewrite !int32_get. unfold Spec.be32.
  pose proof (byteAt_range bytes i) as Ha.
  pose proof (byteAt_range bytes (i + 1)) as Hb.
  pose proof (byteAt_range bytes (i + 2)) as Hc.
  pose proof (byteAt_range bytes (i + 3)) as Hd.
  set (a := Spec.byteAt bytes i) in *.
  set (b := Spec.byteAt bytes (i + 1)) in *.
  set (c := Spec.byteAt bytes (i + 2)) in *.
  set (d := Spec.byteAt bytes (i + 3)) in *.
  unfold bor, shl.
  change (24 mod 32) with 24. change (16 mod 32) with 16. change (8 mod 32) with 8.
  rewrite !Z.shiftl_mul_pow2 by lia.
  rewrite (ToInt32_small (b * 2 ^ 16)) by lia.
  rewrite (ToInt32_small (c * 2 ^ 8)) by lia.
  (* the top byte may set the sign bit *)
  assert (Htop : exists k, ToInt32 (a * 2 ^ 24) = k * 2 ^ 24 /\ - 128 <= k < 128
                           /\ (k = a \/ k = a - 256)).
  { destruct (Z.lt_ge_cases a 128).
    - exists a. rewrite ToInt32_small by lia. lia.
    - exists (a - 256). unfold ToInt32.
      replace (a * 2 ^ 24 + 2 ^ 31) with ((a * 2 ^ 24 - 2 ^ 31) + 1 * 2 ^ 32) by lia.
      rewrite Z.mod_add by lia. rewrite Z.mod_small by lia. lia. }
  destruct Htop as (k & -> & Hk & Hka).
  rewrite (lor_disjoint k 24) by lia.
  rewrite (ToInt32_small (k * 2 ^ 24 + b * 2 ^ 16)) by lia.
  replace (k * 2 ^ 24 + b * 2 ^ 16) with ((k * 2 ^ 8 + b) * 2 ^ 16) by lia.
  rewrite (lor_disjoint (k * 2 ^ 8 + b) 16) by lia.
  rewrite (ToInt32_small ((k * 2 ^ 8 + b) * 2 ^ 16 + c * 2 ^ 8)) by lia.
  replace ((k * 2 ^ 8 + b) * 2 ^ 16 + c * 2 ^ 8)
    with ((k * 2 ^ 16 + b * 2 ^ 8 + c) * 2 ^ 8) by lia.
  rewrite (lor_disjoint (k * 2 ^ 16 + b * 2 ^ 8 + c) 8) by lia.
  rewrite (ToInt32_small ((k * 2 ^ 16 + b * 2 ^ 8 + c) * 2 ^ 8 + d)) by lia.
  destruct Hka as [-> | ->].
  - rewrite ToInt32_small by lia. lia.
  - unfold ToInt32.
    replace (a * 2 ^ 24 + b * 2 ^ 16 + c * 2 ^ 8 + d + 2 ^ 31)
      with ((a * 2 ^ 24 + b * 2 ^ 16 + c * 2 ^ 8 + d - 2 ^ 31) + 1 * 2 ^ 32) by lia.
    rewrite Z.mod_add by lia. rewrite Z.mod_small by lia. lia.
Qed.
End JSFacts.

(* ================================================================== *)
(** ** The validator on decoded bytes *)

Section ValidatorFacts.
Import ValidateFaceImage Spec.
Local Open Scope Z_scope.

Lemma every_tail (b : byte) (bs : Uint8Array) (magic : list Z) :
  forall i, 0 <= i -> every (b :: bs) (i + 1) magic = every bs i magic.
Proof.
  induction magic as [| z magic IH]; intros i Hi; cbn [every].
  - reflexivity.
  - rewrite get_tail by assumption. rewrite IH by lia. reflexivity.
Qed.

Lemma every_cons (b : byte) (bs : Uint8Array) (z : Z) (magic : list Z) :
  every (b :: bs) 0 (z :: magic) = (toZ b =? z) && every bs 0 magic.
Proof.
  cbn [every]. rewrite get_head.
  rewrite (every_tail b bs magic 0) by lia. reflexivity.
Qed.

(** [every] holds exactly when the bytes start with the signature. *)
Lemma every_startsWith (signature : list byte) :
  forall bytes, every bytes 0 (map toZ signature) = true <-> startsWith signature bytes.
Proof.
  induction signature as [| s signature IH]; intros bytes.
  - simpl. split; [intros _; exists bytes; reflexivity | reflexivity].
  - destruct bytes as [| b bs].
    + cbn [map every]. rewrite get_nil. cbn. split; [discriminate |].
      intros [rest H]. discriminate.
    + cbn [map]. rewrite every_cons, andb_true_iff, Z.eqb_eq, IH. split.
      * intros [Hb [rest ->]]. apply toZ_inj in Hb. subst b.
        exists rest. reflexivity.
      * intros [rest H]. injection H as -> ->. split; [reflexivity |].
        exists rest. reflexivity.
Qed.

Lemma every_not_startsWith (signature bytes : list byte) :
  ~ startsWith signature bytes -> every bytes 0 (map toZ signature) = false.
Proof.
  intros H. destruct (every bytes 0 (map toZ signature)) eqn:E; [| reflexivity].
  apply every_startsWith in E. contradiction.
Qed.

(** The loop over [MAGIC_BYTES], entry by entry. *)
Lemma detectFormat_cases (bytes : Uint8Array) :
  detectFormat MAGIC_BYTES bytes =
    if every bytes 0 (map toZ JPEG_SIGNATURE) then (true, "jpeg"%string)
    else if every bytes 0 (map toZ PNG_SIGNATURE) then (true, "png"%string)
    else if every bytes 0 (map toZ RIFF_SIGNATURE) then (true, "webp"%string)
    else (false, ""%string).
Proof. reflexivity. Qed.

Lemma detectFormat_jpeg (rest : list byte) :
  detectFormat MAGIC_BYTES (JPEG_SIGNATURE ++ rest) = (true, "jpeg"%string).
Proof.
  rewrite detectFormat_cases.
  unfold JPEG_SIGNATURE, PNG_SIGNATURE, RIFF_SIGNATURE. cbn [app map].
  rewrite !every_cons. reflexivity.
Qed.

Lemma detectFormat_png (rest : list byte) :
  detectFormat MAGIC_BYTES (PNG_SIGNATURE ++ rest) = (true, "png"%string).
Proof.
  rewrite detectFormat_cases.
  unfold JPEG_SIGNATURE, PNG_SIGNATURE, RIFF_SIGNATURE. cbn [app map].
  rewrite !every_cons. reflexivity.
Qed.

Lemma detectFormat_riff (rest : list byte) :
  detectFormat MAGIC_BYTES (RIFF_SIGNATURE ++ rest) = (true, "webp"%string).
Proof.
  rewrite detectFormat_cases.
  unfold JPEG_SIGNATURE, PNG_SIGNATURE, RIFF_SIGNATURE. cbn [app map].
  rewrite !every_cons. reflexivity.
Qed.

(** The two size tests, once the bounds hold. *)
Lemma size_tests_pass (bytes : Uint8Array) :
  1000 <= JS.length bytes <= 5242880 ->
  (JS.length bytes >? MAX_FILE_SIZE) = false /\ (JS.length bytes <? 1000) = false.
Proof.
  intros H. change MAX_FILE_SIZE with 5242880. split.
  - destruct (Z.gtb_spec (JS.length bytes) 5242880); [lia | reflexivity].
  - destruct (Z.ltb_spec (JS.length bytes) 1000); [lia | reflexivity].
Qed.

(** The dimension check passes exactly inside the bounds. *)
Lemma checkDimensions_Normal (width height : Z) :
  checkDimensions width height = Normal tt <-> withinBounds width height.
Proof.
  unfold checkDimensions, withinBounds, MIN_DIMENSION, MAX_DIMENSION.
  destruct (Z.ltb_spec width 100); destruct (Z.ltb_spec height 100);
    destruct (Z.gtb_spec width 4000); destruct (Z.gtb_spec height 4000);
    simpl; split; intros; try discriminate; try lia; reflexivity.
Qed.

Lemma checkDimensions_small (width height : Z) :
  checkDimensions width height = Throw "Image too small. Minimum dimensions: 100x100"
  <-> width < 100 \/ height < 100.
Proof.
  unfold checkDimensions, MIN_DIMENSION, MAX_DIMENSION.
  destruct (Z.ltb_spec width 100); destruct (Z.ltb_spec height 100);
    destruct (Z.gtb_spec width 4000); destruct (Z.gtb_spec height 4000);
    simpl; split; intros; try discriminate; try lia; reflexivity.
Qed.

Lemma checkDimensions_large (width height : Z) :
  checkDimensions width height = Throw "Image too large. Maximum dimensions: 4000x4000"
  <-> 100 <= width /\ 100 <= height /\ (width > 4000 \/ height > 4000).
Proof.
  unfold checkDimensions, MIN_DIMENSION, MAX_DIMENSION.
  destruct (Z.ltb_spec width 100); destruct (Z.ltb_spec height 100);
    destruct (Z.gtb_spec width 4000); destruct (Z.gtb_spec height 4000);
    simpl; split; intros; try discriminate; try lia; reflexivity.
Qed.

(** A signed 32-bit reading is inside the bounds exactly when the
    unsigned one is. *)
Lemma withinBounds_signed32 (w h : Z) :
  0 <= w < 2 ^ 32 -> 0 <= h < 2 ^ 32 ->
  withinBounds (signed32 w) (signed32 h) <-> withinBounds w h.
Proof.
  unfold withinBounds, signed32. intros Hw Hh.
  destruct (Z.ltb_spec w (2 ^ 31)); destruct (Z.ltb_spec h (2 ^ 31)); lia.
Qed.

(** *** The JPEG walk *)

Lemma isSOF_sofMarker (m : Z) : isSOF (Some m) = sofMarker m.
Proof. reflexivity. Qed.

(** More fuel than the bytes left changes nothing: the loop has ended. *)
Lemma jpegLoop_fuel (bytes : Uint8Array) :
  forall fuel fuel' offset,
    0 <= offset ->
    JS.length bytes - offset <= Z.of_nat fuel ->
    (fuel <= fuel')%nat ->
    jpegLoop fuel' bytes offset = jpegLoop fuel bytes offset.
Proof.
  induction fuel as [| fuel IH]; intros fuel' offset Hoff Hfuel Hle.
  - destruct fuel' as [| fuel']; [reflexivity |].
    simpl. destruct (Z.ltb_spec offset (JS.length bytes)); [lia | reflexivity].
  - destruct fuel' as [| fuel']; [lia |].
    cbn [jpegLoop]. destruct (offset <? JS.length bytes); [| reflexivity].
    destruct (strictNe (get bytes offset) 255); [reflexivity |].
    destruct (isSOF (get bytes (offset + 1))); [reflexivity |].
    rewrite read16. pose proof (be16_range bytes (offset + 2)).
    apply IH; lia.
Qed.

Lemma firstSOF_fuel (bytes : Uint8Array) :
  forall fuel fuel' offset,
    0 <= offset ->
    JS.length bytes - offset <= Z.of_nat fuel ->
    (fuel <= fuel')%nat ->
    firstSOF fuel' bytes offset = firstSOF fuel bytes offset.
Proof.
  induction fuel as [| fuel IH]; intros fuel' offset Hoff Hfuel Hle.
  - destruct fuel' as [| fuel']; [reflexivity |].
    cbn [firstSOF]. destruct (Z.ltb_spec offset (JS.length bytes)); [lia | reflexivity].
  - destruct fuel' as [| fuel']; [lia |].
    cbn [firstSOF].
    destruct ((offset <? JS.length bytes) && (byteAt bytes offset =? 255));
      [| reflexivity].
    pose proof (be16_range bytes (offset + 2)).
    destruct (get bytes (offset + 1)) as [m |]; [destruct (sofMarker m) |];
      try reflexivity; apply IH; lia.
Qed.

(** The loop is the dimension check at the first start-of-frame segment
    of the walk, with the height four bytes and the width six bytes after
    the marker-type byte. *)
Lemma jpegLoop_firstSOF (bytes : Uint8Array) :
  forall fuel offset,
    0 <= offset ->
    jpegLoop fuel bytes offset =
      match firstSOF fuel bytes offset with
      | Some m => checkDimensions (be16 bytes (m + 6)) (be16 bytes (m + 4))
      | None => Normal tt
      end.
Proof.
  induction fuel as [| fuel IH]; intros offset Hoff; cbn [jpegLoop firstSOF];
    [reflexivity |].
  destruct (Z.ltb_spec offset (JS.length bytes)) as [Hlt | Hge]; cbn [andb];
    [| reflexivity].
  destruct (get_in_bounds bytes offset) as [z Hz]; [lia |].
  unfold byteAt at 1. rewrite Hz. unfold strictNe, strictEq.
  destruct (z =? 255); cbn [negb]; [| reflexivity].
  pose proof (be16_range bytes (offset + 2)) as Hseg.
  replace (offset + 2 + 4) with (offset + 2 + 3 + 1) by lia.
  replace (offset + 2 + 6) with (offset + 2 + 5 + 1) by lia.
  rewrite !read16.
  replace (offset + 2 + 3) with (offset + 1 + 4) by lia.
  replace (offset + 2 + 5) with (offset + 1 + 6) by lia.
  destruct (get bytes (offset + 1)) as [m |] eqn:Hm.
  - rewrite isSOF_sofMarker. destruct (sofMarker m).
    + reflexivity.
    + apply IH. lia.
  - change (isSOF None) with false. cbv iota. apply IH. lia.
Qed.
End ValidatorFacts.

(* ================================================================== *)
(** ** The request envelope *)

Section EnvelopeFacts.
Import ValidateFaceImage Spec.
Local Open Scope string_scope.

Lemma spanLower_run (t rest : string) :
  allLower t = true ->
  (forall c rest', rest = String c rest' -> isLower c = false) ->
  spanLower (t ++ rest) = (t, rest).
Proof.
  intros Ht Hrest. induction t as [| c t IH]; simpl.
  - destruct rest as [| c rest']; [reflexivity |].
    simpl. rewrite (Hrest c rest' eq_refl). reflexivity.
  - simpl in Ht. apply andb_true_iff in Ht as [Hc Ht].
    rewrite Hc. rewrite (IH Ht). reflexivity.
Qed.

(** The envelope of a data URI with an admissible subtype: the match
    fails only on an empty payload or one with a line terminator, and the
    groups are the subtype and the payload. *)
Lemma matchDataUrl_dataUrl (t d : string) :
  subtypeOk t ->
  matchDataUrl (dataUrl t d) =
    if (d =? "") || hasLineTerminator d then None else Some (t, d).
Proof.
  intros [Hne Hlow]. unfold matchDataUrl, dataUrl.
  change (stripPrefix "data:image/" ("data:image/" ++ t ++ ";base64," ++ d))
    with (Some (t ++ ";base64," ++ d)).
  cbv iota beta. rewrite spanLower_run.
  - destruct t as [| c t]; [contradiction |].
    change (String c t =? "") with false. cbv iota.
    change (stripPrefix ";base64," (";base64," ++ d)) with (Some d).
    reflexivity.
  - exact Hlow.
  - intros c rest' H. injection H as <- _. reflexivity.
Qed.

(** The declared subtype reaches nothing after the match. *)
Lemma serve_subtype_irrelevant
      (atob : string -> Completion string) (env : Env) (req : Request)
      (t1 t2 d : string) :
  subtypeOk t1 -> subtypeOk t2 ->
  serve atob env (withImageData req (dataUrl t1 d))
  = serve atob env (withImageData req (dataUrl t2 d)).
Proof.
  intros H1 H2. unfold serve, tryBlock, withImageData.
  cbn [method Authorization imageData userId].
  rewrite (matchDataUrl_dataUrl t1 d H1), (matchDataUrl_dataUrl t2 d H2).
  destruct ((d =? "") || hasLineTerminator d); reflexivity.
Qed.
(** A 200 response with a body comes from the validator: the envelope
    matched, the payload was decoded and the decoded bytes passed. *)
Lemma serve_valid_inversion
      (atob : string -> Completion string) (env : Env) (req : Request)
      (log : list Call) (v : Validated) :
  serve atob env req = (log, mkResponse 200 (ValidBody v)) ->
  exists declaredType base64Data binaryString,
    matchDataUrl (imageData req) = Some (declaredType, base64Data)
    /\ atob base64Data = Normal binaryString
    /\ validateImage (list_byte_of_string binaryString) = Normal v.
Proof.
  unfold serve, tryBlock.
  destruct (method req =? "OPTIONS"); [discriminate |].
  destruct (Authorization req) as [h |]; [| discriminate].
  destruct (h =? ""); [discriminate |].
  cbv beta iota zeta delta [bind call ret throw lift fst snd].
  destruct (authError (getUser env (removeFirst "Bearer " h))); [discriminate |].
  destruct (user_id (getUser env (removeFirst "Bearer " h))) as [id |]; [| discriminate].
  destruct (negb (id =? userId req)); [discriminate |].
  cbv beta iota zeta delta [fst snd].
  destruct (countError (selectFacePhotos env (userId req)));
    (destruct (match face_photos_length (selectFacePhotos env (userId req)) with
               | Some n => n
               | None => 0%Z
               end >=? MAX_UPLOADS_PER_DAY)%Z; [discriminate |]);
    (destruct (matchDataUrl (imageData req)) as [[declaredType base64Data] |];
     [| discriminate]);
    cbv beta iota zeta delta [lift ret throw fst snd];
    (destruct (atob base64Data) as [binaryString |] eqn:Hatob; [| discriminate]);
    (destruct (validateImage (list_byte_of_string binaryString)) as [v' |] eqn:Hvalid;
     [| discriminate]);
    intros H; injection H as _ <-;
    exists declaredType, base64Data, binaryString; repeat split; assumption.
Qed.
End EnvelopeFacts.

(* ================================================================== *)
(** ** Properties of the edge function *)

Local Open Scope Z_scope.

Section ValidatorProperties.
Import ValidateFaceImage Spec.
Local Open Scope Z_scope.

Lemma validateImage_in_bounds (bytes : Uint8Array) :
  1000 <= JS.length bytes <= 5242880 ->
  validateImage bytes =
    let (validFormat, detectedFormat) := detectFormat MAGIC_BYTES bytes in
    if negb validFormat then Throw msgInvalidFormat
    else
      match (if (detectedFormat =? "jpeg")%string then validateJpeg bytes else Normal tt) with
      | Throw m => Throw m
      | Normal _ =>
          match (if (detectedFormat =? "png")%string then validatePng bytes else Normal tt) with
          | Throw m => Throw m
          | Normal _ =>
              Normal (mkValidated detectedFormat (JS.length bytes)
                                  "Image validation successful")
          end
      end.
Proof.
  intros H. destruct (size_tests_pass bytes H) as [Hmax Hmin].
  unfold validateImage. rewrite Hmax, Hmin. reflexivity.
Qed.
End ValidatorProperties.

(** C6.  Whatever the bytes are, a sequence shorter than 1000 bytes is
    rejected with the "too small" reason and one longer than 5,242,880
    bytes with the "too large" reason. *)
Theorem size_gate_any_content (bytes : list byte) :
  (JS.length bytes < 1000 ->
   ValidateFaceImage.validateImage bytes = Throw "File too small. Minimum size: 1KB")
  /\ (JS.length bytes > 5242880 ->
      ValidateFaceImage.validateImage bytes = Throw "File too large. Maximum size: 5MB").
Proof.
  unfold ValidateFaceImage.validateImage.
  change ValidateFaceImage.MAX_FILE_SIZE with 5242880%Z.
  split; intros H.
  - destruct (Z.gtb_spec (JS.length bytes) 5242880); [lia |].
    destruct (Z.ltb_spec (JS.length bytes) 1000); [reflexivity | lia].
  - destruct (Z.gtb_spec (JS.length bytes) 5242880); [reflexivity | lia].
Qed.

(** The gate on both sides: a GIF header of ten bytes, and 5,242,881 bytes
    that start like a JPEG stream. *)
Lemma size_gate_any_content_witness :
  ValidateFaceImage.validateImage [x47; x49; x46; x38; x39; x61; x64; x00; x64; x00]
  = Throw "File too small. Minimum size: 1KB"
  /\ ValidateFaceImage.validateImage
       (Spec.JPEG_SIGNATURE ++ repeat x00 (Z.to_nat 5242878))
     = Throw "File too large. Maximum size: 5MB".
Proof.
  split.
  - apply (proj1 (size_gate_any_content _)). reflexivity.
  - apply (proj2 (size_gate_any_content _)).
    unfold JS.length. rewrite length_app, repeat_length.
    rewrite Nat2Z.inj_add, Z2Nat.id by discriminate. reflexivity.
Defined.

(** C10.  A sequence of 1000 to 5,242,880 bytes that starts with [RIFF] is
    accepted as "webp"; the answer holds the length and nothing else of the
    bytes, so neither a dimension nor any byte after the fourth is looked
    at: any other tail of the same length gets the same answer. *)
Theorem riff_accepted_as_webp (rest : list byte) :
  (1000 <= JS.length (Spec.RIFF_SIGNATURE ++ rest) <= 5242880)%Z ->
  ValidateFaceImage.validateImage (Spec.RIFF_SIGNATURE ++ rest)
  = Normal (ValidateFaceImage.mkValidated "webp"
              (JS.length (Spec.RIFF_SIGNATURE ++ rest)) "Image validation successful")
  /\ forall rest' : list byte,
      List.length rest' = List.length rest ->
      ValidateFaceImage.validateImage (Spec.RIFF_SIGNATURE ++ rest')
      = ValidateFaceImage.validateImage (Spec.RIFF_SIGNATURE ++ rest).
Proof.
  intros H.
  assert (Hacc : forall r : list byte,
             List.length r = List.length rest ->
             ValidateFaceImage.validateImage (Spec.RIFF_SIGNATURE ++ r)
             = Normal (ValidateFaceImage.mkValidated "webp"
                         (JS.length (Spec.RIFF_SIGNATURE ++ rest))
                         "Image validation successful")).
  { intros r Hr.
    assert (Hlen : JS.length (Spec.RIFF_SIGNATURE ++ r)
                   = JS.length (Spec.RIFF_SIGNATURE ++ rest)).
    { unfold JS.length. rewrite !length_app, Hr. reflexivity. }
    rewrite validateImage_in_bounds by (rewrite Hlen; exact H).
    rewrite detectFormat_riff, Hlen. reflexivity. }
  split.
  - apply Hacc. reflexivity.
  - intros rest' Hr. rewrite (Hacc rest' Hr), (Hacc rest eq_refl). reflexivity.
Qed.

(** The start of a WAVE sound file is accepted as a WebP image. *)
Lemma riff_accepted_as_webp_witness :
  ValidateFaceImage.validateImage Examples.wavFile
  = Normal (ValidateFaceImage.mkValidated "webp" 1000 "Image validation successful").
Proof.
  apply (proj1 (riff_accepted_as_webp (skipn 4 Examples.wavFile)
                                      ltac:(vm_compute; split; discriminate))).
Defined.

(** C7.  Inside the size bounds, a sequence that starts with none of the
    three signatures is rejected with the "invalid format" reason; no
    request whose payload decodes to it gets the 200 response, whatever
    subtype its data URI declares; and the declared subtype changes nothing
    in the answer of the function: two requests that differ only in it get
    the same response. *)
Theorem unknown_signature_rejected
        (bytes : list byte)
        (atob : string -> Completion string)
        (env : ValidateFaceImage.Env) (req : ValidateFaceImage.Request)
        (subtype1 subtype2 payload : string) :
  1000 <= JS.length bytes <= 5242880 ->
  ~ Spec.startsWith Spec.JPEG_SIGNATURE bytes ->
  ~ Spec.startsWith Spec.PNG_SIGNATURE bytes ->
  ~ Spec.startsWith Spec.RIFF_SIGNATURE bytes ->
  Spec.subtypeOk subtype1 -> Spec.subtypeOk subtype2 ->
  ValidateFaceImage.validateImage bytes
  = Throw "Invalid image format. Only JPEG, PNG, and WebP are allowed."
  /\ (forall (declaredType base64Data : string)
             (log : list ValidateFaceImage.Call) (v : ValidateFaceImage.Validated),
         ValidateFaceImage.matchDataUrl (ValidateFaceImage.imageData req)
         = Some (declaredType, base64Data) ->
         atob base64Data = Normal (string_of_list_byte bytes) ->
         ValidateFaceImage.serve atob env req
         <> (log, ValidateFaceImage.mkResponse 200 (ValidateFaceImage.ValidBody v)))
  /\ ValidateFaceImage.serve atob env
       (Spec.withImageData req (Spec.dataUrl subtype1 payload))
     = ValidateFaceImage.serve atob env
         (Spec.withImageData req (Spec.dataUrl subtype2 payload)).
Proof.
  intros Hsize Hj Hp Hr H1 H2.
  assert (Hreject : ValidateFaceImage.validateImage bytes
                    = Throw "Invalid image format. Only JPEG, PNG, and WebP are allowed.").
  { rewrite validateImage_in_bounds by exact Hsize.
    rewrite detectFormat_cases.
    rewrite (every_not_startsWith _ _ Hj), (every_not_startsWith _ _ Hp),
      (every_not_startsWith _ _ Hr).
    reflexivity. }
  split; [exact Hreject | split].
  - intros declaredType base64Data log v Hmatch Hatob Hserve.
    apply serve_valid_inversion in Hserve
      as (declaredType' & base64Data' & binaryString & Hmatch' & Hatob' & Hvalid).
    rewrite Hmatch in Hmatch'. injection Hmatch' as _ <-.
    rewrite Hatob in Hatob'. injection Hatob' as <-.
    rewrite list_byte_of_string_of_list_byte, Hreject in Hvalid. discriminate.
  - apply serve_subtype_irrelevant; assumption.
Qed.

(** A GIF image and a run of zero bytes, sent as [image/png] and as
    [image/jpeg]: the validator rejects the GIF bytes, and the function
    answers the zero bytes with the same 400 response under both
    subtypes. *)
Lemma unknown_signature_rejected_witness :
  ValidateFaceImage.validateImage Examples.gifFile
  = Throw "Invalid image format. Only JPEG, PNG, and WebP are allowed."
  /\ ValidateFaceImage.serve Base64.atob Examples.env
       (Spec.withImageData (Examples.request "user-1" "user-1" "")
          (Spec.dataUrl "png" Examples.zerosBase64))
     = ValidateFaceImage.serve Base64.atob Examples.env
         (Spec.withImageData (Examples.request "user-1" "user-1" "")
            (Spec.dataUrl "jpeg" Examples.zerosBase64)).
Proof.
  assert (Hgif : forall signature : list byte,
             hd x00 signature <> x47 -> signature <> [] ->
             ~ Spec.startsWith signature Examples.gifFile).
  { intros [| b signature] Hhd Hne [rest H]; [contradiction |].
    injection H as <- _. apply Hhd. reflexivity. }
  assert (Hsize : 1000 <= JS.length Examples.gifFile <= 5242880)
    by (vm_compute; split; discriminate).
  assert (Hpng : Spec.subtypeOk "png") by (split; [discriminate | reflexivity]).
  assert (Hjpeg : Spec.subtypeOk "jpeg") by (split; [discriminate | reflexivity]).
  pose proof (unknown_signature_rejected Examples.gifFile Base64.atob Examples.env
                (Examples.request "user-1" "user-1" "") "png" "jpeg" Examples.zerosBase64
                Hsize
                (Hgif Spec.JPEG_SIGNATURE ltac:(discriminate) ltac:(discriminate))
                (Hgif Spec.PNG_SIGNATURE ltac:(discriminate) ltac:(discriminate))
                (Hgif Spec.RIFF_SIGNATURE ltac:(discriminate) ltac:(discriminate))
                Hpng Hjpeg) as H.
  destruct H as (Hreject & _ & Hsame).
  exact (conj Hreject Hsame).
Defined.

(** C5.  For a PNG stream the width is the 32-bit big-endian field at byte
    16 and the height the one at byte 20, read by the [<<] and [|] of the
    code as signed numbers, whenever the stream has at least 24 bytes; the
    stream is accepted exactly when both fields, read as unsigned numbers,
    lie between 100 and 4000. *)
Theorem png_dimension_gate (rest : list byte) :
  (24 <= JS.length (Spec.PNG_SIGNATURE ++ rest) ->
   ValidateFaceImage.validatePng (Spec.PNG_SIGNATURE ++ rest)
   = ValidateFaceImage.checkDimensions
       (Spec.signed32 (Spec.be32 (Spec.PNG_SIGNATURE ++ rest) 16))
       (Spec.signed32 (Spec.be32 (Spec.PNG_SIGNATURE ++ rest) 20)))
  /\ (1000 <= JS.length (Spec.PNG_SIGNATURE ++ rest) <= 5242880 ->
      (ValidateFaceImage.validateImage (Spec.PNG_SIGNATURE ++ rest)
       = Normal (ValidateFaceImage.mkValidated "png"
                   (JS.length (Spec.PNG_SIGNATURE ++ rest)) "Image validation successful")
       <-> Spec.withinBounds (Spec.be32 (Spec.PNG_SIGNATURE ++ rest) 16)
                             (Spec.be32 (Spec.PNG_SIGNATURE ++ rest) 20))
      /\ (ValidateFaceImage.validateImage (Spec.PNG_SIGNATURE ++ rest)
          = Throw "Image too large. Maximum dimensions: 4000x4000"
          <-> 100 <= Spec.be32 (Spec.PNG_SIGNATURE ++ rest) 16 < 2 ^ 31
              /\ 100 <= Spec.be32 (Spec.PNG_SIGNATURE ++ rest) 20 < 2 ^ 31
              /\ (Spec.be32 (Spec.PNG_SIGNATURE ++ rest) 16 > 4000
                  \/ Spec.be32 (Spec.PNG_SIGNATURE ++ rest) 20 > 4000))).
Proof.
  set (bytes := (Spec.PNG_SIGNATURE ++ rest)%list).
  assert (Hpng : 24 <= JS.length bytes ->
                 ValidateFaceImage.validatePng bytes
                 = ValidateFaceImage.checkDimensions
                     (Spec.signed32 (Spec.be32 bytes 16))
                     (Spec.signed32 (Spec.be32 bytes 20))).
  { intros H. unfold ValidateFaceImage.validatePng.
    destruct (Z.geb_spec (JS.length bytes) 24); [| lia].
    change 17 with (16 + 1). change 18 with (16 + 2). change 19 with (16 + 3).
    change 21 with (20 + 1). change 22 with (20 + 2). change 23 with (20 + 3).
    rewrite !read32. reflexivity. }
  split; [exact Hpng |].
  intros Hsize.
  rewrite validateImage_in_bounds by exact Hsize.
  rewrite (detectFormat_png rest : ValidateFaceImage.detectFormat
                                     ValidateFaceImage.MAGIC_BYTES bytes = _).
  cbn [negb].
  change (("png" =? "jpeg")%string) with false.
  change (("png" =? "png")%string) with true. cbv iota.
  rewrite Hpng by lia.
  pose proof (be32_range bytes 16) as Hw. pose proof (be32_range bytes 20) as Hh.
  set (w := Spec.be32 bytes 16) in *. set (h := Spec.be32 bytes 20) in *.
  split.
  - rewrite <- (withinBounds_signed32 w h Hw Hh), <- checkDimensions_Normal.
    destruct (ValidateFaceImage.checkDimensions (Spec.signed32 w) (Spec.signed32 h))
      as [[] | m]; split; intros E; try reflexivity; discriminate.
  - pose proof (checkDimensions_large (Spec.signed32 w) (Spec.signed32 h)) as Hl.
    assert (Hs : 100 <= Spec.signed32 w /\ 100 <= Spec.signed32 h
                 /\ (Spec.signed32 w > 4000 \/ Spec.signed32 h > 4000)
                 <-> 100 <= w < 2 ^ 31 /\ 100 <= h < 2 ^ 31 /\ (w > 4000 \/ h > 4000)).
    { unfold Spec.signed32.
      destruct (Z.ltb_spec w (2 ^ 31)); destruct (Z.ltb_spec h (2 ^ 31)); lia. }
    rewrite <- Hs, <- Hl.
    destruct (ValidateFaceImage.checkDimensions (Spec.signed32 w) (Spec.signed32 h))
      as [[] | m]; split; intros E; try discriminate;
      first [ injection E as -> | rewrite E ]; reflexivity.
Qed.

(** The two streams of the specification: 4000 by 4000 is accepted, a
    width of 4001 is rejected. *)
Lemma png_dimension_gate_witness :
  ValidateFaceImage.validateImage (Examples.pngIHDR 4000 4000)
  = Normal (ValidateFaceImage.mkValidated "png" 1000 "Image validation successful")
  /\ ValidateFaceImage.validateImage (Examples.pngIHDR 4001 4000)
     = Throw "Image too large. Maximum dimensions: 4000x4000".
Proof.
  split.
  - apply (proj1 (proj2 (png_dimension_gate (skipn 4 (Examples.pngIHDR 4000 4000)))
                        ltac:(vm_compute; split; discriminate))).
    vm_compute. repeat split; discriminate.
  - apply (proj2 (proj2 (png_dimension_gate (skipn 4 (Examples.pngIHDR 4001 4000)))
                        ltac:(vm_compute; split; discriminate))).
    vm_compute. repeat split; try discriminate. left. reflexivity.
Defined.

(** C4, as the specification words it, fails: with the offsets counted from
    the marker-type byte itself, the frame header of a 200 by 200 JPEG
    (marker-type byte at index 3) would give a height of 2048 and a width
    of 51200, which the gate rejects as too large, and the code accepts the
    stream. *)
Lemma jpeg_offsets_from_marker_byte_counterexample :
  Spec.firstSOF 1000 (Examples.jpegSOF0 200 200) 2 = Some 3
  /\ ValidateFaceImage.validateImage (Examples.jpegSOF0 200 200)
     = Normal (ValidateFaceImage.mkValidated "jpeg" 1000 "Image validation successful")
  /\ Spec.be16 (Examples.jpegSOF0 200 200) (3 + 3) = 2048
  /\ Spec.be16 (Examples.jpegSOF0 200 200) (3 + 5) = 51200
  /\ ValidateFaceImage.checkDimensions
       (Spec.be16 (Examples.jpegSOF0 200 200) (3 + 5))
       (Spec.be16 (Examples.jpegSOF0 200 200) (3 + 3))
     = Throw "Image too large. Maximum dimensions: 4000x4000".
Proof. vm_compute. repeat split. Qed.

(** C4, amended.  For a JPEG stream inside the size bounds the validator
    walks the marker segments after the two SOI bytes, takes a marker-type
    byte in [0xC0..0xCF] other than [0xC4], [0xC8], [0xCC] as a start of
    frame, and at the first one reads the height as the 16-bit big-endian
    field four bytes after the marker-type byte and the width as the one
    six bytes after it (offsets 3 and 5 from the first byte that follows
    the marker-type byte).  It rejects as too small when an axis is below
    100, as too large when an axis is above 4000, and accepts otherwise;
    with no start of frame on the walk it accepts. *)
Theorem jpeg_dimension_gate (rest : list byte) :
  1000 <= JS.length (Spec.JPEG_SIGNATURE ++ rest) <= 5242880 ->
  (Spec.firstSOF (List.length (Spec.JPEG_SIGNATURE ++ rest))
                 (Spec.JPEG_SIGNATURE ++ rest) 2 = None ->
   ValidateFaceImage.validateImage (Spec.JPEG_SIGNATURE ++ rest)
   = Normal (ValidateFaceImage.mkValidated "jpeg"
               (JS.length (Spec.JPEG_SIGNATURE ++ rest)) "Image validation successful"))
  /\ (forall m : Z,
        Spec.firstSOF (List.length (Spec.JPEG_SIGNATURE ++ rest))
                      (Spec.JPEG_SIGNATURE ++ rest) 2 = Some m ->
        (Spec.be16 (Spec.JPEG_SIGNATURE ++ rest) (m + 6) < 100
         \/ Spec.be16 (Spec.JPEG_SIGNATURE ++ rest) (m + 4) < 100 ->
         ValidateFaceImage.validateImage (Spec.JPEG_SIGNATURE ++ rest)
         = Throw "Image too small. Minimum dimensions: 100x100")
        /\ (100 <= Spec.be16 (Spec.JPEG_SIGNATURE ++ rest) (m + 6)
            /\ 100 <= Spec.be16 (Spec.JPEG_SIGNATURE ++ rest) (m + 4)
            /\ (Spec.be16 (Spec.JPEG_SIGNATURE ++ rest) (m + 6) > 4000
                \/ Spec.be16 (Spec.JPEG_SIGNATURE ++ rest) (m + 4) > 4000) ->
            ValidateFaceImage.validateImage (Spec.JPEG_SIGNATURE ++ rest)
            = Throw "Image too large. Maximum dimensions: 4000x4000")
        /\ (Spec.withinBounds (Spec.be16 (Spec.JPEG_SIGNATURE ++ rest) (m + 6))
                              (Spec.be16 (Spec.JPEG_SIGNATURE ++ rest) (m + 4)) ->
            ValidateFaceImage.validateImage (Spec.JPEG_SIGNATURE ++ rest)
            = Normal (ValidateFaceImage.mkValidated "jpeg"
                        (JS.length (Spec.JPEG_SIGNATURE ++ rest))
                        "Image validation successful"))).
Proof.
  set (bytes := (Spec.JPEG_SIGNATURE ++ rest)%list).
  intros Hsize.
  assert (Hv : ValidateFaceImage.validateImage bytes =
               match Spec.firstSOF (List.length bytes) bytes 2 with
               | Some m =>
                   match ValidateFaceImage.checkDimensions
                           (Spec.be16 bytes (m + 6)) (Spec.be16 bytes (m + 4)) with
                   | Throw e => Throw e
                   | Normal _ =>
                       Normal (ValidateFaceImage.mkValidated "jpeg" (JS.length bytes)
                                 "Image validation successful")
                   end
               | None =>
                   Normal (ValidateFaceImage.mkValidated "jpeg" (JS.length bytes)
                             "Image validation successful")
               end).
  { rewrite validateImage_in_bounds by exact Hsize.
    rewrite (detectFormat_jpeg rest : ValidateFaceImage.detectFormat
                                        ValidateFaceImage.MAGIC_BYTES bytes = _).
    cbn [negb].
    change (("jpeg" =? "jpeg")%string) with true.
    change (("jpeg" =? "png")%string) with false. cbv iota.
    unfold ValidateFaceImage.validateJpeg.
    rewrite jpegLoop_firstSOF by lia.
    destruct (Spec.firstSOF (List.length bytes) bytes 2) as [m |]; [| reflexivity].
    destruct (ValidateFaceImage.checkDimensions _ _); reflexivity. }
  split.
  - intros Hnone. rewrite Hv, Hnone. reflexivity.
  - intros m Hm. rewrite Hv, Hm. repeat split.
    + intros H. apply checkDimensions_small in H. rewrite H. reflexivity.
    + intros H. apply checkDimensions_large in H. rewrite H. reflexivity.
    + intros H. apply checkDimensions_Normal in H. rewrite H. reflexivity.
Qed.

(** The three streams of the specification, with the frame header first
    and behind a JFIF segment: 50 by 50 is too small, 200 by 200 is
    accepted, 5000 by 200 is too large. *)
Lemma jpeg_dimension_gate_witness :
  ValidateFaceImage.validateImage (Examples.jpegSOF0 50 50)
  = Throw "Image too small. Minimum dimensions: 100x100"
  /\ ValidateFaceImage.validateImage (Examples.jpegSOF0 200 200)
     = Normal (ValidateFaceImage.mkValidated "jpeg" 1000 "Image validation successful")
  /\ ValidateFaceImage.validateImage (Examples.jfifSOF0 5000 200)
     = Throw "Image too large. Maximum dimensions: 4000x4000".
Proof.
  split; [| split].
  - apply (proj1 (proj2 (jpeg_dimension_gate (skipn 3 (Examples.jpegSOF0 50 50))
                           ltac:(vm_compute; split; discriminate))
                        3 eq_refl)).
    left. reflexivity.
  - apply (proj2 (proj2 (proj2 (jpeg_dimension_gate (skipn 3 (Examples.jpegSOF0 200 200))
                                  ltac:(vm_compute; split; discriminate))
                               3 eq_refl))).
    vm_compute. repeat split; discriminate.
  - apply (proj1 (proj2 (proj2 (jpeg_dimension_gate (skipn 3 (Examples.jfifSOF0 5000 200))
                                  ltac:(vm_compute; split; discriminate))
                               21 eq_refl))).
    vm_compute. repeat split; try discriminate. left. reflexivity.
Defined.

(** C8.  When the authenticated principal is not the claimed owner the
    function answers with the authorization error, which is none of the
    validation reasons, and its log holds the authentication call only: the
    profile is not read, the payload is neither matched nor decoded, so no
    byte of the image exists when the function returns.  The answer is the
    same for every image and every decoder. *)
Theorem owner_mismatch_unauthorized
        (atob : string -> Completion string)
        (env : ValidateFaceImage.Env) (req : ValidateFaceImage.Request)
        (header principal : string) :
  ValidateFaceImage.method req <> "OPTIONS"%string ->
  ValidateFaceImage.Authorization req = Some header ->
  header <> EmptyString ->
  ValidateFaceImage.getUser env (removeFirst "Bearer " header)
  = ValidateFaceImage.mkAuthResponse (Some principal) false ->
  principal <> ValidateFaceImage.userId req ->
  ValidateFaceImage.serve atob env req
  = ([ValidateFaceImage.auth_getUser (removeFirst "Bearer " header);
      ValidateFaceImage.console_error "Validation error:"],
     ValidateFaceImage.mkResponse 400
       (ValidateFaceImage.InvalidBody "Unauthorized: Cannot upload for another user")).
Proof.
  intros Hmethod Hauth Hheader Huser Hother.
  unfold ValidateFaceImage.serve, ValidateFaceImage.tryBlock.
  apply String.eqb_neq in Hmethod. rewrite Hmethod.
  rewrite Hauth.
  apply String.eqb_neq in Hheader. rewrite Hheader.
  apply String.eqb_neq in Hother.
  cbv [bind call ret throw]. rewrite Huser.
  cbn [ValidateFaceImage.authError ValidateFaceImage.user_id].
  rewrite Hother. reflexivity.
Qed.

(** Principal [user-1] sends a well-formed PNG under the owner id
    [user-2]. *)
Lemma owner_mismatch_unauthorized_witness :
  ValidateFaceImage.serve Base64.atob Examples.env
    (Examples.request "user-1" "user-2" (Spec.dataUrl "png" Examples.zerosBase64))
  = ([ValidateFaceImage.auth_getUser "user-1";
      ValidateFaceImage.console_error "Validation error:"],
     ValidateFaceImage.mkResponse 400
       (ValidateFaceImage.InvalidBody "Unauthorized: Cannot upload for another user")).
Proof.
  apply (owner_mismatch_unauthorized Base64.atob Examples.env
           (Examples.request "user-1" "user-2" (Spec.dataUrl "png" Examples.zerosBase64))
           "Bearer user-1" "user-1").
  - discriminate.
  - reflexivity.
  - discriminate.
  - reflexivity.
  - discriminate.
Defined.

(** The function from the request to the response, on four requests of
    the owner: a thousand zero bytes under the subtype [png], three zero
    bytes, a payload that is not base64 and a subtype with a [+]. *)
Example serve_runs :
  Base64.atob Examples.zerosBase64 = Normal (string_of_list_byte Examples.zeros)
  /\ ValidateFaceImage.serve Base64.atob Examples.env
    (Examples.request "user-1" "user-1" (Spec.dataUrl "png" Examples.zerosBase64))
  = ([ValidateFaceImage.auth_getUser "user-1";
      ValidateFaceImage.profiles_select_face_photos "user-1";
      ValidateFaceImage.atob_call Examples.zerosBase64;
      ValidateFaceImage.console_error "Validation error:"],
     ValidateFaceImage.mkResponse 400
       (ValidateFaceImage.InvalidBody
          "Invalid image format. Only JPEG, PNG, and WebP are allowed."))
  /\ snd (ValidateFaceImage.serve Base64.atob Examples.env
            (Examples.request "user-1" "user-1" (Spec.dataUrl "png" "AAAA")))
     = ValidateFaceImage.mkResponse 400
         (ValidateFaceImage.InvalidBody "File too small. Minimum size: 1KB")
  /\ snd (ValidateFaceImage.serve Base64.atob Examples.env
            (Examples.request "user-1" "user-1" (Spec.dataUrl "png" "!!!!")))
     = ValidateFaceImage.mkResponse 400
         (ValidateFaceImage.InvalidBody "Failed to decode base64")
  /\ snd (ValidateFaceImage.serve Base64.atob Examples.env
            (Examples.request "user-1" "user-1" "data:image/svg+xml;base64,AAAA"))
     = ValidateFaceImage.mkResponse 400
         (ValidateFaceImage.InvalidBody "Invalid image data format").
Proof. vm_compute. repeat split. Qed.

(* ================================================================== *)
(** ** Properties of the camera page *)

(** Unfolds the combinators of a handler, not the blocks it is made of. *)
Ltac unfold_prog :=
  cbv beta iota zeta delta
      [Camera.setStatus Camera.setMessage Camera.setIsProcessing Camera.setHasDetected
       bind tryCatch finally await call ret throw modify
       logOf stateOf completionOf fst snd].

(** Splits on the next answer the run depends on. *)
Ltac next_answer :=
  match goal with
  | |- context [match ?x with _ => _ end] =>
      lazymatch x with
      | context [match _ with _ => _ end] => fail
      | _ => destruct x
      end
  end; cbv beta iota zeta delta [fst snd].

Section CameraFacts.
Import Client.

Lemma validations_app (l l' : list Call) :
  validations (l ++ l') = (validations l ++ validations l')%list.
Proof. apply flat_map_app. Qed.

Lemma inserted_app (l l' : list Call) :
  inserted (l ++ l') = (inserted l ++ inserted l')%list.
Proof. apply flat_map_app. Qed.

(** The capture block calls the storage service only. *)
Lemma captureImage_log (w : World) (p : Camera.Props) (userId : string)
      (prof : Camera.Profile) (s : Camera.UI) :
  validations (logOf (Camera.captureImage w p userId prof s)) = []
  /\ inserted (logOf (Camera.captureImage w p userId prof s)) = [].
Proof.
  unfold Camera.captureImage. unfold_prog.
  repeat next_answer; split; reflexivity.
Qed.

(** The second block inserts its row, whatever the answers are. *)
Lemma markPresent_log (w : World) (userId : string) (prof : Camera.Profile)
      (vector : list float) (imageUrl : option string) (s : Camera.UI) :
  validations (logOf (Camera.markPresent w userId prof vector imageUrl s)) = []
  /\ inserted (logOf (Camera.markPresent w userId prof vector imageUrl s))
     = [Camera.row userId prof vector imageUrl].
Proof.
  unfold Camera.markPresent. unfold_prog.
  repeat next_answer; split; reflexivity.
Qed.

Lemma recordingFailed_log (s : Camera.UI) :
  logOf (Camera.recordingFailed s)
  = [console_error "Error sending attendance:"; setTimeout backToScanning 3000].
Proof. reflexivity. Qed.

(** The log of [sendAttendance], block by block. *)
Lemma sendAttendance_log (w : World) (p : Camera.Props) (vector : list float)
      (ui : Camera.UI) :
  validations (logOf (Camera.sendAttendance w p vector ui)) = []
  /\ ((forall vector' : list float,
          inserted (logOf (Camera.sendAttendance w p vector' ui)) = [])
      \/ exists userId prof imageUrl,
          forall vector' : list float,
            inserted (logOf (Camera.sendAttendance w p vector' ui))
            = [Camera.row userId prof vector' imageUrl]).
Proof.
  unfold Camera.sendAttendance.
  destruct (Camera.user p) as [userId |]; [| split; [| left; intros ?]; reflexivity].
  destruct (Camera.profile p) as [prof |]; [| split; [| left; intros ?]; reflexivity].
  unfold_prog.
  set (s1 := Camera.mkUI _ _ _ _ _).
  pose proof (captureImage_log w p userId prof s1) as [Hv Hi].
  destruct (Camera.captureImage w p userId prof s1) as [[l s2] [imageUrl | e]].
  - cbv [logOf fst] in Hv, Hi. split.
    + pose proof (markPresent_log w userId prof vector imageUrl s2) as [Hv' _].
      destruct (Camera.markPresent w userId prof vector imageUrl s2) as [[l' s3] [[] | e']];
        cbv [logOf fst] in Hv'; unfold Camera.recordingFailed; unfold_prog; cbn [app];
        rewrite ?validations_app, Hv, Hv'; reflexivity.
    + right. exists userId, prof, imageUrl. intros vector'.
      pose proof (markPresent_log w userId prof vector' imageUrl s2) as [_ Hi'].
      destruct (Camera.markPresent w userId prof vector' imageUrl s2) as [[l' s3] [[] | e']];
        cbv [logOf fst] in Hi'; unfold Camera.recordingFailed; unfold_prog; cbn [app];
        rewrite ?inserted_app, Hi, Hi'; reflexivity.
  - cbv [logOf fst] in Hv, Hi. unfold Camera.recordingFailed. unfold_prog. cbn [app].
    rewrite validations_app, inserted_app, Hv, Hi.
    split; [| left; intros ?]; reflexivity.
Qed.

(** The capture block when the storage write answers with an error. *)
Lemma captureImage_upload_error (w : World) (p : Camera.Props) (userId : string)
      (prof : Camera.Profile) (blob : Blob) (reason : string) (s : Camera.UI) :
  Camera.videoRef p = true ->
  Camera.context2d p = true ->
  toBlob w = Some blob ->
  upload w (Camera.userFileName w userId prof) blob = Resolved (Error reason) ->
  Camera.captureImage w p userId prof s
  = ([storage_upload (Camera.userFileName w userId prof) blob "image/jpeg";
      console_error "Error uploading image:"],
     Camera.mkUI (Camera.status s) "Uploading to Cloud..." (Camera.isProcessing s)
                 (Camera.hasDetected s) (Camera.cameraStopped s),
     Normal None).
Proof.
  intros Hvideo Hctx Hblob Hupload. unfold Camera.captureImage.
  rewrite Hvideo, Hctx, Hblob. unfold_prog. rewrite Hupload. reflexivity.
Qed.

(** The second block when the insert promise resolves: it ends normally in
    the state [success], with the timer of the final message set. *)
Lemma markPresent_resolved (w : World) (userId : string) (prof : Camera.Profile)
      (vector : list float) (imageUrl : option string) (answer : Result unit)
      (s : Camera.UI) :
  insertAttendance w (Camera.row userId prof vector imageUrl) = Resolved answer ->
  exists l : list Call,
    Camera.markPresent w userId prof vector imageUrl s
    = (attendance_records_insert (Camera.row userId prof vector imageUrl) :: l,
       Camera.mkUI Camera.success "âœ… Present Marked" (Camera.isProcessing s)
                   (Camera.hasDetected s) (Camera.cameraStopped s),
       Normal tt)
    /\ uploads l = [] /\ inserted l = []
    /\ emails l = [Camera.emailBody w prof]
    /\ (forall p ui, Camera.status (Camera.settle p l ui) = Camera.completed).
Proof.
  intros Hinsert. unfold Camera.markPresent. unfold_prog. rewrite Hinsert.
  destruct answer as [[] | e];
    destruct (invokeEmail w (Camera.emailBody w prof)) as [[] | e'];
    eexists; (split; [reflexivity | repeat split]);
    intros p ui; cbn [app Camera.settle Camera.fire]; unfold Camera.stopCamera;
    destruct (Camera.videoRef p && Camera.srcObject p); reflexivity.
Qed.

(** The world of [sendAttendance] without the detector. *)
Lemma sendAttendance_withDetection (w : World) (answer : Promise (option (list float)))
      (p : Camera.Props) (vector : list float) :
  Camera.sendAttendance (withDetection w answer) p vector = Camera.sendAttendance w p vector.
Proof. reflexivity. Qed.

(** From [handleCapture] on, with a descriptor detected: the rows inserted
    are those of [sendAttendance], run in the state [handleCapture] has
    set. *)
Lemma handleCapture_inserted (w : World) (p : Camera.Props) (ui : Camera.UI) :
  (forall vector : list float,
      inserted (logOf (Camera.handleCapture (withDetection w (Resolved (Some vector))) p ui))
      = [])
  \/ exists s : Camera.UI,
      forall vector : list float,
        inserted (logOf (Camera.handleCapture
                           (withDetection w (Resolved (Some vector))) p ui))
        = inserted (logOf (Camera.sendAttendance w p vector s)).
Proof.
  unfold Camera.handleCapture.
  destruct (Camera.isProcessing ui || negb (truthy (Camera.user p))
            || negb (truthy (Camera.profile p)) || negb (Camera.videoRef p)
            || negb (Camera.canvasRef p)).
  - left. intros vector. reflexivity.
  - right. unfold_prog. cbn [detectSingleFace withDetection].
    cbn [Camera.status Camera.message Camera.isProcessing Camera.hasDetected
         Camera.cameraStopped].
    exists (Camera.mkUI (Camera.status ui) "Detecting face..." true true
                        (Camera.cameraStopped ui)).
    intros vector. rewrite sendAttendance_withDetection.
    match goal with
    | |- context [Camera.sendAttendance w p vector ?s] =>
        destruct (Camera.sendAttendance w p vector s) as [[l s'] [[] | e]]
    end; unfold inserted; cbn [app flat_map]; rewrite ?flat_map_app;
      cbn [app flat_map]; rewrite ?app_nil_r; reflexivity.
Qed.

(** When the canvas gives a blob and the promises of the storage service
    resolve (with data or with an error object), the capture block ends
    normally, with an image reference that does not depend on the state
    it was started in. *)
Lemma captureImage_resolves (w : World) (p : Camera.Props) (userId : string)
      (prof : Camera.Profile) :
  (Camera.videoRef p = true -> Camera.context2d p = true -> toBlob w <> None) ->
  (forall path blob, exists answer, upload w path blob = Resolved answer) ->
  (forall path expiresIn, exists answer,
        createSignedUrl w path expiresIn = Resolved answer) ->
  exists imageUrl : option string,
    forall s : Camera.UI,
    exists (l : list Call) (s' : Camera.UI),
      Camera.captureImage w p userId prof s = (l, s', Normal imageUrl)
      /\ inserted l = [].
Proof.
  intros Hblob Hupload Hsigned. unfold Camera.captureImage.
  destruct (Camera.videoRef p);
    [| exists None; intros s; eexists _, _; split; reflexivity].
  destruct (Camera.context2d p);
    [| exists None; intros s; eexists _, _; split; reflexivity].
  destruct (toBlob w) as [blob |]; [| exfalso; apply Hblob; reflexivity].
  destruct (Hupload (Camera.userFileName w userId prof) blob) as [[[] | e] Eupload].
  - destruct (Hsigned (Camera.userFileName w userId prof) 3600)
      as [[signedUrl | e] Esigned].
    + exists (Some signedUrl). intros s. unfold_prog. rewrite Eupload.
      cbv beta iota zeta delta [fst snd]. rewrite Esigned.
      eexists _, _. split; reflexivity.
    + exists None. intros s. unfold_prog. rewrite Eupload.
      cbv beta iota zeta delta [fst snd]. rewrite Esigned.
      eexists _, _. split; reflexivity.
  - exists None. intros s. unfold_prog. rewrite Eupload.
    eexists _, _. split; reflexivity.
Qed.

(** Under the same conditions [sendAttendance] sends one row to the
    database, the row of the user with the descriptor handed over, and
    shows success when the insert promise resolves. *)
Lemma sendAttendance_inserts (w : World) (p : Camera.Props) (userId : string)
      (prof : Camera.Profile) :
  Camera.user p = Some userId ->
  Camera.profile p = Some prof ->
  (Camera.videoRef p = true -> Camera.context2d p = true -> toBlob w <> None) ->
  (forall path blob, exists answer, upload w path blob = Resolved answer) ->
  (forall path expiresIn, exists answer,
        createSignedUrl w path expiresIn = Resolved answer) ->
  exists imageUrl : option string,
    forall (vector : list float) (s : Camera.UI),
      inserted (logOf (Camera.sendAttendance w p vector s))
      = [Camera.row userId prof vector imageUrl]
      /\ ((exists answer,
              insertAttendance w (Camera.row userId prof vector imageUrl)
              = Resolved answer) ->
          Camera.status (stateOf (Camera.sendAttendance w p vector s)) = Camera.success).
Proof.
  intros Huser Hprof Hblob Hupload Hsigned.
  destruct (captureImage_resolves w p userId prof Hblob Hupload Hsigned)
    as [imageUrl Hcapture].
  exists imageUrl. intros vector s.
  unfold Camera.sendAttendance. rewrite Huser, Hprof. unfold_prog.
  set (s1 := Camera.mkUI _ _ _ _ _).
  destruct (Hcapture s1) as (l1 & s2 & -> & Hi1).
  split.
  - pose proof (markPresent_log w userId prof vector imageUrl s2) as [_ Hi2].
    destruct (Camera.markPresent w userId prof vector imageUrl s2)
      as [[l2 s3] [[] | e]];
      cbv [logOf fst] in Hi2; unfold Camera.recordingFailed; unfold_prog; cbn [app];
      rewrite ?inserted_app, Hi1, Hi2; reflexivity.
  - intros [answer Hanswer].
    destruct (markPresent_resolved w userId prof vector imageUrl answer s2 Hanswer)
      as (l2 & -> & _).
    reflexivity.
Qed.

(** A click that passes the guard of [handleCapture], with a descriptor
    detected: the rows sent are those of [sendAttendance]. *)
Lemma handleCapture_sends (w : World) (p : Camera.Props) (ui : Camera.UI)
      (userId : string) (prof : Camera.Profile) (vector : list float) :
  Camera.user p = Some userId ->
  Camera.profile p = Some prof ->
  Camera.isProcessing ui = false ->
  Camera.videoRef p = true ->
  Camera.canvasRef p = true ->
  inserted (logOf (Camera.handleCapture (withDetection w (Resolved (Some vector))) p ui))
  = inserted (logOf (Camera.sendAttendance w p vector
                       (Camera.mkUI (Camera.status ui) "Detecting face..." true true
                                    (Camera.cameraStopped ui)))).
Proof.
  intros Huser Hprof Hbusy Hvideo Hcanvas. unfold Camera.handleCapture.
  rewrite Hbusy, Huser, Hprof, Hvideo, Hcanvas. cbn [truthy negb orb].
  unfold_prog. cbn [detectSingleFace withDetection].
  cbn [Camera.status Camera.message Camera.isProcessing Camera.hasDetected
       Camera.cameraStopped].
  rewrite sendAttendance_withDetection.
  match goal with
  | |- context [Camera.sendAttendance w p vector ?s] =>
      destruct (Camera.sendAttendance w p vector s) as [[l s'] [[] | e]]
  end; unfold inserted; cbn [app flat_map]; rewrite ?flat_map_app;
    cbn [app flat_map]; rewrite ?app_nil_r; reflexivity.
Qed.
End CameraFacts.

(** C3.  When the storage write answers with an error and the insert of
    the row succeeds, [sendAttendance] ends normally in the state
    [success], which the timer turns into [completed], and the one row it
    inserts has no image reference. *)
Theorem storage_failure_is_not_fatal
        (w : Client.World) (p : Camera.Props) (ui : Camera.UI) (vector : list float)
        (userId : string) (prof : Camera.Profile) (blob : Client.Blob) (reason : string) :
  Camera.user p = Some userId ->
  Camera.profile p = Some prof ->
  Camera.videoRef p = true ->
  Camera.context2d p = true ->
  Client.toBlob w = Some blob ->
  Client.upload w (Camera.userFileName w userId prof) blob = Resolved (Error reason) ->
  Client.insertAttendance w (Camera.row userId prof vector None) = Resolved (Data tt) ->
  let run := Camera.sendAttendance w p vector ui in
  completionOf run = Normal tt
  /\ Camera.status (stateOf run) = Camera.success
  /\ Camera.status (Camera.settle p (logOf run) (stateOf run)) = Camera.completed
  /\ Client.uploads (logOf run) = [Camera.userFileName w userId prof]
  /\ Client.inserted (logOf run) = [Camera.row userId prof vector None]
  /\ Client.image_url (Camera.row userId prof vector None) = None.
Proof.
  intros Huser Hprof Hvideo Hctx Hblob Hupload Hinsert. cbv zeta.
  unfold Camera.sendAttendance. rewrite Huser, Hprof. unfold_prog.
  rewrite (captureImage_upload_error w p userId prof blob reason _
             Hvideo Hctx Hblob Hupload).
  destruct (markPresent_resolved w userId prof vector None (Data tt)
              (Camera.mkUI (Camera.status ui) "Uploading to Cloud..."
                           (Camera.isProcessing ui) (Camera.hasDetected ui)
                           (Camera.cameraStopped ui)) Hinsert)
    as (l & Hrun & Hup & Hins & _ & Hsettle).
  cbn [Camera.status Camera.message Camera.isProcessing Camera.hasDetected
       Camera.cameraStopped].
  rewrite Hrun. cbn [app].
  repeat apply conj.
  - reflexivity.
  - reflexivity.
  - apply Hsettle.
  - cbn [Client.uploads flat_map app]. fold (Client.uploads l). rewrite Hup. reflexivity.
  - cbn [Client.inserted flat_map app]. fold (Client.inserted l). rewrite Hins.
    reflexivity.
  - reflexivity.
Qed.

(** The run in the world whose storage is down. *)
Lemma storage_failure_is_not_fatal_witness :
  Camera.status (stateOf (Camera.sendAttendance Examples.storageDown Examples.props
                                                [0x1p-3%float] Examples.idle))
  = Camera.success
  /\ Client.inserted (logOf (Camera.sendAttendance Examples.storageDown Examples.props
                                                   [0x1p-3%float] Examples.idle))
     = [Camera.row "user-1" Examples.profile [0x1p-3%float] None].
Proof.
  pose proof (storage_failure_is_not_fatal Examples.storageDown Examples.props
                Examples.idle [0x1p-3%float] "user-1" Examples.profile
                "jpeg-bytes"%string "storage unavailable"%string
                eq_refl eq_refl eq_refl eq_refl eq_refl eq_refl eq_refl) as H.
  cbv zeta in H. split; [apply H | apply H].
Defined.

(** C2 at the failing input.  The insert answers with an error:
    [sendAttendance] logs it, sets the state [success], sends the
    notification and schedules the "Attendance Recorded Successfully"
    message. *)
Lemma insert_error_still_reports_success :
  Client.insertAttendance Examples.insertFails
    (Camera.row "user-1" Examples.profile [0x1p-3%float]
       (Some "https://storage.example/user-1/21CS042_1762860000000.jpg"%string))
  = Resolved (Error "row-level security policy violated")
  /\ logOf (Camera.sendAttendance Examples.insertFails Examples.props
                                  [0x1p-3%float] Examples.idle)
     = [ Client.storage_upload "user-1/21CS042_1762860000000.jpg"
                               "jpeg-bytes"%string "image/jpeg";
         Client.storage_createSignedUrl "user-1/21CS042_1762860000000.jpg" 3600;
         Client.attendance_records_insert
           (Camera.row "user-1" Examples.profile [0x1p-3%float]
              (Some "https://storage.example/user-1/21CS042_1762860000000.jpg"%string));
         Client.console_error "Error saving to database:";
         Client.functions_invoke_email (Camera.emailBody Examples.insertFails Examples.profile);
         Client.setTimeout Client.markCompleted 2000 ]
  /\ Camera.status (stateOf (Camera.sendAttendance Examples.insertFails Examples.props
                                                   [0x1p-3%float] Examples.idle))
     = Camera.success
  /\ Camera.settle Examples.props
       (logOf (Camera.sendAttendance Examples.insertFails Examples.props
                                     [0x1p-3%float] Examples.idle))
       (stateOf (Camera.sendAttendance Examples.insertFails Examples.props
                                       [0x1p-3%float] Examples.idle))
     = Camera.mkUI Camera.completed "Attendance Recorded Successfully! Check your email."
                   false false true.
Proof. vm_compute. repeat split. Qed.

(** C9.  A submission with a descriptor sends its record with the status
    "present" and the confidence score 0.90, whatever the descriptor is.
    Every row [sendAttendance] inserts has that status and score, and two
    runs that differ only in the face descriptor insert the same rows up
    to the stored vector; the same holds from [handleCapture] on, for two
    answers of the detector.  And the row is sent: for a signed-in user
    with a profile, when the canvas gives a blob and the promises of the
    storage service resolve, each of the two runs sends exactly one row to
    the database, the row of that user with its descriptor, from
    [sendAttendance] and from a click that passes the guard of
    [handleCapture]; the page shows success when the insert promise
    resolves.  Nothing is compared with the descriptor. *)
Theorem attendance_ignores_descriptor
        (w : Client.World) (p : Camera.Props) (ui : Camera.UI)
        (vector1 vector2 : list float) :
  (forall row : Client.AttendanceRecord,
      In row (Client.inserted (logOf (Camera.sendAttendance w p vector1 ui))) ->
      Client.status row = "present"%string
      /\ Client.confidence_score row = 0x1.ccccccccccccdp-1%float
      /\ Client.face_vector row = vector1)
  /\ map Client.withoutVector
         (Client.inserted (logOf (Camera.sendAttendance w p vector1 ui)))
     = map Client.withoutVector
           (Client.inserted (logOf (Camera.sendAttendance w p vector2 ui)))
  /\ map Client.withoutVector
         (Client.inserted
            (logOf (Camera.handleCapture
                      (Client.withDetection w (Resolved (Some vector1))) p ui)))
     = map Client.withoutVector
           (Client.inserted
              (logOf (Camera.handleCapture
                        (Client.withDetection w (Resolved (Some vector2))) p ui)))
  /\ (forall (userId : string) (prof : Camera.Profile),
         Camera.user p = Some userId ->
         Camera.profile p = Some prof ->
         (Camera.videoRef p = true -> Camera.context2d p = true ->
          Client.toBlob w <> None) ->
         (forall path blob, exists answer, Client.upload w path blob = Resolved answer) ->
         (forall path expiresIn, exists answer,
               Client.createSignedUrl w path expiresIn = Resolved answer) ->
         exists imageUrl : option string,
           Client.inserted (logOf (Camera.sendAttendance w p vector1 ui))
           = [Camera.row userId prof vector1 imageUrl]
           /\ Client.inserted (logOf (Camera.sendAttendance w p vector2 ui))
              = [Camera.row userId prof vector2 imageUrl]
           /\ Client.status (Camera.row userId prof vector1 imageUrl) = "present"%string
           /\ Client.confidence_score (Camera.row userId prof vector1 imageUrl)
              = 0x1.ccccccccccccdp-1%float
           /\ Client.status (Camera.row userId prof vector2 imageUrl) = "present"%string
           /\ Client.confidence_score (Camera.row userId prof vector2 imageUrl)
              = 0x1.ccccccccccccdp-1%float
           /\ ((exists answer,
                   Client.insertAttendance w (Camera.row userId prof vector1 imageUrl)
                   = Resolved answer) ->
               Camera.status (stateOf (Camera.sendAttendance w p vector1 ui))
               = Camera.success)
           /\ (Camera.isProcessing ui = false ->
               Camera.videoRef p = true ->
               Camera.canvasRef p = true ->
               Client.inserted
                 (logOf (Camera.handleCapture
                           (Client.withDetection w (Resolved (Some vector1))) p ui))
               = [Camera.row userId prof vector1 imageUrl]
               /\ Client.inserted
                    (logOf (Camera.handleCapture
                              (Client.withDetection w (Resolved (Some vector2))) p ui))
                  = [Camera.row userId prof vector2 imageUrl])).
Proof.
  assert (Hsend : forall s : Camera.UI,
             map Client.withoutVector
                 (Client.inserted (logOf (Camera.sendAttendance w p vector1 s)))
             = map Client.withoutVector
                   (Client.inserted (logOf (Camera.sendAttendance w p vector2 s)))).
  { intros s.
    destruct (sendAttendance_log w p vector1 s)
      as [_ [Hnone | (userId & prof & imageUrl & Hrow)]].
    - rewrite !Hnone. reflexivity.
    - rewrite !Hrow. reflexivity. }
  split; [| split; [| split]].
  - destruct (sendAttendance_log w p vector1 ui)
      as [_ [Hnone | (userId & prof & imageUrl & Hrow)]].
    + rewrite Hnone. intros row [].
    + rewrite Hrow. intros row [<- | []]. repeat split.
  - apply Hsend.
  - destruct (handleCapture_inserted w p ui) as [Hnone | (s & Hs)].
    + rewrite !Hnone. reflexivity.
    + rewrite !Hs. apply Hsend.
  - intros userId prof Huser Hprof Hblob Hupload Hsigned.
    destruct (sendAttendance_inserts w p userId prof Huser Hprof Hblob Hupload Hsigned)
      as [imageUrl Hrows].
    exists imageUrl.
    split; [apply Hrows |]. split; [apply Hrows |].
    do 4 (split; [reflexivity |]).
    split; [apply Hrows |].
    intros Hbusy Hvideo Hcanvas.
    rewrite !(handleCapture_sends w p ui userId prof) by assumption.
    split; apply Hrows.
Qed.

(** The capture of the examples: the row of [user-1] is sent, marked
    present with the score 0.90. *)
Lemma attendance_ignores_descriptor_witness :
  Client.inserted (logOf (Camera.sendAttendance Examples.rejecting Examples.props
                                                [0x1p-3%float] Examples.idle))
  = [Camera.row "user-1" Examples.profile [0x1p-3%float]
       (Some "https://storage.example/user-1/21CS042_1762860000000.jpg"%string)]
  /\ Client.inserted (logOf (Camera.sendAttendance Examples.rejecting Examples.props
                                                   [0x1p-2%float] Examples.idle))
     = [Camera.row "user-1" Examples.profile [0x1p-2%float]
          (Some "https://storage.example/user-1/21CS042_1762860000000.jpg"%string)]
  /\ Camera.status (stateOf (Camera.sendAttendance Examples.rejecting Examples.props
                                                   [0x1p-3%float] Examples.idle))
     = Camera.success.
Proof.
  assert (Hblob : Camera.videoRef Examples.props = true ->
                  Camera.context2d Examples.props = true ->
                  Client.toBlob Examples.rejecting <> None).
  { intros _ _. discriminate. }
  assert (Hupload : forall path blob, exists answer,
               Client.upload Examples.rejecting path blob = Resolved answer).
  { intros path blob. eexists. reflexivity. }
  assert (Hsigned : forall path expiresIn, exists answer,
               Client.createSignedUrl Examples.rejecting path expiresIn
               = Resolved answer).
  { intros path expiresIn. eexists. reflexivity. }
  destruct (proj2 (proj2 (proj2 (attendance_ignores_descriptor
                                   Examples.rejecting Examples.props Examples.idle
                                   [0x1p-3%float] [0x1p-2%float])))
              "user-1"%string Examples.profile eq_refl eq_refl Hblob Hupload Hsigned)
    as (imageUrl & Hrow1 & Hrow2 & _ & _ & _ & _ & Hsuccess & _).
  assert (Hurl : imageUrl
                 = Some "https://storage.example/user-1/21CS042_1762860000000.jpg"%string).
  { assert (Hrun : Client.inserted
                     (logOf (Camera.sendAttendance Examples.rejecting Examples.props
                                                   [0x1p-3%float] Examples.idle))
                   = [Camera.row "user-1" Examples.profile [0x1p-3%float]
                        (Some "https://storage.example/user-1/21CS042_1762860000000.jpg"%string)])
      by (vm_compute; reflexivity).
    rewrite Hrun in Hrow1. injection Hrow1 as Hrow1. symmetry. exact Hrow1. }
  subst imageUrl.
  split; [exact Hrow1 |]. split; [exact Hrow2 |].
  apply Hsuccess. eexists. reflexivity.
Defined.

(* ================================================================== *)
(** ** Properties of the enrolment upload *)

Section EnrollmentFacts.
Import Client FaceEnrollment.

Variables (w : World) (userId photo : string) (after : list string).

(** The validation of [photo] does not succeed: the call is rejected,
    answers with an error, or answers without [valid: true]. *)
Hypothesis Hfail :
  forall r, invokeValidate w photo userId = Resolved r -> validationFailed r = true.

(** The loop does not get past [photo]: it throws, it has written at most
    one object for each photo before [photo], and the photos after it
    play no part. *)
Lemma uploadLoop_stops :
  forall (before : list string) (i : nat) (acc : list string) (st : St),
  exists (l : list Call) (m : string),
    uploadLoop w userId (before ++ photo :: after) i acc st = (l, st, Throw m)
    /\ uploadLoop w userId (before ++ [photo]) i acc st = (l, st, Throw m)
    /\ (List.length (uploads l) <= List.length before)%nat
    /\ profileUpdates l = []
    /\ toasts l = [].
Proof.
  induction before as [| b before IH]; intros i acc st.
  - cbn [app uploadLoop]. unfold bind, await, throw.
    destruct (invokeValidate w photo userId) as [r | e] eqn:E.
    + assert (Hr : validationFailed r = true)
        by first [exact (Hfail r E) | exact (Hfail r eq_refl)].
      rewrite Hr. eexists _, _. cbn. repeat split. apply Nat.le_refl.
    + eexists _, _. cbn. repeat split. apply Nat.le_refl.
  - cbn [app uploadLoop]. unfold bind, await, throw.
    destruct (invokeValidate w b userId) as [r | e];
      [destruct (validationFailed r) |];
      try (eexists _, _; cbn; repeat split; apply Nat.le_0_l).
    destruct (fetchBlob w b) as [blob | e];
      try (eexists _, _; cbn; repeat split; apply Nat.le_0_l).
    destruct (upload w _ blob) as [[[] | e] | e];
      try (eexists _, _; cbn; repeat split; apply le_n_S, Nat.le_0_l).
    destruct (createSignedUrl w _ 31536000) as [[signedUrl | e] | e];
      try (eexists _, _; cbn; repeat split; apply le_n_S, Nat.le_0_l).
    destruct (IH (S i) (acc ++ [signedUrl])%list st)
      as (l0 & m0 & E1 & E2 & Hlen & Hpu & Hto).
    rewrite E1, E2. eexists _, _. cbn. repeat split.
    + apply le_n_S. exact Hlen.
    + exact Hpu.
    + exact Hto.
Qed.

(** [uploadPhotos] with a photo that does not pass. *)
Lemma uploadPhotos_stops (before : list string) (uploading : St) :
  uploadPhotos w userId (before ++ photo :: after) uploading
  = uploadPhotos w userId (before ++ [photo]) uploading
  /\ exists (l : list Call) (m : string),
      uploadPhotos w userId (before ++ photo :: after) uploading
      = ((l ++ [console_error "Upload error:"; toast "Upload Failed" m])%list,
         false, Normal tt)
      /\ (List.length (uploads l) <= List.length before)%nat
      /\ profileUpdates l = []
      /\ toasts l = [].
Proof.
  destruct (uploadLoop_stops before 0 [] true) as (l & m & E1 & E2 & Hlen & Hpu & Hto).
  assert (Hrun : forall photos,
             photos <> [] ->
             uploadLoop w userId photos 0 [] true = (l, true, Throw m) ->
             uploadPhotos w userId photos uploading
             = ((l ++ [console_error "Upload error:";
                       toast "Upload Failed"
                             (if (m =? "")%string then "Failed to upload photos."%string
                              else m)])%list,
                false, Normal tt)).
  { intros photos Hne E. destruct photos as [| p0 photos]; [contradiction |].
    unfold uploadPhotos.
    cbv beta iota zeta delta [bind modify finally tryCatch call ret throw await].
    rewrite E. reflexivity. }
  assert (H1 : before ++ photo :: after <> []) by (destruct before; discriminate).
  assert (H2 : before ++ [photo] <> []) by (destruct before; discriminate).
  rewrite (Hrun _ H1 E1), (Hrun _ H2 E2). split; [reflexivity |].
  eexists _, _. repeat split; assumption.
Qed.
End EnrollmentFacts.

(** C1, as the specification words it, fails for the attendance
    submission: in a world whose validation service answers [valid: false]
    to every image, [sendAttendance] never calls the service, writes the
    frame to storage, inserts the row and ends in [success]. *)
Lemma attendance_skips_validation_counterexample :
  Client.invokeValidate Examples.rejecting "jpeg-bytes" "user-1"
  = Resolved (Client.mkInvokeResponse
                (Some (Client.mkValidationData false
                         (Some "Invalid image format. Only JPEG, PNG, and WebP are allowed."%string)))
                None)
  /\ Client.validations
       (logOf (Camera.sendAttendance Examples.rejecting Examples.props
                                     [0x1p-3%float] Examples.idle)) = []
  /\ Client.uploads
       (logOf (Camera.sendAttendance Examples.rejecting Examples.props
                                     [0x1p-3%float] Examples.idle))
     = ["user-1/21CS042_1762860000000.jpg"%string]
  /\ Client.inserted
       (logOf (Camera.sendAttendance Examples.rejecting Examples.props
                                     [0x1p-3%float] Examples.idle))
     = [Camera.row "user-1" Examples.profile [0x1p-3%float]
          (Some "https://storage.example/user-1/21CS042_1762860000000.jpg"%string)]
  /\ Camera.status
       (stateOf (Camera.sendAttendance Examples.rejecting Examples.props
                                       [0x1p-3%float] Examples.idle))
     = Camera.success.
Proof. vm_compute. repeat split. Qed.

(** C1, amended.  Validation gates the enrolment upload, not the attendance
    submission.  When the validation of a photo does not succeed (the call
    is rejected, answers with an error or answers without [valid: true]),
    [uploadPhotos] stops there: it reports "Upload Failed", it has written
    at most one object for each photo before that one and none for that
    photo or a later one, the photos after it play no part, and the profile
    is not updated.  [sendAttendance] makes no validation call, and what it
    does is the same whatever the validation service would answer. *)
Theorem validation_gates_enrolment_uploads
        (w : Client.World) (userId photo : string) (before after : list string)
        (uploading : FaceEnrollment.St)
        (p : Camera.Props) (vector : list float) (ui : Camera.UI)
        (service : string -> string -> Promise Client.InvokeResponse) :
  (forall r, Client.invokeValidate w photo userId = Resolved r ->
             FaceEnrollment.validationFailed r = true) ->
  (FaceEnrollment.uploadPhotos w userId (before ++ photo :: after) uploading
   = FaceEnrollment.uploadPhotos w userId (before ++ [photo]) uploading
   /\ exists (l : list Client.Call) (m : string),
       FaceEnrollment.uploadPhotos w userId (before ++ photo :: after) uploading
       = ((l ++ [Client.console_error "Upload error:";
                 Client.toast "Upload Failed" m])%list,
          false, Normal tt)
       /\ (List.length (Client.uploads l) <= List.length before)%nat
       /\ Client.profileUpdates l = []
       /\ Client.toasts l = [])
  /\ Client.validations (logOf (Camera.sendAttendance w p vector ui)) = []
  /\ Camera.sendAttendance (Client.withValidate w service) p vector ui
     = Camera.sendAttendance w p vector ui.
Proof.
  intros Hfail. split; [| split].
  - apply uploadPhotos_stops. exact Hfail.
  - apply sendAttendance_log.
  - reflexivity.
Qed.

(** Two photos, the first of which the service rejects: one validation
    call, the report, and nothing else. *)
Lemma validation_gates_enrolment_uploads_witness :
  FaceEnrollment.uploadPhotos Examples.rejecting "user-1"
    [Spec.dataUrl "png" Examples.zerosBase64; Spec.dataUrl "jpeg" "AAAA"] false
  = FaceEnrollment.uploadPhotos Examples.rejecting "user-1"
      [Spec.dataUrl "png" Examples.zerosBase64] false
  /\ logOf (FaceEnrollment.uploadPhotos Examples.rejecting "user-1"
              [Spec.dataUrl "png" Examples.zerosBase64; Spec.dataUrl "jpeg" "AAAA"] false)
     = [ Client.functions_invoke_validate (Spec.dataUrl "png" Examples.zerosBase64) "user-1";
         Client.console_error "Upload error:";
         Client.toast "Upload Failed"
           "Invalid image format. Only JPEG, PNG, and WebP are allowed." ].
Proof.
  split.
  - apply (proj1 (proj1 (validation_gates_enrolment_uploads
                           Examples.rejecting "user-1"
                           (Spec.dataUrl "png" Examples.zerosBase64) []
                           [Spec.dataUrl "jpeg" "AAAA"] false
                           Examples.props [] Examples.idle
                           (fun _ _ => Rejected "offline")
                           ltac:(intros r H; injection H as <-; reflexivity)))).
  - vm_compute. reflexivity.
Defined.

(* ================================================================== *)
(** ** Further properties of [validate-face-image] *)

Section MoreValidatorFacts.
Import ValidateFaceImage Spec.

Lemma stripPrefix_sound (pat : string) :
  forall s rest, stripPrefix pat s = Some rest -> s = (pat ++ rest)%string.
Proof.
  induction pat as [| p pat IH]; intros s rest H.
  - cbn in H. injection H as <-. reflexivity.
  - destruct s as [| c s]; cbn [stripPrefix] in H; [discriminate |].
    destruct (Ascii.eqb p c) eqn:E; [| discriminate].
    apply Ascii.eqb_eq in E. subst c. cbn [String.append].
    rewrite (IH s rest H). reflexivity.
Qed.

Lemma spanLower_sound (s : string) :
  forall run rest, spanLower s = (run, rest) ->
                   s = (run ++ rest)%string /\ allLower run = true.
Proof.
  induction s as [| c s IH]; intros run rest H; cbn [spanLower] in H.
  - injection H as <- <-. split; reflexivity.
  - destruct (isLower c) eqn:E.
    + destruct (spanLower s) as [run' rest'] eqn:E'.
      injection H as <- <-. destruct (IH run' rest' eq_refl) as [-> Hlow].
      split; [reflexivity |]. cbn [allLower]. rewrite E, Hlow. reflexivity.
    + injection H as <- <-. split; reflexivity.
Qed.

(** A match yields the pieces of the string. *)
Lemma matchDataUrl_sound (imageData subtype payload : string) :
  matchDataUrl imageData = Some (subtype, payload) ->
  imageData = dataUrl subtype payload
  /\ subtypeOk subtype
  /\ payload <> EmptyString
  /\ hasLineTerminator payload = false.
Proof.
  unfold matchDataUrl. intros H.
  destruct (stripPrefix "data:image/" imageData) as [afterPrefix |] eqn:E1;
    [| discriminate].
  apply stripPrefix_sound in E1.
  destruct (spanLower afterPrefix) as [declaredType afterType] eqn:E2.
  apply spanLower_sound in E2 as [E2 Hlow].
  destruct (String.eqb_spec declaredType "") as [| Hne]; [discriminate |].
  destruct (stripPrefix ";base64," afterType) as [base64Data |] eqn:E3;
    [| discriminate].
  apply stripPrefix_sound in E3.
  destruct (String.eqb_spec base64Data "") as [| Hd]; [discriminate |].
  cbn [orb] in H.
  destruct (hasLineTerminator base64Data) eqn:E4; [discriminate |].
  injection H as <- <-. subst. repeat split; assumption.
Qed.

Lemma get_beyond (bytes : Uint8Array) (i : Z) :
  JS.length bytes <= i -> get bytes i = None.
Proof.
  unfold get, JS.length. intros H.
  destruct (Z.ltb_spec i 0); [reflexivity |].
  destruct (nth_error bytes (Z.to_nat i)) eqn:E; [| reflexivity].
  assert (nth_error bytes (Z.to_nat i) <> None) as Hn by congruence.
  apply nth_error_Some in Hn. lia.
Qed.

(** What a successful validation says about the bytes. *)
Lemma validateImage_Normal (bytes : Uint8Array) (v : Validated) :
  validateImage bytes = Normal v ->
  1000 <= JS.length bytes <= 5242880
  /\ size v = JS.length bytes
  /\ ((format v = "jpeg"%string /\ startsWith JPEG_SIGNATURE bytes)
      \/ (format v = "png"%string /\ startsWith PNG_SIGNATURE bytes)
      \/ (format v = "webp"%string /\ startsWith RIFF_SIGNATURE bytes))
  /\ message v = "Image validation successful"%string.
Proof.
  unfold validateImage. change MAX_FILE_SIZE with 5242880.
  destruct (Z.gtb_spec (JS.length bytes) 5242880); [discriminate |].
  destruct (Z.ltb_spec (JS.length bytes) 1000); [discriminate |].
  rewrite detectFormat_cases.
  destruct (every bytes 0 (map toZ JPEG_SIGNATURE)) eqn:Ej;
    [| destruct (every bytes 0 (map toZ PNG_SIGNATURE)) eqn:Ep;
       [| destruct (every bytes 0 (map toZ RIFF_SIGNATURE)) eqn:Er]];
    cbn [negb];
    try discriminate;
    repeat match goal with
           | |- context [(?a =? ?b)%string] =>
               let t := eval vm_compute in (a =? b)%string in
               change (a =? b)%string with t
           end;
    cbv iota;
    repeat match goal with
           | |- context [match ?x with Normal _ => _ | Throw _ => _ end] =>
               destruct x; try discriminate
           end;
    intros Hv; injection Hv as <-; cbn [size format message];
    (split; [lia | split; [reflexivity | split; [| reflexivity]]]).
  - left. split; [reflexivity |]. apply every_startsWith. exact Ej.
  - right. left. split; [reflexivity |]. apply every_startsWith. exact Ep.
  - right. right. split; [reflexivity |]. apply every_startsWith. exact Er.
Qed.





(** One round of the loop is one unfolding of [jpegLoop]. *)
Lemma jpegLoop_round (bytes : Uint8Array) (fuel : nat) (offset : Z) :
  jpegLoop (S fuel) bytes offset
  = match jpegRound bytes offset with
    | Leave c => c
    | Continue offset' => jpegLoop fuel bytes offset'
    end.
Proof.
  cbn [jpegLoop]. unfold jpegRound.
  destruct (offset <? JS.length bytes); [| reflexivity].
  destruct (strictNe (get bytes offset) 255); [reflexivity |].
  destruct (isSOF (get bytes (offset + 1))); reflexivity.
Qed.

(** A round that does not leave the loop started inside the stream and
    has moved the cursor by two or more. *)
Lemma jpegRound_Continue (bytes : Uint8Array) (offset offset' : Z) :
  jpegRound bytes offset = Continue offset' ->
  offset < JS.length bytes /\ offset + 2 <= offset'.
Proof.
  unfold jpegRound.
  destruct (Z.ltb_spec offset (JS.length bytes)); [| discriminate].
  destruct (strictNe (get bytes offset) 255); [discriminate |].
  destruct (isSOF (get bytes (offset + 1))); [discriminate |].
  rewrite read16. pose proof (be16_range bytes (offset + 2)).
  intros H'. injection H' as <-. lia.
Qed.

(** With more rounds than there are bytes after the cursor the loop has
    been left, and [jpegLoop] gives how. *)
Lemma jpegRounds_ends (bytes : Uint8Array) :
  forall rounds offset,
    JS.length bytes - offset <= Z.of_nat rounds ->
    exists c, jpegRounds (S rounds) bytes offset = Leave c
              /\ forall fuel, (rounds < fuel)%nat -> jpegLoop fuel bytes offset = c.
Proof.
  induction rounds as [| rounds IH]; intros offset Hrounds.
  - exists (Normal tt).
    assert (Hround : jpegRound bytes offset = Leave (Normal tt)).
    { unfold jpegRound. destruct (Z.ltb_spec offset (JS.length bytes)); [lia | reflexivity]. }
    split.
    + cbn [jpegRounds]. rewrite Hround. reflexivity.
    + intros [| fuel] Hfuel; [lia |]. rewrite jpegLoop_round, Hround. reflexivity.
  - destruct (jpegRound bytes offset) as [c | offset'] eqn:Hround.
    + exists c. split.
      * cbn [jpegRounds]. rewrite Hround. reflexivity.
      * intros [| fuel] Hfuel; [lia |]. rewrite jpegLoop_round, Hround. reflexivity.
    + pose proof (jpegRound_Continue bytes offset offset' Hround) as [_ Hstep].
      destruct (IH offset') as (c & Hleft & Hloop); [lia |].
      exists c. split.
      * change (jpegRounds (S (S rounds)) bytes offset)
          with (match jpegRound bytes offset with
                | Leave c' => Leave c'
                | Continue o => jpegRounds (S rounds) bytes o
                end).
        rewrite Hround. exact Hleft.
      * intros [| fuel] Hfuel; [lia |]. rewrite jpegLoop_round, Hround.
        apply Hloop. lia.
Qed.
End MoreValidatorFacts.


(** X2.  A request that is not a preflight and for which no user is
    authenticated (no header, an empty one, an authentication error or no
    user) is answered with 400 and one of the two credential reasons; the
    profile is not read and the image is not decoded. *)
Theorem unauthenticated_request_stops
        (atob : string -> Completion string)
        (env : ValidateFaceImage.Env) (req : ValidateFaceImage.Request) :
  ValidateFaceImage.method req <> "OPTIONS"%string ->
  Props.principal env req = None ->
  (snd (ValidateFaceImage.serve atob env req)
   = ValidateFaceImage.mkResponse 400
       (ValidateFaceImage.InvalidBody "Missing authorization header")
   \/ snd (ValidateFaceImage.serve atob env req)
      = ValidateFaceImage.mkResponse 400 (ValidateFaceImage.InvalidBody "Unauthorized"))
  /\ existsb Props.readsProfile (fst (ValidateFaceImage.serve atob env req)) = false
  /\ existsb Props.touchesImage (fst (ValidateFaceImage.serve atob env req)) = false.
Proof.
  intros Hmethod Hnone.
  unfold ValidateFaceImage.serve, ValidateFaceImage.tryBlock.
  apply String.eqb_neq in Hmethod. rewrite Hmethod.
  unfold Props.principal in Hnone.
  destruct (ValidateFaceImage.Authorization req) as [h |];
    [| split; [left |]; split; reflexivity].
  destruct (h =? "")%string; [split; [left |]; split; reflexivity |].
  cbv beta iota zeta delta [bind call ret throw fst snd].
  destruct (ValidateFaceImage.authError
              (ValidateFaceImage.getUser env (removeFirst "Bearer " h)));
    [split; [right |]; split; reflexivity |].
  rewrite Hnone. split; [right |]; split; reflexivity.
Qed.

(** A request without a header, and one whose token the service refuses. *)
Lemma unauthenticated_request_stops_witness :
  ValidateFaceImage.serve Base64.atob Examples.env
    (ValidateFaceImage.mkRequest "POST" None
       (Spec.dataUrl "png" Examples.zerosBase64) "user-1")
  = ([ValidateFaceImage.console_error "Validation error:"],
     ValidateFaceImage.mkResponse 400
       (ValidateFaceImage.InvalidBody "Missing authorization header"))
  /\ existsb Props.readsProfile
       (fst (ValidateFaceImage.serve Base64.atob
               (ValidateFaceImage.mkEnv
                  (fun _ => ValidateFaceImage.mkAuthResponse None true)
                  (ValidateFaceImage.selectFacePhotos Examples.env))
               (Examples.request "expired" "user-1"
                  (Spec.dataUrl "png" Examples.zerosBase64)))) = false.
Proof.
  split.
  - reflexivity.
  - apply (unauthenticated_request_stops Base64.atob
             (ValidateFaceImage.mkEnv
                (fun _ => ValidateFaceImage.mkAuthResponse None true)
                (ValidateFaceImage.selectFacePhotos Examples.env))
             (Examples.request "expired" "user-1"
                (Spec.dataUrl "png" Examples.zerosBase64))).
    + discriminate.
    + reflexivity.
Defined.

(** X3.  The limit counts what the profile read returns.  When the read
    returns a list of 20 photos or more, the function answers the
    authenticated owner with the limit reason whatever the image is, and
    the image is not decoded.  When the read returns no list (it failed,
    or the row has none) the count is taken as zero and the gate is open,
    whatever the profile holds: an image in a well-formed envelope goes on
    to the decoder. *)
Theorem upload_limit_closes_the_gate
        (atob : string -> Completion string)
        (env : ValidateFaceImage.Env) (req : ValidateFaceImage.Request) :
  ValidateFaceImage.method req <> "OPTIONS"%string ->
  Props.principal env req = Some (ValidateFaceImage.userId req) ->
  (forall n : Z,
      ValidateFaceImage.face_photos_length
        (ValidateFaceImage.selectFacePhotos env (ValidateFaceImage.userId req)) = Some n ->
      20 <= n ->
      snd (ValidateFaceImage.serve atob env req)
      = ValidateFaceImage.mkResponse 400
          (ValidateFaceImage.InvalidBody
             "Upload limit exceeded. Maximum 20 photos allowed.")
      /\ existsb Props.touchesImage (fst (ValidateFaceImage.serve atob env req)) = false)
  /\ (ValidateFaceImage.face_photos_length
        (ValidateFaceImage.selectFacePhotos env (ValidateFaceImage.userId req)) = None ->
      forall subtype payload : string,
        ValidateFaceImage.matchDataUrl (ValidateFaceImage.imageData req)
        = Some (subtype, payload) ->
        In (ValidateFaceImage.atob_call payload)
           (fst (ValidateFaceImage.serve atob env req))).
Proof.
  intros Hmethod Hprincipal.
  unfold ValidateFaceImage.serve, ValidateFaceImage.tryBlock.
  apply String.eqb_neq in Hmethod. rewrite Hmethod.
  unfold Props.principal in Hprincipal.
  destruct (ValidateFaceImage.Authorization req) as [h |]; [| discriminate].
  destruct (h =? "")%string; [discriminate |].
  cbv beta iota zeta delta [bind call ret throw fst snd].
  destruct (ValidateFaceImage.authError
              (ValidateFaceImage.getUser env (removeFirst "Bearer " h)));
    [discriminate |].
  rewrite Hprincipal. rewrite String.eqb_refl. cbn [negb].
  change ValidateFaceImage.MAX_UPLOADS_PER_DAY with 20.
  split.
  - intros n Hread Hcount. rewrite Hread.
    destruct (Z.geb_spec n 20) as [_ | Hlt]; [| lia].
    destruct (ValidateFaceImage.countError
                (ValidateFaceImage.selectFacePhotos env (ValidateFaceImage.userId req)));
      split; reflexivity.
  - intros Hread subtype payload Hmatch. rewrite Hread, Hmatch.
    change (0 >=? 20) with false.
    cbv beta iota zeta delta [ValidateFaceImage.lift ret throw fst snd].
    destruct (ValidateFaceImage.countError
                (ValidateFaceImage.selectFacePhotos env (ValidateFaceImage.userId req)));
      (destruct (atob payload) as [binaryString | e];
       [destruct (ValidateFaceImage.validateImage (list_byte_of_string binaryString))
          as [v | e] |]);
      cbn [fst app In]; tauto.
Qed.

(** The owner sends an image.  With a read that returns 20 photos it is
    refused for the limit; with a read that fails it reaches the
    decoder. *)
Lemma upload_limit_closes_the_gate_witness :
  snd (ValidateFaceImage.serve Base64.atob
         (ValidateFaceImage.mkEnv
            (ValidateFaceImage.getUser Examples.env)
            (fun _ => ValidateFaceImage.mkProfileResponse (Some 20) false))
         (Examples.request "user-1" "user-1" (Spec.dataUrl "png" Examples.zerosBase64)))
  = ValidateFaceImage.mkResponse 400
      (ValidateFaceImage.InvalidBody "Upload limit exceeded. Maximum 20 photos allowed.")
  /\ In (ValidateFaceImage.atob_call Examples.zerosBase64)
        (fst (ValidateFaceImage.serve Base64.atob Scenarios.failedRead
                (Examples.request "user-1" "user-1"
                   (Spec.dataUrl "png" Examples.zerosBase64)))).
Proof.
  assert (Hpost : ValidateFaceImage.method
                    (Examples.request "user-1" "user-1"
                       (Spec.dataUrl "png" Examples.zerosBase64))
                  <> "OPTIONS"%string) by discriminate.
  assert (Hcount : 20 <= 20) by discriminate.
  split.
  - exact (proj1 (proj1 (upload_limit_closes_the_gate Base64.atob
                           (ValidateFaceImage.mkEnv
                              (ValidateFaceImage.getUser Examples.env)
                              (fun _ => ValidateFaceImage.mkProfileResponse (Some 20) false))
                           (Examples.request "user-1" "user-1"
                              (Spec.dataUrl "png" Examples.zerosBase64))
                           Hpost eq_refl)
                    20 eq_refl Hcount)).
  - exact (proj2 (upload_limit_closes_the_gate Base64.atob Scenarios.failedRead
                    (Examples.request "user-1" "user-1"
                       (Spec.dataUrl "png" Examples.zerosBase64))
                    Hpost eq_refl)
                 eq_refl "png"%string Examples.zerosBase64 eq_refl).
Defined.

(** X4.  The envelope match succeeds exactly on the strings
    [data:image/<subtype>;base64,<payload>] with a subtype of one or more
    lower-case letters and a payload that is not empty and holds none of
    the four line terminators LF, CR, U+2028 and U+2029, and its two groups
    are that subtype and that payload. *)
Theorem data_url_envelope (imageData subtype payload : string) :
  ValidateFaceImage.matchDataUrl imageData = Some (subtype, payload)
  <-> imageData = Spec.dataUrl subtype payload
      /\ Spec.subtypeOk subtype
      /\ payload <> EmptyString
      /\ ValidateFaceImage.hasLineTerminator payload = false.
Proof.
  split.
  - apply matchDataUrl_sound.
  - intros (-> & Hsub & Hne & Hlt).
    rewrite matchDataUrl_dataUrl by exact Hsub.
    rewrite Hlt. apply String.eqb_neq in Hne. rewrite Hne. reflexivity.
Qed.

(** A payload of letters matches; the same with the line separator U+2028
    in it does not. *)
Lemma data_url_envelope_witness :
  ValidateFaceImage.matchDataUrl (Spec.dataUrl "png" "AAAAAAAA")
  = Some ("png"%string, "AAAAAAAA"%string)
  /\ ValidateFaceImage.hasLineTerminator Scenarios.separatorPayload = true
  /\ ValidateFaceImage.matchDataUrl (Spec.dataUrl "png" Scenarios.separatorPayload)
     = None.
Proof.
  split; [| split; reflexivity].
  apply (proj2 (data_url_envelope (Spec.dataUrl "png" "AAAAAAAA") "png" "AAAAAAAA")).
  split; [reflexivity |]. split; [split; [discriminate | reflexivity] |].
  split; [discriminate | reflexivity].
Defined.

(** X5.  A 200 answer with a body means all of this: the caller was
    authenticated as the owner named in the request; the profile read
    returned no list of photos (then the count is taken as zero, whatever
    the profile holds) or a list of fewer than 20; the payload of the
    envelope was decoded; the decoded bytes number 1000 to 5,242,880; the
    size answered is their number and the format answered is the one whose
    signature they start with. *)
Theorem accepted_request_facts
        (atob : string -> Completion string)
        (env : ValidateFaceImage.Env) (req : ValidateFaceImage.Request)
        (log : list ValidateFaceImage.Call) (v : ValidateFaceImage.Validated) :
  ValidateFaceImage.serve atob env req
  = (log, ValidateFaceImage.mkResponse 200 (ValidateFaceImage.ValidBody v)) ->
  Props.principal env req = Some (ValidateFaceImage.userId req)
  /\ (ValidateFaceImage.face_photos_length
        (ValidateFaceImage.selectFacePhotos env (ValidateFaceImage.userId req)) = None
      \/ exists n : Z,
          ValidateFaceImage.face_photos_length
            (ValidateFaceImage.selectFacePhotos env (ValidateFaceImage.userId req))
          = Some n
          /\ n < 20)
  /\ exists (subtype payload binaryString : string),
      ValidateFaceImage.imageData req = Spec.dataUrl subtype payload
      /\ atob payload = Normal binaryString
      /\ 1000 <= JS.length (list_byte_of_string binaryString) <= 5242880
      /\ ValidateFaceImage.size v = JS.length (list_byte_of_string binaryString)
      /\ ((ValidateFaceImage.format v = "jpeg"%string
           /\ Spec.startsWith Spec.JPEG_SIGNATURE (list_byte_of_string binaryString))
          \/ (ValidateFaceImage.format v = "png"%string
              /\ Spec.startsWith Spec.PNG_SIGNATURE (list_byte_of_string binaryString))
          \/ (ValidateFaceImage.format v = "webp"%string
              /\ Spec.startsWith Spec.RIFF_SIGNATURE (list_byte_of_string binaryString))).
Proof.
  intros Hserve.
  assert (Hid : Props.principal env req = Some (ValidateFaceImage.userId req)
                /\ (ValidateFaceImage.face_photos_length
                      (ValidateFaceImage.selectFacePhotos env
                         (ValidateFaceImage.userId req)) = None
                    \/ exists n : Z,
                        ValidateFaceImage.face_photos_length
                          (ValidateFaceImage.selectFacePhotos env
                             (ValidateFaceImage.userId req))
                        = Some n
                        /\ n < 20)).
  { revert Hserve.
    unfold ValidateFaceImage.serve, ValidateFaceImage.tryBlock, Props.principal.
    destruct (ValidateFaceImage.method req =? "OPTIONS")%string; [discriminate |].
    destruct (ValidateFaceImage.Authorization req) as [h |]; [| discriminate].
    destruct (h =? "")%string; [discriminate |].
    cbv beta iota zeta delta [bind call ret throw fst snd].
    destruct (ValidateFaceImage.authError
                (ValidateFaceImage.getUser env (removeFirst "Bearer " h)));
      [discriminate |].
    destruct (ValidateFaceImage.user_id
                (ValidateFaceImage.getUser env (removeFirst "Bearer " h))) as [id |];
      [| discriminate].
    destruct (String.eqb_spec id (ValidateFaceImage.userId req)) as [-> | _];
      [| discriminate].
    cbn [negb]. change ValidateFaceImage.MAX_UPLOADS_PER_DAY with 20.
    destruct (ValidateFaceImage.face_photos_length
                (ValidateFaceImage.selectFacePhotos env (ValidateFaceImage.userId req)))
      as [n |].
    - destruct (Z.geb_spec n 20) as [| Hlt].
      + destruct (ValidateFaceImage.countError
                    (ValidateFaceImage.selectFacePhotos env
                       (ValidateFaceImage.userId req)));
          discriminate.
      + intros _. split; [reflexivity |]. right. exists n. split; [reflexivity | exact Hlt].
    - intros _. split; [reflexivity |]. left. reflexivity. }
  destruct Hid as [Hprincipal Hcount].
  apply serve_valid_inversion in Hserve
    as (subtype & payload & binaryString & Hmatch & Hatob & Hvalid).
  apply matchDataUrl_sound in Hmatch as (Hurl & _).
  apply validateImage_Normal in Hvalid as (Hsize & Hlen & Hformat & _).
  split; [exact Hprincipal | split; [exact Hcount |]].
  exists subtype, payload, binaryString. repeat split; try assumption; apply Hsize.
Qed.

(** The owner sends 1000 bytes that start with [RIFF]; the profile read
    fails, and the answer is 200 all the same. *)
Lemma accepted_request_facts_witness :
  Props.principal Scenarios.failedRead
    (Examples.request "user-1" "user-1" (Spec.dataUrl "webp" Scenarios.riffBase64))
  = Some "user-1"%string
  /\ snd (ValidateFaceImage.serve Base64.atob Scenarios.failedRead
            (Examples.request "user-1" "user-1"
               (Spec.dataUrl "webp" Scenarios.riffBase64)))
     = ValidateFaceImage.mkResponse 200
         (ValidateFaceImage.ValidBody
            (ValidateFaceImage.mkValidated "webp" 1000 "Image validation successful")).
Proof.
  pose proof (accepted_request_facts Base64.atob Scenarios.failedRead
                (Examples.request "user-1" "user-1"
                   (Spec.dataUrl "webp" Scenarios.riffBase64))
                [ValidateFaceImage.auth_getUser "user-1";
                 ValidateFaceImage.profiles_select_face_photos "user-1";
                 ValidateFaceImage.console_error "Error checking rate limit:";
                 ValidateFaceImage.atob_call Scenarios.riffBase64;
                 ValidateFaceImage.console_log "Image validated: webp, 1000 bytes"]
                (ValidateFaceImage.mkValidated "webp" 1000 "Image validation successful")
                ltac:(vm_compute; reflexivity)) as H.
  split; [exact (proj1 H) | vm_compute; reflexivity].
Defined.

(** X6.  A start-of-frame marker so close to the end of a JPEG stream that
    the two bytes of the width lie beyond it is read with a width of zero:
    the stream is rejected as too small. *)
Theorem frame_header_beyond_the_end (rest : list byte) (m : Z) :
  1000 <= JS.length (Spec.JPEG_SIGNATURE ++ rest) <= 5242880 ->
  Spec.firstSOF (List.length (Spec.JPEG_SIGNATURE ++ rest))
                (Spec.JPEG_SIGNATURE ++ rest) 2 = Some m ->
  JS.length (Spec.JPEG_SIGNATURE ++ rest) <= m + 6 ->
  ValidateFaceImage.validateImage (Spec.JPEG_SIGNATURE ++ rest)
  = Throw "Image too small. Minimum dimensions: 100x100".
Proof.
  set (bytes := (Spec.JPEG_SIGNATURE ++ rest)%list).
  intros Hsize Hm Hend.
  rewrite validateImage_in_bounds by exact Hsize.
  rewrite (detectFormat_jpeg rest : ValidateFaceImage.detectFormat
                                      ValidateFaceImage.MAGIC_BYTES bytes = _).
  cbn [negb]. change (("jpeg" =? "jpeg")%string) with true. cbv iota.
  unfold ValidateFaceImage.validateJpeg.
  rewrite jpegLoop_firstSOF by lia. rewrite Hm.
  assert (Hwidth : Spec.be16 bytes (m + 6) = 0).
  { unfold Spec.be16, Spec.byteAt.
    rewrite (get_beyond bytes (m + 6)) by lia.
    rewrite (get_beyond bytes (m + 6 + 1)) by lia. reflexivity. }
  assert (Hsmall : ValidateFaceImage.checkDimensions
                     (Spec.be16 bytes (m + 6)) (Spec.be16 bytes (m + 4))
                   = Throw "Image too small. Minimum dimensions: 100x100").
  { apply checkDimensions_small. left. rewrite Hwidth. lia. }
  rewrite Hsmall. reflexivity.
Qed.

(** A stream whose application segment ends four bytes before the end,
    where a start-of-frame marker begins. *)
Lemma frame_header_beyond_the_end_witness :
  ValidateFaceImage.validateImage Scenarios.truncatedSOF
  = Throw "Image too small. Minimum dimensions: 100x100".
Proof.
  apply (frame_header_beyond_the_end (skipn 3 Scenarios.truncatedSOF) 997).
  - vm_compute. split; discriminate.
  - reflexivity.
  - vm_compute. discriminate.
Defined.

(** X7.  The walk over the JPEG segments always ends.  A round that does
    not leave the loop started with the cursor inside the stream and has
    moved it forward by two or more, also at a segment whose length is
    given as zero; so with more rounds than the stream has bytes the loop
    has been left, and how it was left is the result of [validateJpeg]. *)
Theorem jpeg_walk_ends (bytes : list byte) :
  (forall offset offset' : Z,
      ValidateFaceImage.jpegRound bytes offset = ValidateFaceImage.Continue offset' ->
      offset < JS.length bytes /\ offset + 2 <= offset')
  /\ (forall rounds : nat,
         (List.length bytes < rounds)%nat ->
         exists c : Completion unit,
           ValidateFaceImage.jpegRounds rounds bytes 2 = ValidateFaceImage.Leave c
           /\ ValidateFaceImage.validateJpeg bytes = c).
Proof.
  split; [apply jpegRound_Continue |].
  intros [| rounds] Hrounds; [lia |].
  destruct (jpegRounds_ends bytes rounds 2) as (c & Hleft & Hloop);
    [unfold JS.length; lia |].
  exists c. split; [exact Hleft |].
  unfold ValidateFaceImage.validateJpeg.
  rewrite <- (Hloop (S rounds + List.length bytes)%nat) by lia.
  symmetry. apply jpegLoop_fuel; [lia | unfold JS.length; lia | lia].
Qed.

(** A stream whose application segment gives its length as zero: the
    round at that segment moves the cursor by two, and the walk is left
    at the next round. *)
Lemma jpeg_walk_ends_witness :
  ValidateFaceImage.jpegRound Scenarios.zeroLengthSegment 2
  = ValidateFaceImage.Continue 4
  /\ ValidateFaceImage.jpegRounds 2 Scenarios.zeroLengthSegment 2
     = ValidateFaceImage.Leave (Normal tt)
  /\ ValidateFaceImage.jpegRounds 1001 Scenarios.zeroLengthSegment 2
     = ValidateFaceImage.Leave
         (ValidateFaceImage.validateJpeg Scenarios.zeroLengthSegment).
Proof.
  split; [reflexivity |]. split; [reflexivity |].
  assert (Hrounds : (List.length Scenarios.zeroLengthSegment < 1001)%nat).
  { apply Nat.ltb_lt. reflexivity. }
  destruct (proj2 (jpeg_walk_ends Scenarios.zeroLengthSegment) 1001%nat Hrounds)
    as (c & Hleft & Hresult).
  rewrite Hresult. exact Hleft.
Defined.

(* ================================================================== *)
(** ** Properties of [send-attendance-email] *)

Section MailFacts.
Import SendAttendanceEmail.

(** The [try] block, case by case. *)
Lemma mail_tryBlock_cases (env : Env) (req : Request) :
  (Props.mailPrincipal env req = None
   /\ exists l reason,
       tryBlock env req tt = (l, tt, Normal (mkResponse 401 (Failure reason)))
       /\ sent l = [])
  \/ (exists u,
         Props.mailPrincipal env req = Some u
         /\ user_email u <> Some (email (body req))
         /\ exists l,
             tryBlock env req tt
             = (l, tt, Normal (mkResponse 403 (Failure "Unauthorized: email mismatch")))
             /\ sent l = [])
  \/ (exists u,
         Props.mailPrincipal env req = Some u
         /\ user_email u = Some (email (body req))
         /\ exists l,
             sent l = [compose (body req)]
             /\ ((exists emailResponse,
                     send env (compose (body req)) = Normal emailResponse
                     /\ tryBlock env req tt
                        = (l, tt, Normal (mkResponse 200 (Success emailResponse))))
                 \/ exists m, send env (compose (body req)) = Throw m
                              /\ tryBlock env req tt = (l, tt, Throw m))).
Proof.
  unfold tryBlock, Props.mailPrincipal.
  destruct (authorization req) as [authHeader |];
    [| left; split; [reflexivity | eexists _, _; split; reflexivity]].
  destruct (authHeader =? "")%string;
    [left; split; [reflexivity | eexists _, _; split; reflexivity] |].
  cbv zeta.
  destruct (if authError (getUser env (removeFirst "Bearer " authHeader))
            then None
            else user (getUser env (removeFirst "Bearer " authHeader))) as [u |];
    [| left; split; [reflexivity | eexists _, _; split; reflexivity]].
  right.
  destruct (user_email u) as [e |] eqn:Ee.
  - destruct (String.eqb_spec e (email (body req))) as [-> | Hne].
    + right. exists u. split; [reflexivity |]. split; [exact Ee |].
      cbn [negb]. cbv beta iota zeta delta [bind call ret throw].
      destruct (send env (compose (body req))) as [emailResponse | m].
      * eexists. split; [| left; exists emailResponse; split; reflexivity]. reflexivity.
      * eexists. split; [| right; exists m; split; reflexivity]. reflexivity.
    + left. exists u. split; [reflexivity |].
      split; [rewrite Ee; congruence |].
      eexists. split; reflexivity.
  - left. exists u. split; [reflexivity |].
    split; [rewrite Ee; discriminate |].
    eexists. split; reflexivity.
Qed.

Lemma mail_sent_app (l l' : list Call) : sent (l ++ l') = (sent l ++ sent l')%list.
Proof. apply flat_map_app. Qed.
End MailFacts.

(** X8.  The mail function sends at most one mail for a request, and a
    mail it sends goes to one address only: the address of the account the
    bearer token belongs to, which is also the [email] of the body. *)
Theorem mail_goes_to_the_caller_only
        (env : SendAttendanceEmail.Env) (req : SendAttendanceEmail.Request)
        (mail : SendAttendanceEmail.Email) :
  In mail (SendAttendanceEmail.sent (fst (SendAttendanceEmail.handler env req))) ->
  SendAttendanceEmail.sent (fst (SendAttendanceEmail.handler env req)) = [mail]
  /\ mail = SendAttendanceEmail.compose (SendAttendanceEmail.body req)
  /\ exists (u : SendAttendanceEmail.User) (address : string),
      Props.mailPrincipal env req = Some u
      /\ SendAttendanceEmail.user_email u = Some address
      /\ SendAttendanceEmail.to mail = [address].
Proof.
  unfold SendAttendanceEmail.handler.
  destruct (SendAttendanceEmail.method req =? "OPTIONS")%string; [intros [] |].
  destruct (mail_tryBlock_cases env req)
    as [(_ & l & reason & -> & Hs)
       | [(u & _ & _ & l & -> & Hs)
         | (u & Hu & He & l & Hs & [(r & _ & ->) | (m & _ & ->)])]];
    cbn [fst]; rewrite ?mail_sent_app, Hs;
    try (intros []; fail); cbn [app SendAttendanceEmail.sent flat_map];
    intros [<- | []]; (split; [reflexivity |]); (split; [reflexivity |]);
    exists u, (SendAttendanceEmail.email (SendAttendanceEmail.body req));
    repeat split; assumption.
Qed.

(** The page of a student asks for the notification of their own record. *)
Lemma mail_goes_to_the_caller_only_witness :
  SendAttendanceEmail.sent
    (fst (SendAttendanceEmail.handler Scenarios.mailEnv
            (Scenarios.mailRequest "asha@example.edu"
               (Camera.emailBody Examples.rejecting Examples.profile))))
  = [SendAttendanceEmail.compose
       (SendAttendanceEmail.ofClient
          (Camera.emailBody Examples.rejecting Examples.profile))].
Proof.
  pose proof (mail_goes_to_the_caller_only Scenarios.mailEnv
                (Scenarios.mailRequest "asha@example.edu"
                   (Camera.emailBody Examples.rejecting Examples.profile))
                (SendAttendanceEmail.compose
                   (SendAttendanceEmail.ofClient
                      (Camera.emailBody Examples.rejecting Examples.profile)))
                (or_introl eq_refl)) as H.
  exact (proj1 H).
Defined.



(** X10.  The notification the camera page or the QR page asks for, sent
    with the token of the student whose account has the address of the
    profile: the mail function answers 200 when the promise of the mail
    service resolves, the one mail goes to that address alone, its subject is
    "Attendance Marked - " and the roll number, and the score of the page
    (0.90 or 1.0) is shown. *)
Theorem page_notification_is_delivered
        (env : SendAttendanceEmail.Env) (token : string) (b : Client.EmailBody)
        (emailResponse : SendAttendanceEmail.CreateEmailResponse) :
  ((exists w prof, b = Camera.emailBody w prof)
   \/ (exists w profile, b = QRScanner.emailBody w profile)) ->
  SendAttendanceEmail.getUser env token
  = SendAttendanceEmail.mkAuthResponse
      (Some (SendAttendanceEmail.mkUser (Some (Client.mail_email b)))) false ->
  SendAttendanceEmail.send env
    (SendAttendanceEmail.compose (SendAttendanceEmail.ofClient b))
  = Normal emailResponse ->
  let request := Scenarios.mailRequest token b in
  let mail := SendAttendanceEmail.compose (SendAttendanceEmail.ofClient b) in
  snd (SendAttendanceEmail.handler env request)
  = SendAttendanceEmail.mkResponse 200 (SendAttendanceEmail.Success emailResponse)
  /\ SendAttendanceEmail.sent (fst (SendAttendanceEmail.handler env request)) = [mail]
  /\ SendAttendanceEmail.to mail = [Client.mail_email b]
  /\ SendAttendanceEmail.subject mail
     = ("Attendance Marked - " ++ Client.mail_rollNumber b)%string
  /\ SendAttendanceEmail.shownConfidence (SendAttendanceEmail.html mail)
     = Some (Client.mail_confidenceScore b).
Proof.
  intros Hpage Huser Hsend. cbv zeta.
  assert (Hrun : SendAttendanceEmail.handler env (Scenarios.mailRequest token b)
                 = ([SendAttendanceEmail.auth_getUser token;
                     SendAttendanceEmail.console_log "Authenticated user verified:";
                     SendAttendanceEmail.console_log "Sending attendance email to:";
                     SendAttendanceEmail.resend_emails_send
                       (SendAttendanceEmail.compose (SendAttendanceEmail.ofClient b));
                     SendAttendanceEmail.console_log "Email sent successfully:"],
                    SendAttendanceEmail.mkResponse 200
                      (SendAttendanceEmail.Success emailResponse))).
  { unfold SendAttendanceEmail.handler, SendAttendanceEmail.tryBlock,
      Scenarios.mailRequest.
    cbn [SendAttendanceEmail.method SendAttendanceEmail.authorization
         SendAttendanceEmail.body String.eqb Ascii.eqb Bool.eqb String.append
         removeFirst stripPrefix].
    cbv zeta. rewrite Huser.
    cbn [SendAttendanceEmail.authError SendAttendanceEmail.user
         SendAttendanceEmail.user_email].
    change (SendAttendanceEmail.email (SendAttendanceEmail.ofClient b))
      with (Client.mail_email b).
    rewrite String.eqb_refl. cbn [negb].
    cbv beta iota zeta delta [bind call ret throw].
    rewrite Hsend. reflexivity. }
  rewrite Hrun. cbn [fst snd].
  destruct Hpage as [(w & prof & ->) | (w & profile & ->)];
    repeat split.
Qed.

(** The camera page of the student of the examples. *)
Lemma page_notification_is_delivered_witness :
  snd (SendAttendanceEmail.handler Scenarios.mailEnv
         (Scenarios.mailRequest "asha@example.edu"
            (Camera.emailBody Examples.rejecting Examples.profile)))
  = SendAttendanceEmail.mkResponse 200
      (SendAttendanceEmail.Success
         (SendAttendanceEmail.mkCreateEmailResponse
            (Some "4ef9a417-02e9-4d39-ad75-9611e0fcc33c"%string) None))
  /\ SendAttendanceEmail.subject
       (SendAttendanceEmail.compose
          (SendAttendanceEmail.ofClient
             (Camera.emailBody Examples.rejecting Examples.profile)))
     = "Attendance Marked - 21CS042"%string.
Proof.
  assert (Hpage : (exists w prof,
                      Camera.emailBody Examples.rejecting Examples.profile
                      = Camera.emailBody w prof)
                  \/ (exists w profile,
                         Camera.emailBody Examples.rejecting Examples.profile
                         = QRScanner.emailBody w profile)).
  { left. exists Examples.rejecting, Examples.profile. reflexivity. }
  pose proof (page_notification_is_delivered Scenarios.mailEnv "asha@example.edu"
                (Camera.emailBody Examples.rejecting Examples.profile)
                (SendAttendanceEmail.mkCreateEmailResponse
                   (Some "4ef9a417-02e9-4d39-ad75-9611e0fcc33c"%string) None)
                Hpage eq_refl eq_refl) as H.
  cbv zeta in H.
  exact (conj (proj1 H) (proj1 (proj2 (proj2 (proj2 H))))).
Defined.

(* ================================================================== *)
(** ** Further properties of the camera page *)

Section MoreCameraFacts.
Import Client.

Lemma uploads_app (l l' : list Call) :
  uploads (l ++ l') = (uploads l ++ uploads l')%list.
Proof. apply flat_map_app. Qed.

Lemma emails_app (l l' : list Call) :
  emails (l ++ l') = (emails l ++ emails l')%list.
Proof. apply flat_map_app. Qed.

Lemma timers_app (l l' : list Call) :
  Props.timers (l ++ l') = (Props.timers l ++ Props.timers l')%list.
Proof. apply flat_map_app. Qed.

(** The state after the timers have fired depends on the timers only. *)
Lemma settle_timers (p : Camera.Props) (l : list Call) :
  forall ui, Camera.settle p l ui
             = fold_left (fun u t => Camera.fire p t u) (Props.timers l) ui.
Proof.
  induction l as [| c l IH]; intros ui; [reflexivity |].
  destruct c; cbn [Camera.settle Props.timers flat_map app fold_left];
    rewrite IH; reflexivity.
Qed.

(** The capture block: it sets the message only, writes at most one
    object, under the name [userFileName], and its result is a URL the
    signing service has answered with. *)
Lemma captureImage_outcome (w : World) (p : Camera.Props) (userId : string)
      (prof : Camera.Profile) (s : Camera.UI) :
  exists (l : list Call) (m : string) (c : Completion (option string)),
    Camera.captureImage w p userId prof s
    = (l, Camera.mkUI (Camera.status s) m (Camera.isProcessing s)
                      (Camera.hasDetected s) (Camera.cameraStopped s), c)
    /\ inserted l = [] /\ emails l = []
    /\ Props.timers l = []
    /\ (uploads l = [] \/ uploads l = [Camera.userFileName w userId prof])
    /\ match c with
       | Normal (Some url) =>
           createSignedUrl w (Camera.userFileName w userId prof) 3600
           = Resolved (Data url)
       | _ => True
       end.
Proof.
  unfold Camera.captureImage.
  destruct (Camera.videoRef p);
    [| destruct s; eexists _, _, _; split; [reflexivity | repeat split; left; reflexivity]].
  destruct (Camera.context2d p);
    [| destruct s; eexists _, _, _; split; [reflexivity | repeat split; left; reflexivity]].
  unfold_prog.
  destruct (toBlob w) as [blob |];
    [| destruct s; eexists _, _, _; split; [reflexivity | repeat split; left; reflexivity]].
  cbv beta iota zeta delta [fst snd].
  cbn [Camera.status Camera.message Camera.isProcessing Camera.hasDetected
       Camera.cameraStopped].
  destruct (upload w (Camera.userFileName w userId prof) blob) as [[[] | e] | e];
    try (eexists _, _, _; split; [reflexivity | repeat split; right; reflexivity]).
  destruct (createSignedUrl w (Camera.userFileName w userId prof) 3600)
    as [[url | e] | e] eqn:E;
    eexists _, _, _; (split; [reflexivity | repeat split; try (right; reflexivity)]).
Qed.

(** The second block: either the insert promise resolves, and the block
    ends in [success] with the notification requested and the timer of the
    final message set; or it is rejected, and the block throws at the
    insert. *)
Lemma markPresent_outcome (w : World) (userId : string) (prof : Camera.Profile)
      (vector : list float) (imageUrl : option string) (s : Camera.UI) :
  (exists (answer : Result unit) (l : list Call),
      insertAttendance w (Camera.row userId prof vector imageUrl) = Resolved answer
      /\ Camera.markPresent w userId prof vector imageUrl s
         = (attendance_records_insert (Camera.row userId prof vector imageUrl) :: l,
            Camera.mkUI Camera.success "âœ… Present Marked" (Camera.isProcessing s)
                        (Camera.hasDetected s) (Camera.cameraStopped s),
            Normal tt)
      /\ uploads l = [] /\ inserted l = []
      /\ emails l = [Camera.emailBody w prof]
      /\ Props.timers l = [markCompleted])
  \/ (exists (reason m : string),
         insertAttendance w (Camera.row userId prof vector imageUrl) = Rejected reason
         /\ Camera.markPresent w userId prof vector imageUrl s
            = ([attendance_records_insert (Camera.row userId prof vector imageUrl)],
               Camera.mkUI (Camera.status s) m (Camera.isProcessing s)
                           (Camera.hasDetected s) (Camera.cameraStopped s),
               Throw reason)).
Proof.
  unfold Camera.markPresent. unfold_prog.
  cbn [Camera.status Camera.message Camera.isProcessing Camera.hasDetected
       Camera.cameraStopped].
  destruct (insertAttendance w (Camera.row userId prof vector imageUrl))
    as [answer | reason] eqn:E.
  - left. exists answer.
    destruct answer as [[] | e];
      destruct (invokeEmail w (Camera.emailBody w prof)) as [[] | e'];
      eexists; (split; [reflexivity |]); (split; [reflexivity |]);
      repeat split; cbn; auto.
  - right. eexists _, _. split; reflexivity.
Qed.

(** [sendAttendance], outcome by outcome: nothing to do; the record is
    made; the failure is reported. *)
Lemma sendAttendance_outcome (w : World) (p : Camera.Props) (vector : list float)
      (s : Camera.UI) :
  ((Camera.user p = None \/ Camera.profile p = None)
   /\ Camera.sendAttendance w p vector s = ([], s, Normal tt))
  \/ exists (userId : string) (prof : Camera.Profile) (l : list Call)
            (imageUrl : option string),
      Camera.user p = Some userId /\ Camera.profile p = Some prof
      /\ (uploads l = [] \/ uploads l = [Camera.userFileName w userId prof])
      /\ match imageUrl with
         | Some url =>
             createSignedUrl w (Camera.userFileName w userId prof) 3600
             = Resolved (Data url)
         | None => True
         end
      /\ ((exists answer : Result unit,
              insertAttendance w (Camera.row userId prof vector imageUrl)
              = Resolved answer)
          /\ Camera.sendAttendance w p vector s
             = (l, Camera.mkUI Camera.success "âœ… Present Marked" (Camera.isProcessing s)
                               (Camera.hasDetected s) (Camera.cameraStopped s),
                Normal tt)
          /\ inserted l = [Camera.row userId prof vector imageUrl]
          /\ emails l = [Camera.emailBody w prof]
          /\ Props.timers l = [markCompleted]
          \/
          Camera.sendAttendance w p vector s
          = (l, Camera.mkUI Camera.error "Error recording attendance. Please try again."
                            (Camera.isProcessing s) (Camera.hasDetected s)
                            (Camera.cameraStopped s),
             Normal tt)
          /\ emails l = []
          /\ (inserted l = []
              \/ inserted l = [Camera.row userId prof vector imageUrl]
                 /\ exists reason : string,
                     insertAttendance w (Camera.row userId prof vector imageUrl)
                     = Rejected reason)
          /\ Props.timers l = [backToScanning]).
Proof.
  unfold Camera.sendAttendance.
  destruct (Camera.user p) as [userId |];
    [| left; split; [left |]; reflexivity].
  destruct (Camera.profile p) as [prof |];
    [| left; split; [right |]; reflexivity].
  right. exists userId, prof. unfold_prog.
  set (s1 := Camera.mkUI _ _ _ _ _).
  destruct (captureImage_outcome w p userId prof s1)
    as (l1 & m1 & c & E1 & Hi1 & He1 & Hs1 & Hu1 & Hc).
  rewrite E1. subst s1.
  cbn [Camera.status Camera.message Camera.isProcessing Camera.hasDetected
       Camera.cameraStopped].
  destruct c as [imageUrl | e].
  - set (s2 := Camera.mkUI _ _ _ _ _).
    destruct (markPresent_outcome w userId prof vector imageUrl s2)
      as [(answer & l2 & Ha & E2 & Hu2 & Hi2 & He2 & Hs2)
         | (reason & m2 & Ha & E2)];
      rewrite E2; subst s2;
      cbn [Camera.status Camera.message Camera.isProcessing Camera.hasDetected
           Camera.cameraStopped];
      unfold Camera.recordingFailed; unfold_prog;
      cbn [Camera.status Camera.message Camera.isProcessing Camera.hasDetected
           Camera.cameraStopped app].
    + exists (l1 ++ attendance_records_insert (Camera.row userId prof vector imageUrl)
                 :: l2)%list, imageUrl.
      split; [reflexivity |]. split; [reflexivity |].
      split; [| split; [exact Hc |]].
      { rewrite uploads_app. cbn [uploads flat_map app]. fold (uploads l2).
        rewrite Hu2, app_nil_r. exact Hu1. }
      left. split; [exists answer; exact Ha |]. split; [reflexivity |].
      rewrite inserted_app, emails_app, timers_app, Hi1, He1, Hs1.
      cbn [inserted emails Props.timers flat_map app].
      fold (inserted l2). fold (emails l2). fold (Props.timers l2).
      rewrite Hi2, He2, Hs2. repeat split.
    + exists ((l1 ++ [attendance_records_insert
                        (Camera.row userId prof vector imageUrl)])
              ++ [console_error "Error sending attendance:";
                  setTimeout backToScanning 3000])%list, imageUrl.
      split; [reflexivity |]. split; [reflexivity |].
      split; [| split; [exact Hc |]].
      { rewrite !uploads_app. cbn [uploads flat_map app].
        rewrite !app_nil_r. exact Hu1. }
      right. split; [reflexivity |].
      rewrite !inserted_app, !emails_app, !timers_app, Hi1, He1, Hs1.
      cbn [inserted emails Props.timers flat_map app]. repeat split.
      right. split; [reflexivity | exists reason; exact Ha].
  - unfold Camera.recordingFailed. unfold_prog.
    cbn [Camera.status Camera.message Camera.isProcessing Camera.hasDetected
         Camera.cameraStopped app].
    exists (l1 ++ [console_error "Error sending attendance:";
                   setTimeout backToScanning 3000])%list, None.
    split; [reflexivity |]. split; [reflexivity |].
    split; [| split; [exact I |]].
    { rewrite uploads_app. cbn [uploads flat_map app]. rewrite app_nil_r. exact Hu1. }
    right. split; [reflexivity |].
    rewrite inserted_app, emails_app, timers_app, Hi1, He1, Hs1.
    cbn [inserted emails Props.timers flat_map app]. repeat split.
    left. reflexivity.
Qed.
End MoreCameraFacts.

(** [sendAttendance] catches what its blocks throw. *)
Lemma sendAttendance_completes
      (w : Client.World) (p : Camera.Props) (vector : list float) (ui : Camera.UI) :
  completionOf (Camera.sendAttendance w p vector ui) = Normal tt.
Proof.
  destruct (sendAttendance_outcome w p vector ui)
    as [(_ & ->) | (userId & prof & l & imageUrl & _ & _ & _ & _ &
                    [(_ & -> & _) | (-> & _)])]; reflexivity.
Qed.

(** X11.  [sendAttendance] never throws, and it ends in one of three
    ways: without a user or a profile it does nothing; or the page shows
    "present", the notification has been requested once and the timer
    turns the page to [completed], where the camera is stopped exactly
    when the video element is there and holds a stream (and is otherwise
    as it was); or the page shows the error, no notification has been
    requested and the timer turns the page back to [scanning], ready for
    another capture. *)
Theorem submission_outcomes
        (w : Client.World) (p : Camera.Props) (vector : list float) (ui : Camera.UI) :
  let run := Camera.sendAttendance w p vector ui in
  let settled := Camera.settle p (logOf run) (stateOf run) in
  completionOf run = Normal tt
  /\ (((Camera.user p = None \/ Camera.profile p = None) /\ run = ([], ui, Normal tt))
      \/ (Camera.status (stateOf run) = Camera.success
          /\ (exists prof, Camera.profile p = Some prof
                           /\ Client.emails (logOf run) = [Camera.emailBody w prof])
          /\ settled = Camera.mkUI Camera.completed
                         "Attendance Recorded Successfully! Check your email."
                         (Camera.isProcessing ui) (Camera.hasDetected ui)
                         (if Camera.videoRef p && Camera.srcObject p then true
                          else Camera.cameraStopped ui))
      \/ (Camera.status (stateOf run) = Camera.error
          /\ Client.emails (logOf run) = []
          /\ settled = Camera.mkUI Camera.scanning
                         "Camera ready. Click 'Capture Attendance' when ready."
                         false false (Camera.cameraStopped ui))).
Proof.
  cbv zeta.
  destruct (sendAttendance_outcome w p vector ui)
    as [(Hnone & ->)
       | (userId & prof & l & imageUrl & Hu & Hp & _ & _ &
          [(_ & -> & _ & He & Ht) | (-> & He & _ & Ht)])];
    (split; [reflexivity |]).
  - left. split; [exact Hnone | reflexivity].
  - right. left. split; [reflexivity |].
    split; [exists prof; split; [exact Hp | exact He] |].
    cbv [logOf stateOf fst snd]. rewrite settle_timers, Ht.
    cbn [fold_left Camera.fire]. unfold Camera.stopCamera.
    destruct (Camera.videoRef p && Camera.srcObject p); reflexivity.
  - right. right. split; [reflexivity |]. split; [exact He |].
    cbv [logOf stateOf fst snd]. rewrite settle_timers, Ht. reflexivity.
Qed.



(** Runs the combinators of a handler and reads the state it has set. *)
Ltac run_prog :=
  cbv beta iota zeta delta
      [Camera.setStatus Camera.setMessage Camera.setIsProcessing Camera.setHasDetected
       Camera.status Camera.message Camera.isProcessing Camera.hasDetected
       Camera.cameraStopped
       bind tryCatch finally await call ret throw modify
       logOf stateOf completionOf fst snd].

Section NotificationFacts.
Import Client.

Lemma withoutConsole_app (l l' : list Call) :
  Props.withoutConsole (l ++ l')
  = (Props.withoutConsole l ++ Props.withoutConsole l')%list.
Proof. apply filter_app. Qed.

(** The second block with another notification service. *)
Lemma markPresent_withEmail (w : World) (service : EmailBody -> Promise unit)
      (userId : string) (prof : Camera.Profile) (vector : list float)
      (imageUrl : option string) (s : Camera.UI) :
  stateOf (Camera.markPresent (Props.withEmail w service) userId prof vector imageUrl s)
  = stateOf (Camera.markPresent w userId prof vector imageUrl s)
  /\ completionOf (Camera.markPresent (Props.withEmail w service) userId prof vector
                                      imageUrl s)
     = completionOf (Camera.markPresent w userId prof vector imageUrl s)
  /\ Props.withoutConsole
       (logOf (Camera.markPresent (Props.withEmail w service) userId prof vector
                                  imageUrl s))
     = Props.withoutConsole (logOf (Camera.markPresent w userId prof vector imageUrl s)).
Proof.
  unfold Camera.markPresent. run_prog.
  cbn [insertAttendance invokeEmail Props.withEmail].
  change (Camera.emailBody (Props.withEmail w service) prof)
    with (Camera.emailBody w prof).
  destruct (insertAttendance w (Camera.row userId prof vector imageUrl))
    as [[[] | e] | reason];
    destruct (invokeEmail w (Camera.emailBody w prof)) as [[] | e1];
    destruct (service (Camera.emailBody w prof)) as [[] | e2];
    repeat split.
Qed.
End NotificationFacts.

(** X13.  The answer of the notification service plays no part in
    [sendAttendance]: with another service, or one that is unreachable,
    the state it leaves and the way it completes are the same, and so are
    the calls it makes, up to the lines written to the console. *)
Theorem notification_answer_is_ignored
        (w : Client.World) (service : Client.EmailBody -> Promise unit)
        (p : Camera.Props) (vector : list float) (ui : Camera.UI) :
  let run := Camera.sendAttendance w p vector ui in
  let run' := Camera.sendAttendance (Props.withEmail w service) p vector ui in
  stateOf run' = stateOf run
  /\ completionOf run' = completionOf run
  /\ Props.withoutConsole (logOf run') = Props.withoutConsole (logOf run).
Proof.
  cbv zeta. unfold Camera.sendAttendance.
  destruct (Camera.user p) as [userId |]; [| repeat split].
  destruct (Camera.profile p) as [prof |]; [| repeat split].
  unfold_prog.
  change (Camera.captureImage (Props.withEmail w service) p userId prof)
    with (Camera.captureImage w p userId prof).
  set (s1 := Camera.mkUI _ _ _ _ _).
  destruct (Camera.captureImage w p userId prof s1) as [[l1 s2] [imageUrl | e]].
  - pose proof (markPresent_withEmail w service userId prof vector imageUrl s2)
      as (Hs & Hc & Hl).
    destruct (Camera.markPresent w userId prof vector imageUrl s2) as [[l s'] c].
    destruct (Camera.markPresent (Props.withEmail w service) userId prof vector
                                 imageUrl s2) as [[l' s''] c'].
    cbv [logOf stateOf completionOf fst snd] in Hs, Hc, Hl. subst s'' c'.
    destruct c as [[] | e]; unfold Camera.recordingFailed; unfold_prog;
      cbv [logOf stateOf completionOf fst snd];
      rewrite ?withoutConsole_app, Hl; repeat split.
  - repeat split.
Qed.

(** X14.  A row [sendAttendance] inserts is the only one of the run; it
    carries the id of the signed-in user and the roll number, name and
    address of the loaded profile; and its image reference is empty or a
    URL the signing service has answered with for the object of the user. *)
Theorem inserted_row_is_the_users
        (w : Client.World) (p : Camera.Props) (vector : list float) (ui : Camera.UI)
        (row : Client.AttendanceRecord) :
  In row (Client.inserted (logOf (Camera.sendAttendance w p vector ui))) ->
  Client.inserted (logOf (Camera.sendAttendance w p vector ui)) = [row]
  /\ Camera.user p = Some (Client.user_id row)
  /\ exists prof : Camera.Profile,
      Camera.profile p = Some prof
      /\ Client.roll_number row = Camera.roll_number prof
      /\ Client.student_name row = Camera.full_name prof
      /\ Client.email row = Camera.email prof
      /\ (Client.image_url row = None
          \/ exists url : string,
              Client.image_url row = Some url
              /\ Client.createSignedUrl w
                   (Camera.userFileName w (Client.user_id row) prof) 3600
                 = Resolved (Data url)).
Proof.
  destruct (sendAttendance_outcome w p vector ui)
    as [(_ & ->)
       | (userId & prof & l & imageUrl & Hu & Hp & _ & Hurl &
          [(_ & -> & Hi & _) | (-> & _ & [Hi | (Hi & _)] & _)])];
    cbv [logOf fst]; rewrite ?Hi; try (intros []; fail);
    intros [<- | []]; (split; [reflexivity |]); (split; [exact Hu |]);
    exists prof; (split; [exact Hp |]); repeat (split; [reflexivity |]);
    cbn [Camera.row Client.image_url Client.user_id];
    (destruct imageUrl as [url |]; [right; exists url; split; [reflexivity | exact Hurl]
                                   | left; reflexivity]).
Qed.

(** The run of the examples. *)
Lemma inserted_row_is_the_users_witness :
  Client.inserted (logOf (Camera.sendAttendance Examples.rejecting Examples.props
                                                [0x1p-3%float] Examples.idle))
  = [Camera.row "user-1" Examples.profile [0x1p-3%float]
       (Some "https://storage.example/user-1/21CS042_1762860000000.jpg"%string)].
Proof.
  pose proof (inserted_row_is_the_users Examples.rejecting Examples.props
                [0x1p-3%float] Examples.idle
                (Camera.row "user-1" Examples.profile [0x1p-3%float]
                   (Some "https://storage.example/user-1/21CS042_1762860000000.jpg"%string))
                (or_introl eq_refl)) as H.
  exact (proj1 H).
Defined.

Section CaptureFacts.
Import Client.

(** [handleCapture], outcome by outcome. *)
Lemma handleCapture_outcome (w : World) (p : Camera.Props) (ui : Camera.UI) :
  Camera.handleCapture w p ui = ([], ui, Normal tt)
  \/ (Camera.isProcessing ui = false
      /\ Camera.user p <> None /\ Camera.profile p <> None
      /\ Camera.videoRef p = true
      /\ ((exists (l : list Call) (m : string),
              (detectSingleFace w = Resolved None
               \/ exists reason, detectSingleFace w = Rejected reason)
              /\ Camera.handleCapture w p ui
                 = (faceapi_detectSingleFace :: l,
                    Camera.mkUI (Camera.status ui) m false (Camera.hasDetected ui)
                                (Camera.cameraStopped ui),
                    Normal tt)
              /\ uploads l = [] /\ inserted l = [] /\ emails l = []
              /\ Props.timers l = [])
          \/ (exists (vector : list float) (l : list Call) (s : Camera.UI),
                 detectSingleFace w = Resolved (Some vector)
                 /\ Camera.sendAttendance w p vector
                      (Camera.mkUI (Camera.status ui) "Detecting face..." true true
                                   (Camera.cameraStopped ui))
                    = (l, s, Normal tt)
                 /\ Camera.handleCapture w p ui
                    = (faceapi_detectSingleFace :: l, s, Normal tt)))).
Proof.
  unfold Camera.handleCapture.
  destruct (Camera.isProcessing ui) eqn:Hbusy; [left; reflexivity |].
  destruct (Camera.user p) as [userId |] eqn:Hu; [| left; reflexivity].
  destruct (Camera.profile p) as [prof |] eqn:Hp; [| left; reflexivity].
  destruct (Camera.videoRef p); [| left; reflexivity].
  destruct (Camera.canvasRef p); [| left; reflexivity].
  right. split; [reflexivity |]. split; [discriminate |]. split; [discriminate |].
  split; [reflexivity |].
  cbn [truthy negb orb]. run_prog.
  destruct (detectSingleFace w) as [[vector |] | reason].
  - right. exists vector.
    pose proof (sendAttendance_completes w p vector
                  (Camera.mkUI (Camera.status ui) "Detecting face..." true true
                               (Camera.cameraStopped ui))) as Hc.
    destruct (Camera.sendAttendance w p vector _) as [[l s] c].
    cbv [completionOf snd] in Hc. subst c.
    exists l, s. split; [reflexivity |]. split; reflexivity.
  - left. eexists _, _. split; [left; reflexivity |].
    split; [reflexivity | repeat split].
  - left. eexists _, _. split; [right; exists reason; reflexivity |].
    split; [reflexivity | repeat split].
Qed.
End CaptureFacts.

(** X15.  When the detector finds no face, or fails, [handleCapture]
    records nothing: no object is written, no row inserted, no
    notification requested and no timer set; the status is the one before,
    and the page is not left busy. *)
Theorem no_face_no_record (w : Client.World) (p : Camera.Props) (ui : Camera.UI) :
  (Client.detectSingleFace w = Resolved None
   \/ exists reason, Client.detectSingleFace w = Rejected reason) ->
  let run := Camera.handleCapture w p ui in
  completionOf run = Normal tt
  /\ Client.uploads (logOf run) = []
  /\ Client.inserted (logOf run) = []
  /\ Client.emails (logOf run) = []
  /\ Props.timers (logOf run) = []
  /\ Camera.status (stateOf run) = Camera.status ui
  /\ Camera.isProcessing (stateOf run) = Camera.isProcessing ui.
Proof.
  intros Hdetect. cbv zeta.
  destruct (handleCapture_outcome w p ui)
    as [-> | (Hbusy & _ & _ & _ &
              [(l & m & _ & -> & Hu & Hi & He & Ht)
              | (vector & l & s & Hface & _)])].
  - repeat split.
  - cbv [logOf stateOf completionOf fst snd].
    cbn [Client.uploads Client.inserted Client.emails Props.timers flat_map app
         Camera.status Camera.isProcessing].
    fold (Client.uploads l). fold (Client.inserted l). fold (Client.emails l).
    fold (Props.timers l).
    rewrite Hu, Hi, He, Ht, Hbusy. repeat split.
  - destruct Hdetect as [Hd | (reason & Hd)]; congruence.
Qed.

(** The camera sees no face. *)
Lemma no_face_no_record_witness :
  logOf (Camera.handleCapture (Client.withDetection Examples.rejecting (Resolved None))
                              Examples.props Examples.idle)
  = [Client.faceapi_detectSingleFace]
  /\ Camera.isProcessing
       (stateOf (Camera.handleCapture
                   (Client.withDetection Examples.rejecting (Resolved None))
                   Examples.props Examples.idle))
     = false.
Proof.
  pose proof (no_face_no_record
                (Client.withDetection Examples.rejecting (Resolved None))
                Examples.props Examples.idle (or_introl eq_refl)) as H.
  cbv zeta in H.
  split; [reflexivity | exact (proj2 (proj2 (proj2 (proj2 (proj2 (proj2 H))))))].
Defined.

(** X16.  A capture that has set the timer of the final message leaves
    the page busy for good: once the timer has fired the page is
    [completed], [isProcessing] and [hasDetected] are still set, and every
    later click on the capture button does nothing, whatever the detector
    and the services would answer.  The camera is stopped by the timer
    exactly when the video element holds a stream; without one it is as it
    was before the capture. *)
Theorem recorded_page_stays_busy
        (w : Client.World) (p : Camera.Props) (ui : Camera.UI) :
  In Client.markCompleted (Props.timers (logOf (Camera.handleCapture w p ui))) ->
  let run := Camera.handleCapture w p ui in
  let settled := Camera.settle p (logOf run) (stateOf run) in
  Camera.videoRef p = true
  /\ settled = Camera.mkUI Camera.completed
                 "Attendance Recorded Successfully! Check your email."
                 true true
                 (if Camera.srcObject p then true else Camera.cameraStopped ui)
  /\ forall w' : Client.World,
      Camera.handleCapture w' p settled = ([], settled, Normal tt).
Proof.
  cbv zeta.
  destruct (handleCapture_outcome w p ui)
    as [-> | (Hbusy & _ & _ & Hvideo &
              [(l & m & _ & -> & _ & _ & _ & Ht)
              | (vector & l & s & _ & Hsend & ->)])].
  - intros [].
  - cbv [logOf fst]. cbn [Props.timers flat_map app]. fold (Props.timers l).
    rewrite Ht. intros [].
  - cbv [logOf stateOf fst snd]. cbn [Props.timers flat_map app Camera.settle].
    fold (Props.timers l).
    destruct (sendAttendance_outcome w p vector
                (Camera.mkUI (Camera.status ui) "Detecting face..." true true
                             (Camera.cameraStopped ui)))
      as [(_ & E)
         | (userId & prof & l0 & imageUrl & _ & _ & _ & _ &
            [(_ & E & _ & _ & Ht) | (E & _ & _ & Ht)])];
      rewrite Hsend in E; injection E as Hl Hs; subst l s.
    + intros [].
    + intros _. split; [exact Hvideo |].
      rewrite settle_timers, Ht. cbn [fold_left Camera.fire].
      unfold Camera.stopCamera. rewrite Hvideo. cbn [andb].
      cbn [Camera.status Camera.message Camera.isProcessing Camera.hasDetected
           Camera.cameraStopped].
      destruct (Camera.srcObject p); (split; [reflexivity |]);
        intros w'; reflexivity.
    + rewrite Ht. intros [H | []]. discriminate.
Qed.

(** The capture of the examples, on a page whose video element holds no
    stream: the page stays busy and the camera is not stopped. *)
Lemma recorded_page_stays_busy_witness :
  Camera.handleCapture Examples.storageDown Scenarios.noStream
    (Camera.settle Scenarios.noStream
       (logOf (Camera.handleCapture Examples.rejecting Scenarios.noStream Examples.idle))
       (stateOf (Camera.handleCapture Examples.rejecting Scenarios.noStream
                                      Examples.idle)))
  = ([],
     Camera.mkUI Camera.completed "Attendance Recorded Successfully! Check your email."
                 true true false,
     Normal tt).
Proof.
  assert (Hin : In Client.markCompleted
                   (Props.timers
                      (logOf (Camera.handleCapture Examples.rejecting Scenarios.noStream
                                                   Examples.idle)))).
  { left. reflexivity. }
  pose proof (recorded_page_stays_busy Examples.rejecting Scenarios.noStream
                Examples.idle Hin) as H.
  cbv zeta in H. destruct H as (_ & Hs & Hnext).
  rewrite Hs in Hnext |- *. exact (Hnext Examples.storageDown).
Defined.

(* ================================================================== *)
(** ** Further properties of the enrolment component *)

Section MoreEnrollmentFacts.
Import Client FaceEnrollment.

Lemma profileUpdates_app (l l' : list Call) :
  profileUpdates (l ++ l') = (profileUpdates l ++ profileUpdates l')%list.
Proof. apply flat_map_app. Qed.

Lemma toasts_app (l l' : list Call) : toasts (l ++ l') = (toasts l ++ toasts l')%list.
Proof. apply flat_map_app. Qed.

Lemma completions_app (l l' : list Call) :
  Props.completions (l ++ l') = (Props.completions l + Props.completions l')%nat.
Proof. unfold Props.completions. rewrite filter_app, length_app. reflexivity. Qed.

(** The loop: it leaves the state alone, it neither updates the profile
    nor reports; every object it writes lies in the folder of the user;
    and when it ends normally it has validated every photo, in order, each
    with success, written one object for each and added one URL for each. *)
Lemma uploadLoop_outcome (w : World) (userId : string) :
  forall (photos : list string) (i : nat) (acc : list string) (st : St),
  exists (l : list Call) (c : Completion (list string)),
    uploadLoop w userId photos i acc st = (l, st, c)
    /\ profileUpdates l = [] /\ toasts l = [] /\ Props.completions l = 0%nat
    /\ Forall (Props.inFolderOf userId) (uploads l)
    /\ (List.length (uploads l) <= List.length photos)%nat
    /\ match c with
       | Normal urls =>
           validations l = photos
           /\ List.length (uploads l) = List.length photos
           /\ (exists new, urls = (acc ++ new)%list
                           /\ List.length new = List.length photos)
           /\ Forall (Props.passes w userId) photos
       | Throw _ => True
       end.
Proof.
  induction photos as [| photo rest IH]; intros i acc st.
  - exists [], (Normal acc). cbn. repeat split; auto.
    exists []. split; [rewrite app_nil_r |]; reflexivity.
  - cbn [uploadLoop]. unfold bind, await, throw.
    destruct (invokeValidate w photo userId) as [r | e] eqn:Ev;
      [| eexists _, _; split; [reflexivity |]; cbn; repeat split; auto with arith].
    destruct (validationFailed r) eqn:Er;
      [eexists _, _; split; [reflexivity |]; cbn; repeat split; auto with arith |].
    destruct (fetchBlob w photo) as [blob | e];
      [| eexists _, _; split; [reflexivity |]; cbn; repeat split; auto with arith].
    set (filePath := (userId ++ "/" ++ _)%string).
    assert (Hfolder : Props.inFolderOf userId filePath) by (eexists; reflexivity).
    destruct (upload w filePath blob) as [[[] | e] | e];
      try (eexists _, _; split; [reflexivity |]; cbn; repeat split;
           auto with arith; fail).
    destruct (createSignedUrl w filePath 31536000) as [[signedUrl | e] | e];
      try (eexists _, _; split; [reflexivity |]; cbn; repeat split;
           auto with arith; fail).
    destruct (IH (S i) (acc ++ [signedUrl])%list st)
      as (l & c & -> & Hpu & Hto & Hco & Hfo & Hle & Hc).
    eexists _, c. split; [reflexivity |].
    cbn [app profileUpdates toasts uploads validations flat_map Props.completions
         filter List.length].
    fold (profileUpdates l). fold (toasts l). fold (uploads l). fold (validations l).
    fold (Props.completions l).
    repeat split; auto with arith.
    destruct c as [urls | m]; [| exact I].
    destruct Hc as (Hv & Hlen & (new & -> & Hnew) & Hall).
    repeat split.
    + rewrite Hv. reflexivity.
    + rewrite Hlen. reflexivity.
    + exists (signedUrl :: new). split; [rewrite <- app_assoc; reflexivity |].
      cbn [List.length]. rewrite Hnew. reflexivity.
    + constructor; [exists r; split; assumption | exact Hall].
Qed.
End MoreEnrollmentFacts.

(** X17.  [uploadPhotos] never throws.  With no photo it only reports
    that.  Otherwise it ends with [uploading] reset, and either it reports
    "Success!" and calls [onComplete] once, after every photo has passed
    the validation, one object has been written for each, and the profile
    has taken one update that holds one URL for each photo of this batch;
    or it reports "Upload Failed" and never calls [onComplete]. *)
Theorem enrolment_outcomes
        (w : Client.World) (userId : string) (photos : list string)
        (uploading : FaceEnrollment.St) :
  let run := FaceEnrollment.uploadPhotos w userId photos uploading in
  completionOf run = Normal tt
  /\ ((photos = []
       /\ run = ([Client.toast "No photos" "Please capture or upload at least one photo."],
                 uploading, Normal tt))
      \/ (stateOf run = false
          /\ Client.toasts (logOf run) = ["Success!"%string]
          /\ Props.completions (logOf run) = 1%nat
          /\ Forall (Props.passes w userId) photos
          /\ Client.validations (logOf run) = photos
          /\ List.length (Client.uploads (logOf run)) = List.length photos
          /\ exists urls : list string,
              Client.profileUpdates (logOf run) = [urls]
              /\ List.length urls = List.length photos
              /\ Client.updateFacePhotos w userId urls = Resolved (Data tt))
      \/ (stateOf run = false
          /\ Client.toasts (logOf run) = ["Upload Failed"%string]
          /\ Props.completions (logOf run) = 0%nat
          /\ (List.length (Client.uploads (logOf run)) <= List.length photos)%nat)).
Proof.
  cbv zeta.
  destruct photos as [| photo rest];
    [split; [reflexivity | left; split; reflexivity] |].
  unfold FaceEnrollment.uploadPhotos.
  cbv beta iota zeta delta [bind modify finally tryCatch call ret throw await].
  destruct (uploadLoop_outcome w userId (photo :: rest) 0 [] true)
    as (l & c & -> & Hpu & Hto & Hco & _ & Hle & Hc).
  destruct c as [urls | m].
  - destruct Hc as (Hv & Hlen & (new & -> & Hnew) & Hall).
    cbn [app] in *.
    destruct (Client.updateFacePhotos w userId new) as [[[] | e] | e] eqn:Eu;
      (split; [reflexivity |]); right;
      cbv [logOf stateOf fst snd];
      rewrite ?toasts_app, ?completions_app, ?uploads_app, ?validations_app,
        ?profileUpdates_app, ?Hpu, ?Hto, ?Hco, ?Hv;
      cbn [app Client.toasts Client.uploads Client.validations Client.profileUpdates
           flat_map Props.completions filter List.length Nat.add];
      rewrite ?app_nil_r.
    + left. repeat split; try assumption.
      exists new. repeat split; assumption.
    + right. repeat split. rewrite Hlen. apply Nat.le_refl.
    + right. repeat split. rewrite Hlen. apply Nat.le_refl.
  - split; [reflexivity |]. right. right.
    cbv [logOf stateOf fst snd].
    rewrite ?toasts_app, ?completions_app, ?uploads_app, Hto, Hco.
    cbn [app Client.toasts Client.uploads flat_map Props.completions filter
         List.length Nat.add].
    rewrite ?app_nil_r. repeat split. exact Hle.
Qed.

(** X18.  Every object the two components write to storage lies in the
    folder of the user concerned: [sendAttendance] writes under the id of
    the signed-in user, [uploadPhotos] under the id the component was
    given. *)
Theorem objects_go_to_the_users_folder
        (w : Client.World) (p : Camera.Props) (vector : list float) (ui : Camera.UI)
        (userId : string) (photos : list string) (uploading : FaceEnrollment.St) :
  (forall path : string,
      In path (Client.uploads (logOf (Camera.sendAttendance w p vector ui))) ->
      exists signedIn : string,
        Camera.user p = Some signedIn /\ Props.inFolderOf signedIn path)
  /\ (forall path : string,
         In path (Client.uploads
                    (logOf (FaceEnrollment.uploadPhotos w userId photos uploading))) ->
         Props.inFolderOf userId path).
Proof.
  split.
  - destruct (sendAttendance_outcome w p vector ui)
      as [(_ & ->)
         | (signedIn & prof & l & imageUrl & Hu & _ & Hup & _ &
            [(_ & -> & _) | (-> & _)])];
      cbv [logOf fst]; try (intros path []; fail);
      (destruct Hup as [-> | ->]; [intros path [] | intros path [<- | []]]);
      exists signedIn; (split; [exact Hu |]); eexists; reflexivity.
  - destruct photos as [| photo rest]; [intros path [] |].
    unfold FaceEnrollment.uploadPhotos.
    cbv beta iota zeta delta [bind modify finally tryCatch call ret throw await].
    destruct (uploadLoop_outcome w userId (photo :: rest) 0 [] true)
      as (l & c & -> & _ & _ & _ & Hfo & _).
    rewrite Forall_forall in Hfo.
    destruct c as [urls | m];
      [destruct (Client.updateFacePhotos w userId urls) as [[[] | e] | e] |];
      cbv [logOf fst]; rewrite ?uploads_app;
      cbn [Client.uploads flat_map app]; rewrite ?app_nil_r;
      exact Hfo.
Qed.

(** The capture of the examples writes to the folder [user-1]. *)
Lemma objects_go_to_the_users_folder_witness :
  Props.inFolderOf "user-1" "user-1/21CS042_1762860000000.jpg".
Proof.
  destruct (proj1 (objects_go_to_the_users_folder Examples.rejecting Examples.props
                     [0x1p-3%float] Examples.idle "user-1" [] false)
              "user-1/21CS042_1762860000000.jpg"%string (or_introl eq_refl))
    as (signedIn & Hu & Hpath).
  injection Hu as <-. exact Hpath.
Defined.

(* ================================================================== *)
(** ** Properties of the QR page *)

(** Runs the combinators of a block of the QR handler and reads the state
    it has set. *)
Ltac run_qr :=
  cbv beta iota zeta delta
      [QRScanner.notifyAndFinish QRScanner.fail
       QRScanner.setScanning QRScanner.setStatus QRScanner.setMessage
       QRScanner.clearScanner
       QRScanner.isScanning QRScanner.status QRScanner.message QRScanner.scanner
       bind tryCatch finally await call ret throw modify
       logOf stateOf completionOf fst snd]; cbn [app].

Section QRFacts.
Import QRScanner.

Lemma qr_inserted_app (l l' : list Call) :
  inserted (l ++ l') = (inserted l ++ inserted l')%list.
Proof. apply flat_map_app. Qed.

Lemma qr_emails_app (l l' : list Call) :
  emails (l ++ l') = (emails l ++ emails l')%list.
Proof. apply flat_map_app. Qed.

Lemma qrTimers_app (l l' : list Call) :
  Props.qrTimers (l ++ l') = (Props.qrTimers l ++ Props.qrTimers l')%list.
Proof. apply flat_map_app. Qed.

(** [stopScanner] never throws and leaves [scanning] unset. *)
Lemma stopScanner_outcome (w : World) (ui : UI) :
  exists (l : list Call) (sc : bool),
    stopScanner w ui = (l, mkUI false (status ui) (message ui) sc, Normal tt)
    /\ inserted l = [] /\ emails l = [] /\ Props.qrTimers l = []
    /\ ~ In (navigate "/") l
    /\ (scanner ui = false -> l = []).
Proof.
  unfold stopScanner. destruct ui as [sc0 st0 m0 scn]. run_qr.
  destruct scn; [destruct (stop w) as [[] | e] |];
    eexists _, _; (split; [reflexivity |]); cbn; repeat split;
    intuition discriminate.
Qed.

(** The [try] block in a state [s]: it sets the status and the message
    only. *)
Lemma tryBlock_outcome (w : World) (qrCode : string) (s : UI) :
  exists (l : list Call) (st : Status) (m : string) (c : Completion unit),
    tryBlock w qrCode s = (l, mkUI (isScanning s) st m (scanner s), c)
    /\ match c with
       | Normal _ =>
           (exists (profile : Profile) (sessionUserId : string),
               selectByQrCode w qrCode = Resolved (Data (Some profile))
               /\ getSession w = Resolved (Some sessionUserId)
               /\ id profile = sessionUserId
               /\ insertAttendance w (row sessionUserId profile) = Resolved (Data tt)
               /\ st = success
               /\ inserted l = [row sessionUserId profile]
               /\ emails l = [emailBody w profile]
               /\ Props.qrTimers l = [toHistory])
           \/ (getSession w = Resolved None
               /\ st = status s
               /\ inserted l = [] /\ emails l = [] /\ Props.qrTimers l = []
               /\ In (navigate "/") l)
           \/ (st = error
               /\ emails l = [] /\ Props.qrTimers l = [backToIdle]
               /\ (inserted l = [] \/ Props.refusedInsert w qrCode l))
       | Throw _ =>
           emails l = [] /\ Props.qrTimers l = []
           /\ (inserted l = [] \/ Props.refusedInsert w qrCode l)
       end.
Proof.
  unfold tryBlock. destruct s as [sc0 st0 m0 scn]. run_qr.
  destruct (selectByQrCode w qrCode) as [[[profile |] | e] | e] eqn:Eprofile;
    try (eexists _, _, _, _; split; [reflexivity |]; cbn;
         first [ right; right; repeat split; left; reflexivity
               | repeat split; left; reflexivity ]; fail).
  destruct (getSession w) as [[sessionUserId |] | e] eqn:Esession;
    try (eexists _, _, _, _; split; [reflexivity |]; cbn;
         first [ right; left; repeat split; right; right; left; reflexivity
               | repeat split; left; reflexivity ]; fail).
  destruct (String.eqb_spec (id profile) sessionUserId) as [Hid | Hid]; cbn [negb];
    [| eexists _, _, _, _; split; [reflexivity |]; cbn;
       right; right; repeat split; left; reflexivity].
  destruct (insertAttendance w (row sessionUserId profile)) as [[[] | e] | e] eqn:Einsert.
  - destruct (invokeEmail w (emailBody w profile)) as [[] | e];
      eexists _, _, _, _; (split; [reflexivity |]); cbn;
      left; exists profile, sessionUserId; repeat split; assumption.
  - eexists _, _, _, _; split; [reflexivity |]; cbn.
    right; right; repeat split. right. exists profile, sessionUserId.
    repeat split; try assumption. rewrite Einsert. discriminate.
  - eexists _, _, _, _; split; [reflexivity |]; cbn.
    repeat split. right. exists profile, sessionUserId.
    repeat split; try assumption. rewrite Einsert. discriminate.
Qed.

(** [handleQRCodeScanned], outcome by outcome: the record is made; the
    visitor is signed out; the failure is reported. *)
Lemma handleQRCodeScanned_outcome (w : World) (qrCode : string) (ui : UI) :
  exists (l : list Call) (s : UI),
    handleQRCodeScanned w qrCode ui = (l, s, Normal tt)
    /\ isScanning s = false
    /\ ((exists (profile : Profile) (sessionUserId : string),
            selectByQrCode w qrCode = Resolved (Data (Some profile))
            /\ getSession w = Resolved (Some sessionUserId)
            /\ id profile = sessionUserId
            /\ insertAttendance w (row sessionUserId profile) = Resolved (Data tt)
            /\ status s = success
            /\ inserted l = [row sessionUserId profile]
            /\ emails l = [emailBody w profile]
            /\ Props.qrTimers l = [toHistory])
        \/ (getSession w = Resolved None
            /\ status s = scanning
            /\ inserted l = [] /\ emails l = [] /\ Props.qrTimers l = []
            /\ In (navigate "/") l)
        \/ (status s = error
            /\ emails l = [] /\ Props.qrTimers l = [backToIdle]
            /\ (inserted l = [] \/ Props.refusedInsert w qrCode l))).
Proof.
  unfold handleQRCodeScanned.
  destruct (stopScanner_outcome w ui) as (l0 & sc & E0 & Hi0 & He0 & Ht0 & Hn0 & _).
  cbv beta iota zeta delta [bind tryCatch setStatus setMessage modify call fail].
  rewrite E0. cbn [isScanning status message scanner].
  set (s1 := mkUI false scanning "Verifying QR code..." sc).
  destruct (tryBlock_outcome w qrCode s1) as (l1 & st & m & c & E1 & Hc).
  rewrite E1. subst s1. cbn [isScanning status message scanner].
  destruct c as [[] | e].
  - eexists _, _. split; [reflexivity |]. split; [reflexivity |].
    cbn [app status].
    rewrite !qr_inserted_app, !qr_emails_app, !qrTimers_app, Hi0, He0, Ht0.
    cbn [app].
    destruct Hc as [(profile & sessionUserId & H)
                   | [(Hs & Hst & Hi & He & Ht & Hnav) | H]].
    + left. exists profile, sessionUserId. exact H.
    + right. left. cbn [status] in Hst. repeat split; try assumption.
      repeat rewrite in_app_iff. tauto.
    + right. right. destruct H as (Hst & He & Ht & Hi).
      repeat split; try assumption.
      destruct Hi as [Hi | (profile & sessionUserId & H1 & H2 & H3 & Hi & H4)];
        [left; exact Hi | right; exists profile, sessionUserId].
      rewrite qr_inserted_app, Hi0. repeat split; assumption.
  - destruct Hc as (He & Ht & Hi).
    eexists _, _. split; [reflexivity |]. split; [reflexivity |].
    right. right. cbn [app status].
    rewrite !qr_inserted_app, !qr_emails_app, !qrTimers_app, Hi0, He0, Ht0, He, Ht.
    cbn [app inserted emails Props.qrTimers flat_map]. rewrite !app_nil_r.
    repeat split.
    destruct Hi as [Hi | (profile & sessionUserId & H1 & H2 & H3 & Hi & H4)];
      [left; exact Hi | right; exists profile, sessionUserId].
    rewrite !qr_inserted_app, Hi0, Hi. repeat split; assumption.
Qed.
End QRFacts.


(** X20.  A QR code that belongs to another user than the one signed in
    is refused: the page shows the error, no row is inserted and no
    notification is requested. *)
Theorem foreign_qr_code_is_refused
        (w : QRScanner.World) (qrCode : string) (ui : QRScanner.UI)
        (profile : QRScanner.Profile) (sessionUserId : string) :
  QRScanner.selectByQrCode w qrCode = Resolved (Data (Some profile)) ->
  QRScanner.getSession w = Resolved (Some sessionUserId) ->
  QRScanner.id profile <> sessionUserId ->
  let run := QRScanner.handleQRCodeScanned w qrCode ui in
  QRScanner.status (stateOf run) = QRScanner.error
  /\ QRScanner.inserted (logOf run) = []
  /\ QRScanner.emails (logOf run) = []
  /\ Props.qrTimers (logOf run) = [QRScanner.backToIdle].
Proof.
  intros Hprofile Hsession Hforeign. cbv zeta.
  destruct (handleQRCodeScanned_outcome w qrCode ui) as (l & s & -> & _ & H).
  cbv [logOf stateOf fst snd].
  destruct H as [(profile' & sessionUserId' & H1 & H2 & H3 & _)
                | [(H2 & _)
                  | (Hst & He & Ht &
                     [Hi | (profile' & sessionUserId' & H1 & H2 & H3 & _)])]];
    try congruence.
  repeat split; assumption.
Qed.

(** The student [user-2] scans the code of [user-1]. *)
Lemma foreign_qr_code_is_refused_witness :
  QRScanner.status
    (stateOf (QRScanner.handleQRCodeScanned
                (Scenarios.qrWorld "user-2" (Resolved (Data tt)))
                "QR-21CS042" Scenarios.qrIdle))
  = QRScanner.error
  /\ QRScanner.inserted
       (logOf (QRScanner.handleQRCodeScanned
                 (Scenarios.qrWorld "user-2" (Resolved (Data tt)))
                 "QR-21CS042" Scenarios.qrIdle))
     = [].
Proof.
  assert (Hforeign : QRScanner.id Scenarios.qrProfile <> "user-2"%string)
    by discriminate.
  pose proof (foreign_qr_code_is_refused
                (Scenarios.qrWorld "user-2" (Resolved (Data tt)))
                "QR-21CS042" Scenarios.qrIdle Scenarios.qrProfile "user-2"
                eq_refl eq_refl Hforeign) as H.
  cbv zeta in H. exact (conj (proj1 H) (proj1 (proj2 H))).
Defined.



(** X22.  A row the QR page inserts is the only one of the scan; it
    carries the id of the signed-in user, who is the owner of the scanned
    code, the roll number, name and address of that profile, the status
    "present" and the score 1.0. *)
Theorem qr_row_is_the_scanners_own
        (w : QRScanner.World) (qrCode : string) (ui : QRScanner.UI) (r : QRScanner.Row) :
  In r (QRScanner.inserted (logOf (QRScanner.handleQRCodeScanned w qrCode ui))) ->
  QRScanner.inserted (logOf (QRScanner.handleQRCodeScanned w qrCode ui)) = [r]
  /\ QRScanner.getSession w = Resolved (Some (QRScanner.user_id r))
  /\ QRScanner.row_status r = "present"%string
  /\ QRScanner.confidence_score r = 1%float
  /\ exists profile : QRScanner.Profile,
      QRScanner.selectByQrCode w qrCode = Resolved (Data (Some profile))
      /\ QRScanner.id profile = QRScanner.user_id r
      /\ QRScanner.row_roll_number r = QRScanner.roll_number profile
      /\ QRScanner.student_name r = QRScanner.full_name profile
      /\ QRScanner.row_email r = QRScanner.email profile.
Proof.
  destruct (handleQRCodeScanned_outcome w qrCode ui) as (l & s & -> & _ & H).
  cbv [logOf fst].
  destruct H as [(profile & sessionUserId & H1 & H2 & H3 & _ & _ & Hi & _)
                | [(_ & _ & Hi & _)
                  | (_ & _ & _ &
                     [Hi | (profile & sessionUserId & H1 & H2 & H3 & Hi & _)])]];
    rewrite Hi; try (intros []; fail);
    intros [<- | []]; (split; [reflexivity |]); (split; [exact H2 |]);
    (split; [reflexivity |]); (split; [reflexivity |]);
    exists profile; repeat split; assumption.
Qed.

(** The student [user-1] scans their code. *)
Lemma qr_row_is_the_scanners_own_witness :
  QRScanner.inserted
    (logOf (QRScanner.handleQRCodeScanned
              (Scenarios.qrWorld "user-1" (Resolved (Data tt)))
              "QR-21CS042" Scenarios.qrIdle))
  = [QRScanner.row "user-1" Scenarios.qrProfile].
Proof.
  pose proof (qr_row_is_the_scanners_own
                (Scenarios.qrWorld "user-1" (Resolved (Data tt)))
                "QR-21CS042" Scenarios.qrIdle
                (QRScanner.row "user-1" Scenarios.qrProfile)
                (or_introl eq_refl)) as H.
  exact (proj1 H).
Defined.

(* ================================================================== *)
(** ** Properties of the photo list of the enrolment component *)

Section PhotoListFacts.
Import EnrollmentPhotos.

(** Past the index, the filter keeps everything. *)
Lemma filterIndex_past (index : nat) :
  forall (prev : list string) (i : nat),
    (index < i)%nat -> filterIndex index i prev = prev.
Proof.
  induction prev as [| photo rest IH]; intros i Hi; [reflexivity |].
  cbn [filterIndex]. destruct (Nat.eqb_spec i index) as [E | _]; [lia |].
  rewrite IH by lia. reflexivity.
Qed.

(** The filter of [removePhoto] drops the element at [index], counted
    from the index [i] of the head. *)
Lemma filterIndex_spec (index : nat) :
  forall (prev : list string) (i : nat),
    (i <= index)%nat ->
    filterIndex index i prev
    = (firstn (index - i) prev ++ skipn (S (index - i)) prev)%list.
Proof.
  induction prev as [| photo rest IH]; intros i Hi.
  - cbn [filterIndex]. rewrite firstn_nil, skipn_nil. reflexivity.
  - cbn [filterIndex]. destruct (Nat.eqb_spec i index) as [-> | Hne].
    + rewrite Nat.sub_diag. cbn [firstn skipn app].
      apply filterIndex_past. lia.
    + rewrite (IH (S i)) by lia.
      replace (index - i)%nat with (S (index - S i)) by lia.
      reflexivity.
Qed.
End PhotoListFacts.

(** X23.  [removePhoto] drops the photo at the index given and nothing
    else: the list is what came before that index followed by what came
    after it; it is one shorter when the index is in range and unchanged
    when it is not; the camera flag is left alone. *)
Theorem removePhoto_drops_one (index : nat) (st : EnrollmentPhotos.St) :
  let st' := EnrollmentPhotos.removePhoto index st in
  EnrollmentPhotos.photos st'
  = (firstn index (EnrollmentPhotos.photos st)
       ++ skipn (S index) (EnrollmentPhotos.photos st))%list
  /\ EnrollmentPhotos.cameraActive st' = EnrollmentPhotos.cameraActive st
  /\ ((index < List.length (EnrollmentPhotos.photos st))%nat ->
      S (List.length (EnrollmentPhotos.photos st'))
      = List.length (EnrollmentPhotos.photos st))
  /\ ((List.length (EnrollmentPhotos.photos st) <= index)%nat ->
      EnrollmentPhotos.photos st' = EnrollmentPhotos.photos st).
Proof.
  cbv zeta. unfold EnrollmentPhotos.removePhoto.
  cbn [EnrollmentPhotos.photos EnrollmentPhotos.cameraActive].
  rewrite filterIndex_spec by lia. rewrite Nat.sub_0_r.
  split; [reflexivity |]. split; [reflexivity |]. split.
  - intros Hlt. rewrite length_app, length_firstn, length_skipn. lia.
  - intros Hle. rewrite firstn_all2 by exact Hle.
    rewrite skipn_all2 by lia. apply app_nil_r.
Qed.

(** The second of three photos. *)
Lemma removePhoto_drops_one_witness :
  EnrollmentPhotos.photos
    (EnrollmentPhotos.removePhoto 1
       (EnrollmentPhotos.mkSt ["a"%string; "b"%string; "c"%string] true))
  = ["a"%string; "c"%string].
Proof.
  exact (proj1 (removePhoto_drops_one 1
                  (EnrollmentPhotos.mkSt ["a"%string; "b"%string; "c"%string] true))).
Defined.

(** X24.  [capturePhoto] with a video element and a drawing context puts
    the new photo last, so removing the last index gives the list back.
    The camera is stopped exactly when the list has reached three photos
    or more and the video element holds a stream; in every other case,
    below three photos or without a stream, the camera flag is what it
    was. *)
Theorem capture_appends_and_stops_at_three
        (srcObject : bool) (dataUrl : string) (st : EnrollmentPhotos.St) :
  let st' := EnrollmentPhotos.capturePhoto true srcObject true dataUrl st in
  EnrollmentPhotos.photos st' = (EnrollmentPhotos.photos st ++ [dataUrl])%list
  /\ EnrollmentPhotos.photos
       (EnrollmentPhotos.removePhoto (List.length (EnrollmentPhotos.photos st)) st')
     = EnrollmentPhotos.photos st
  /\ EnrollmentPhotos.cameraActive st'
     = (if (3 <=? List.length (EnrollmentPhotos.photos st'))%nat && srcObject
        then false
        else EnrollmentPhotos.cameraActive st).
Proof.
  cbv zeta.
  assert (Hphotos : EnrollmentPhotos.photos
                      (EnrollmentPhotos.capturePhoto true srcObject true dataUrl st)
                    = (EnrollmentPhotos.photos st ++ [dataUrl])%list).
  { unfold EnrollmentPhotos.capturePhoto, EnrollmentPhotos.stopCamera. cbn [negb andb].
    destruct (2 <=? List.length (EnrollmentPhotos.photos st))%nat;
      [destruct srcObject |]; reflexivity. }
  split; [exact Hphotos |]. split.
  - unfold EnrollmentPhotos.removePhoto. cbn [EnrollmentPhotos.photos].
    rewrite Hphotos, filterIndex_spec by lia. rewrite Nat.sub_0_r.
    rewrite firstn_app, Nat.sub_diag, firstn_all, app_nil_r.
    rewrite skipn_all2 by (rewrite length_app; cbn [List.length]; lia).
    apply app_nil_r.
  - rewrite Hphotos, length_app. cbn [List.length].
    replace (List.length (EnrollmentPhotos.photos st) + 1)%nat
      with (S (List.length (EnrollmentPhotos.photos st))) by lia.
    change (3 <=? S (List.length (EnrollmentPhotos.photos st)))%nat
      with (2 <=? List.length (EnrollmentPhotos.photos st))%nat.
    unfold EnrollmentPhotos.capturePhoto, EnrollmentPhotos.stopCamera. cbn [negb andb].
    destruct (2 <=? List.length (EnrollmentPhotos.photos st))%nat;
      [destruct srcObject |]; reflexivity.
Qed.

(** The third capture, with a stream and without one. *)
Lemma capture_appends_and_stops_at_three_witness :
  EnrollmentPhotos.capturePhoto true true true "c"
    (EnrollmentPhotos.mkSt ["a"%string; "b"%string] true)
  = EnrollmentPhotos.mkSt ["a"%string; "b"%string; "c"%string] false
  /\ EnrollmentPhotos.capturePhoto true false true "c"
       (EnrollmentPhotos.mkSt ["a"%string; "b"%string] true)
     = EnrollmentPhotos.mkSt ["a"%string; "b"%string; "c"%string] true.
Proof.
  assert (Hst : forall ps active (st : EnrollmentPhotos.St),
             EnrollmentPhotos.photos st = ps ->
             EnrollmentPhotos.cameraActive st = active ->
             st = EnrollmentPhotos.mkSt ps active).
  { intros ps active [ps' active'] Hp Ha. cbn in Hp, Ha. subst. reflexivity. }
  split.
  - pose proof (capture_appends_and_stops_at_three true "c"
                  (EnrollmentPhotos.mkSt ["a"%string; "b"%string] true)) as H.
    cbv zeta in H. destruct H as (Hp & _ & Hstop).
    apply Hst; [exact Hp |]. rewrite Hstop, Hp. reflexivity.
  - pose proof (capture_appends_and_stops_at_three false "c"
                  (EnrollmentPhotos.mkSt ["a"%string; "b"%string] true)) as H.
    cbv zeta in H. destruct H as (Hp & _ & Hstop).
    apply Hst; [exact Hp |]. rewrite Hstop, Hp. reflexivity.
Defined.
